(** * The host agent: task translation, container lifecycle and polling loop

    A shallow embedding of [agent.py] ([Agent.process_task]),
    [clean_manager.py] ([ContainerManager]) and [api_client.py]
    ([APIClient.poll_for_tasks], [send_task_status]).

    Python values are the ones [response.json()] produces.  Code that talks
    to the container engine, to sockets or to the control plane runs in a
    state-and-exception monad over a [world] that holds the engine's state
    and the trace of everything the agent did to the outside. *)

From Stdlib Require Import ZArith List String Ascii Bool Lia.
From Stdlib Require Import Floats.SpecFloat DecimalString.
Import ListNotations.

#[local] Set Warnings "-register-all".

Open Scope string_scope.
Open Scope Z_scope.

(** ** Python values *)

(** What [json] hands to the agent: [None], booleans, unbounded integers,
    binary64 floats, strings, lists, and objects with string keys (kept as
    association lists in insertion order, as [dict] iterates). *)
Inductive value : Type :=
| VNone
| VBool (b : bool)
| VInt (n : Z)
| VFloat (f : spec_float)
| VStr (s : string)
| VList (l : list value)
| VDict (d : list (string * value)).

Definition dict : Type := list (string * value).

(** The exceptions the modelled code can meet.  All of them are subclasses of
    [Exception]; [Timeout] and [ConnectionError] are the two classes of
    [requests.exceptions] that the polling loop names. *)
Inductive exn : Type :=
| TypeError
| ValueError
| AttributeError
| OverflowError
| OSError
| CalledProcessError (returncode : Z)
| RuntimeError (msg : string)
| Timeout
| ConnectionError
| OtherError (msg : string).

Inductive result (A : Type) : Type :=
| Ok (a : A)
| Raise (e : exn).
Arguments Ok {A} a.
Arguments Raise {A} e.

(** [d.get(k)] and [d.get(k, default)]. *)
Fixpoint lookup (d : dict) (k : string) : option value :=
  match d with
  | [] => None
  | (k', v) :: rest => if String.eqb k k' then Some v else lookup rest k
  end.

Definition get_default (d : dict) (k : string) (default : value) : value :=
  match lookup d k with
  | Some v => v
  | None => default
  end.

Definition get (d : dict) (k : string) : value := get_default d k VNone.

(** Truth value of an object: [if x], [not x], [x or y], [all([...])]. *)
Definition float_is_zero (f : spec_float) : bool :=
  match f with
  | S754_zero _ => true
  | _ => false
  end.

Definition truthy (v : value) : bool :=
  match v with
  | VNone => false
  | VBool b => b
  | VInt n => negb (n =? 0)
  | VFloat f => negb (float_is_zero f)
  | VStr s => negb (String.eqb s "")
  | VList l => match l with [] => false | _ => true end
  | VDict d => match d with [] => false | _ => true end
  end.

Definition py_or (x y : value) : value := if truthy x then x else y.

(** ** Floats: binary64 *)

Definition prec : Z := 53.
Definition emax : Z := 1024.

(** [int(f)]: truncation toward zero; [inf] and [nan] raise. *)
Definition float_to_int (f : spec_float) : result Z :=
  match f with
  | S754_zero _ => Ok 0
  | S754_finite s m e => Ok (cond_Zopp s (Z.shiftl (Zpos m) e))
  | S754_infinity _ => Raise OverflowError
  | S754_nan => Raise ValueError
  end.

(** [n / 2] for an [int] [n]: true division, the exact quotient rounded to
    the nearest binary64 (ties to even); [OverflowError] when the quotient is
    too large for a float. *)
Definition int_truediv_2 (n : Z) : result spec_float :=
  match binary_normalize prec emax n (-1) false with
  | S754_infinity _ => Raise OverflowError
  | f => Ok f
  end.

(** [n == f] for an [int] [n] and a float [f]: compares exact values. *)
Definition float_eq_int (f : spec_float) (n : Z) : bool :=
  match f with
  | S754_zero _ => n =? 0
  | S754_finite s m e =>
      if 0 <=? e then cond_Zopp s (Z.shiftl (Zpos m) e) =? n
      else (cond_Zopp s (Zpos m) =? Z.shiftl n (- e))
  | _ => false
  end.

(** [v == n] for an integer literal [n] (here [0] and [22]). *)
Definition eq_int (v : value) (n : Z) : bool :=
  match v with
  | VBool b => (if b then 1 else 0) =? n
  | VInt m => m =? n
  | VFloat f => float_eq_int f n
  | _ => false
  end.

(** ** Strings

    A [str] is kept as its UTF-8 bytes, and what Python decides by the
    character ([strip], [lower], [splitlines], [int]) is decided here by the
    code point the bytes encode. *)

Definition chars (s : string) : list ascii := list_ascii_of_string s.
Definition text (cs : list ascii) : string := string_of_list_ascii cs.

Definition code (c : ascii) : Z := Z.of_nat (nat_of_ascii c).

Definition continuation (c : ascii) : bool := (128 <=? code c) && (code c <=? 191).

(** The code point that starts with the byte [a], and the number of bytes
    that follow [a] in its encoding: shortest forms only, no surrogates,
    nothing beyond [U+10FFFF]. *)
Definition utf8_head (a : ascii) (rest : list ascii) : option (Z * nat) :=
  if code a <? 128 then Some (code a, 0%nat)
  else if (194 <=? code a) && (code a <=? 223) then
    match rest with
    | b :: _ =>
        if continuation b
        then Some ((code a - 192) * 64 + (code b - 128), 1%nat)
        else None
    | _ => None
    end
  else if (224 <=? code a) && (code a <=? 239) then
    match rest with
    | b :: c :: _ =>
        let cp := (code a - 224) * 4096 + (code b - 128) * 64 + (code c - 128) in
        if continuation b && continuation c && (2048 <=? cp)
           && negb ((55296 <=? cp) && (cp <=? 57343))
        then Some (cp, 2%nat)
        else None
    | _ => None
    end
  else if (240 <=? code a) && (code a <=? 244) then
    match rest with
    | b :: c :: d :: _ =>
        let cp := (code a - 240) * 262144 + (code b - 128) * 4096
                  + (code c - 128) * 64 + (code d - 128) in
        if continuation b && continuation c && continuation d
           && (65536 <=? cp) && (cp <=? 1114111)
        then Some (cp, 3%nat)
        else None
    | _ => None
    end
  else None.

(** A byte that belongs to no well-formed sequence is a character of its
    own, numbered beyond the code points. *)
Definition stray (a : ascii) : Z := 1114112 + code a.

(** The characters of a string: each code point with the bytes that encode
    it.  [skip] counts the bytes still to pass of the character just read. *)
Fixpoint units_from (cs : list ascii) (skip : nat) : list (Z * list ascii) :=
  match cs with
  | [] => []
  | a :: rest =>
      match skip with
      | S k => units_from rest k
      | O =>
          match utf8_head a rest with
          | Some (cp, n) => (cp, a :: firstn n rest) :: units_from rest n
          | None => (stray a, [a]) :: units_from rest 0
          end
      end
  end.

Definition units (s : string) : list (Z * list ascii) := units_from (chars s) 0.

Definition of_units (us : list (Z * list ascii)) : string :=
  text (List.concat (map snd us)).

(** [str.isspace] of one character: what [str.strip()] removes. *)
Definition is_space (cp : Z) : bool :=
  ((9 <=? cp) && (cp <=? 13)) || ((28 <=? cp) && (cp <=? 32))
  || (cp =? 133) || (cp =? 160) || (cp =? 5760)
  || ((8192 <=? cp) && (cp <=? 8202))
  || (cp =? 8232) || (cp =? 8233) || (cp =? 8239) || (cp =? 8287)
  || (cp =? 12288).

Fixpoint lstrip (us : list (Z * list ascii)) : list (Z * list ascii) :=
  match us with
  | u :: rest => if is_space (fst u) then lstrip rest else us
  | [] => []
  end.

Definition strip (s : string) : string :=
  of_units (rev (lstrip (rev (lstrip (units s))))).

(** [str.lower()] of the ASCII letters and of the Kelvin sign, the one
    character outside ASCII whose lower case is an ASCII letter; the bytes of
    the other characters are kept, which leaves every comparison of the
    result with an ASCII word as Python has it. *)
Definition lower_unit (u : Z * list ascii) : list ascii :=
  if (65 <=? fst u) && (fst u <=? 90) then [ascii_of_nat (Z.to_nat (fst u + 32))]
  else if fst u =? 8490 then [ascii_of_nat 107]
  else snd u.

Definition lower (s : string) : string :=
  text (List.concat (map lower_unit (units s))).

Fixpoint starts_with (p s : list ascii) : bool :=
  match p, s with
  | [], _ => true
  | a :: p', b :: s' => Ascii.eqb a b && starts_with p' s'
  | _ :: _, [] => false
  end.

Fixpoint contains_chars (p s : list ascii) : bool :=
  starts_with p s ||
  match s with
  | [] => false
  | _ :: s' => contains_chars p s'
  end.

(** [needle in hay] on strings. *)
Definition contains (needle hay : string) : bool :=
  contains_chars (chars needle) (chars hay).

(** [x in xs] for a string in a list of strings. *)
Definition mem (x : string) (xs : list string) : bool :=
  existsb (String.eqb x) xs.

(** [sep.join(parts)]. *)
Fixpoint join (sep : string) (parts : list string) : string :=
  match parts with
  | [] => ""
  | [p] => p
  | p :: rest => p ++ sep ++ join sep rest
  end.

(** [str.splitlines()]: the line boundaries are newline, carriage return
    (alone or before a newline), vertical tab, form feed, the file, group and
    record separators, next line ([U+0085]) and the line and paragraph
    separators ([U+2028], [U+2029]). *)
Definition is_linebreak (cp : Z) : bool :=
  ((10 <=? cp) && (cp <=? 13)) || ((28 <=? cp) && (cp <=? 30))
  || (cp =? 133) || (cp =? 8232) || (cp =? 8233).

Fixpoint splitlines_from (us : list (Z * list ascii)) (cur : list ascii)
  : list string :=
  match us with
  | [] => match cur with [] => [] | _ => [text cur] end
  | u :: rest =>
      if is_linebreak (fst u) then
        match rest with
        | u' :: rest' =>
            if (fst u =? 13) && (fst u' =? 10)
            then text cur :: splitlines_from rest' []
            else text cur :: splitlines_from rest []
        | [] => [text cur]
        end
      else splitlines_from rest (cur ++ snd u)
  end.

Definition splitlines (s : string) : list string := splitlines_from (units s) [].

(** [str(n)] for an [int] that [json] has decoded: the interpreter prints
    every integer that it parses. *)
Definition str_of_int (n : Z) : string := NilZero.string_of_int (Z.to_int n).

(** [int(s)] for a string, base 10.

    The first code point of each run of ten decimal digits outside ASCII
    (Unicode 14.0, the character database of CPython 3.11). *)
Definition decimal_zeros : list Z :=
  [1632; 1776; 1984; 2406; 2534; 2662; 2790; 2918; 3046; 3174; 3302; 3430;
   3558; 3664; 3792; 3872; 4160; 4240; 6112; 6160; 6470; 6608; 6784; 6800;
   6992; 7088; 7232; 7248; 42528; 43216; 43264; 43472; 43504; 43600; 44016;
   65296; 66720; 68912; 69734; 69872; 69942; 70096; 70384; 70736; 70864;
   71248; 71360; 71472; 71904; 72016; 72784; 73040; 73120; 92768; 92864;
   93008; 120782; 120792; 120802; 120812; 120822; 123200; 123632; 125264;
   130032].

Definition decimal_value (cp : Z) : option Z :=
  match find (fun zero => (zero <=? cp) && (cp <? zero + 10)) decimal_zeros with
  | Some zero => Some (cp - zero)
  | None => None
  end.

(** What [int] parses: a character below 127 as it is, another whitespace
    character as a space, another decimal digit as its ASCII digit; any
    other character makes the conversion fail. *)
Fixpoint to_ascii_digits (us : list (Z * list ascii)) : option (list Z) :=
  match us with
  | [] => Some []
  | u :: rest =>
      let cp := fst u in
      match (if cp <? 127 then Some cp
             else if is_space cp then Some 32
             else option_map (Z.add 48) (decimal_value cp)) with
      | Some c => option_map (cons c) (to_ascii_digits rest)
      | None => None
      end
  end.

(** The whitespace the parser itself skips: tab to carriage return, space. *)
Definition is_c_space (c : Z) : bool := ((9 <=? c) && (c <=? 13)) || (c =? 32).

Fixpoint skip_c_space (cs : list Z) : list Z :=
  match cs with
  | c :: rest => if is_c_space c then skip_c_space rest else cs
  | [] => []
  end.

(** The digits, with single underscores between them: the value, the number
    of digits, and what follows. *)
Fixpoint scan_digits (cs : list Z) (acc digits : Z) (after_digit : bool)
  : option (Z * Z * list Z) :=
  match cs with
  | c :: rest =>
      if (48 <=? c) && (c <=? 57)
      then scan_digits rest (10 * acc + (c - 48)) (digits + 1) true
      else if c =? 95 then
        if after_digit then scan_digits rest acc digits false else None
      else if after_digit then Some (acc, digits, cs) else None
  | [] => if after_digit then Some (acc, digits, []) else None
  end.

(** The interpreter's limit on the digits of a decimal literal. *)
Definition max_str_digits : Z := 4300.

Definition parse_int (cs : list Z) : option Z :=
  let body := skip_c_space cs in
  let '(negative, body) :=
    match body with
    | c :: rest =>
        if c =? 45 then (true, rest)
        else if c =? 43 then (false, rest)
        else (false, body)
    | [] => (false, [])
    end in
  match scan_digits body 0 0 false with
  | Some (n, digits, rest) =>
      match skip_c_space rest with
      | [] => if digits <=? max_str_digits
              then Some (if negative then - n else n)
              else None
      | _ :: _ => None
      end
  | None => None
  end.

Definition int_of_str (s : string) : option Z :=
  match to_ascii_digits (units s) with
  | Some cs => parse_int cs
  | None => None
  end.

(** [int(v)]. *)
Definition py_int (v : value) : result Z :=
  match v with
  | VBool b => Ok (if b then 1 else 0)
  | VInt n => Ok n
  | VFloat f => float_to_int f
  | VStr s => match int_of_str s with Some n => Ok n | None => Raise ValueError end
  | VNone | VList _ | VDict _ => Raise TypeError
  end.

(** ** Resource translation ([Agent.process_task], the locals computed from
    [task_data]) *)

Definition as_list (v : value) : option (list value) :=
  match v with
  | VList l => Some l
  | _ => None
  end.

(** [[int(i) for i in vs]]: the first element that does not convert raises. *)
Fixpoint ints_of (vs : list value) : result (list Z) :=
  match vs with
  | [] => Ok []
  | v :: rest =>
      match py_int v with
      | Raise e => Raise e
      | Ok n =>
          match ints_of rest with
          | Raise e => Raise e
          | Ok ns => Ok (n :: ns)
          end
      end
  end.

Definition gpu_required (task_data : dict) : value :=
  py_or (get_default task_data "gpu_required" (VInt 0)) (VInt 0).

Definition gpu_indices (task_data : dict) : value :=
  py_or (get task_data "gpu_enabled_indices") (VList []).

(** [if gpu_required and isinstance(gpu_indices, list) and len(gpu_indices) > 0]
    with its [try], then [elif gpu_required]. *)
Definition gpus_param (task_data : dict) : option string :=
  match as_list (gpu_indices task_data) with
  | Some (i :: l) =>
      if truthy (gpu_required task_data) then
        match ints_of (i :: l) with
        | Ok ns => Some (join "," (map str_of_int ns))
        | Raise _ => Some "all"
        end
      else None
  | _ => if truthy (gpu_required task_data) then Some "all" else None
  end.

(** The loop body over [cpu_allocated_ranges]: an element that is a list of
    length two is converted and appended, any other element is skipped; a
    failing [int()] leaves the loop with the exception. *)
Fixpoint collect_ranges (rs : list value) (ranges : list string) : result (list string) :=
  match rs with
  | [] => Ok ranges
  | r :: rest =>
      match r with
      | VList [a; b] =>
          match py_int a with
          | Raise e => Raise e
          | Ok start =>
              match py_int b with
              | Raise e => Raise e
              | Ok stop =>
                  collect_ranges rest
                    (ranges ++ [(str_of_int start ++ "-" ++ str_of_int stop)%string])%list
              end
          end
      | _ => collect_ranges rest ranges
      end
  end.

Definition cpu_allocated_ranges (task_data : dict) : value :=
  py_or (get task_data "cpu_allocated_ranges") (VList []).

Definition cpuset_cpus (task_data : dict) : option string :=
  match as_list (cpu_allocated_ranges task_data) with
  | Some (r :: rs) =>
      match collect_ranges (r :: rs) [] with
      | Ok (x :: xs) => Some (join "," (x :: xs))
      | Ok [] => None
      | Raise _ => None
      end
  | _ => None
  end.

(** [int(x) if x is not None else None], [None] when [int] raises. *)
Definition int_or_none (v : value) : option Z :=
  match v with
  | VNone => None
  | _ => match py_int v with Ok n => Some n | Raise _ => None end
  end.

Definition memory_gb (task_data : dict) : option Z :=
  int_or_none (get task_data "ram_allocated_gb").

Definition storage_gb (task_data : dict) : option Z :=
  int_or_none (get task_data "storage_allocated_gb").

(** [max(1, int(memory_gb / 2))] when [memory_gb] is set and positive. *)
Definition shm_of_memory (memory : option Z) : option Z :=
  match memory with
  | Some m =>
      if 0 <? m then
        match int_truediv_2 m with
        | Ok half =>
            match float_to_int half with
            | Ok k => Some (Z.max 1 k)
            | Raise _ => None
            end
        | Raise _ => None
        end
      else None
  | None => None
  end.

Definition shm_size_gb (task_data : dict) : option Z :=
  shm_of_memory (memory_gb task_data).

(** ** The host: container engine, sockets, control plane *)

(** What [subprocess.run] gives back for a docker command: the process ran
    and exited, or it could not be run at all. *)
Inductive proc : Type :=
| Exited (returncode : Z) (stdout stderr : string)
| NotRun (e : exn).

Inductive endpoint : Type :=
| TasksPull
| TaskStatus (task_id : value)
| Logs.

(** A [requests] response: the status code and what [response.json()] does. *)
Record response : Type := { status_code : Z; json : result value }.

(** The outside of the agent, as a deterministic machine: the docker command
    line, the bind test on [127.0.0.1], the control plane's HTTP endpoints.
    [str_compound] is Python's [str()] on floats, lists and dicts, whose text
    the agent only copies into names, arguments and log lines. *)
Class Host : Type := {
  engine : Type;
  docker : list string -> engine -> proc * engine;
  bind_refused : Z -> engine -> bool;
  post : endpoint -> value -> engine -> result response * engine;
  str_compound : value -> string
}.

Inductive event : Type :=
| EvDocker (args : list string)
| EvBind (port : Z)
| EvPost (ep : endpoint) (body : value)
| EvSleep (seconds : Z).

Record world `{Host} : Type := { host_state : engine; trace : list event }.

Definition M `{Host} (A : Type) : Type := world -> result A * world.

Section Monad.
Context `{Host}.

Definition ret {A} (a : A) : M A := fun w => (Ok a, w).

Definition raise {A} (e : exn) : M A := fun w => (Raise e, w).

Definition bind {A B} (m : M A) (k : A -> M B) : M B :=
  fun w =>
    match m w with
    | (Ok a, w') => k a w'
    | (Raise e, w') => (Raise e, w')
    end.

(** [try: m except Exception as e: handler(e)]. *)
Definition try_except {A} (m : M A) (handler : exn -> M A) : M A :=
  fun w =>
    match m w with
    | (Ok a, w') => (Ok a, w')
    | (Raise e, w') => handler e w'
    end.

Definition lift {A} (r : result A) : M A := fun w => (r, w).

Definition record (e : event) (w : world) : world :=
  {| host_state := host_state w; trace := (trace w ++ [e])%list |}.

Definition exec (args : list string) : M proc :=
  fun w =>
    let '(p, s) := docker args (host_state w) in
    (Ok p, record (EvDocker args) {| host_state := s; trace := trace w |}).

Definition try_bind (port : Z) : M bool :=
  fun w => (Ok (bind_refused port (host_state w)), record (EvBind port) w).

Definition http_post (ep : endpoint) (body : value) : M response :=
  fun w =>
    let '(r, s) := post ep body (host_state w) in
    (r, record (EvPost ep body) {| host_state := s; trace := trace w |}).

Definition sleep (seconds : Z) : M unit :=
  fun w => (Ok tt, record (EvSleep seconds) w).
End Monad.

Declare Scope py_scope.
Delimit Scope py_scope with py.
Notation "x <- m ;; k" := (bind m (fun x => k))
  (at level 61, m at next level, right associativity) : py_scope.
Notation "m ;;; k" := (bind m (fun _ => k))
  (at level 61, right associativity) : py_scope.
Open Scope py_scope.

(** [str(v)], as f-strings apply it. *)
Definition py_str `{Host} (v : value) : string :=
  match v with
  | VNone => "None"
  | VBool true => "True"
  | VBool false => "False"
  | VInt n => str_of_int n
  | VStr s => s
  | VFloat _ | VList _ | VDict _ => str_compound v
  end.

(** The text [str(e)] puts into a log line.  Only the messages the agent
    builds itself are kept; for the interpreter's own exceptions the class
    name stands for the message. *)
Definition exn_text (e : exn) : string :=
  match e with
  | RuntimeError msg => msg
  | OtherError msg => msg
  | TypeError => "TypeError"
  | ValueError => "ValueError"
  | AttributeError => "AttributeError"
  | OverflowError => "OverflowError"
  | OSError => "OSError"
  | CalledProcessError rc => "Command returned non-zero exit status " ++ str_of_int rc
  | Timeout => "Timeout"
  | ConnectionError => "ConnectionError"
  end.

Definition of_opt_int (o : option Z) : value :=
  match o with
  | Some n => VInt n
  | None => VNone
  end.

Definition of_opt_str (o : option string) : value :=
  match o with
  | Some s => VStr s
  | None => VNone
  end.

(** [x.get] exists on dicts only. *)
Definition as_dict (v : value) : result dict :=
  match v with
  | VDict d => Ok d
  | _ => Raise AttributeError
  end.

(** ** [clean_manager.py] *)

(** [Settings], at the defaults [ContainerManager()] is built with. *)
Module Settings.
Definition image : string := "grigoriybased/gpunix-pytorch:latest".
Definition shm_size : string := "1g".
Definition ulimit_stack : string := "67108864".
Definition runtime : string := "nvidia".
Definition nvidia_caps : string := "compute,utility".
End Settings.

(** [subprocess.CompletedProcess]; the streams are [None] unless captured. *)
Record completed : Type :=
  { returncode : Z; stdout : option string; stderr : option string }.

Definition or_empty (o : option string) : string :=
  match o with
  | Some s => s
  | None => ""
  end.

(** Every element of an argument vector has to be a [str]. *)
Fixpoint strs (args : list value) : option (list string) :=
  match args with
  | [] => Some []
  | VStr s :: rest => option_map (cons s) (strs rest)
  | _ :: _ => None
  end.

Section ContainerManager.
Context `{Host}.

(** [_run]: the command is printed (unless [quiet]) and handed to
    [subprocess.run]; both reject an argument that is not a string with a
    [TypeError] before anything is run.  Printing itself is not modelled, so
    [quiet] has no counterpart. *)
Definition _run (args : list value) (check capture_output : bool) : M completed :=
  match strs args with
  | None => raise TypeError
  | Some cmd =>
      p <- exec cmd ;;
      match p with
      | NotRun e => raise e
      | Exited rc out err =>
          if check && negb (rc =? 0) then raise (CalledProcessError rc)
          else ret {| returncode := rc;
                      stdout := if capture_output then Some out else None;
                      stderr := if capture_output then Some err else None |}
      end
  end.

Definition listing (cp : completed) : M (list string) :=
  match stdout cp with
  | Some out => ret (splitlines out)
  | None => raise AttributeError
  end.

Definition _exists (name : string) : M bool :=
  cp <- _run [VStr "docker"; VStr "ps"; VStr "-a"; VStr "--format"; VStr "{{.Names}}"]
             true true ;;
  out <- listing cp ;;
  ret (mem name out).

Definition _running (name : string) : M bool :=
  cp <- _run [VStr "docker"; VStr "ps"; VStr "--format"; VStr "{{.Names}}"]
             true true ;;
  out <- listing cp ;;
  ret (mem name out).

Definition _docker_images_has (image : value) : M bool :=
  cp <- _run [VStr "docker"; VStr "image"; VStr "inspect"; image] false true ;;
  if returncode cp =? 0 then ret true
  else
    try_except
      (pull_result <- _run [VStr "docker"; VStr "pull"; image] false false ;;
       if returncode pull_result =? 0 then ret true else ret false)
      (fun _ => ret false).

(** [_port_free]: [bind] wants an integer port in [0..65535] (a [TypeError]
    or [OverflowError] otherwise, neither of them an [OSError]); an
    [OSError] from the bind itself means the port is taken. *)
Definition _port_free (port : value) : M bool :=
  match port with
  | VInt p =>
      if (0 <=? p) && (p <=? 65535) then
        refused <- try_bind p ;;
        if refused then ret false else ret true
      else raise OverflowError
  | VBool b =>
      refused <- try_bind (if b then 1 else 0) ;;
      if refused then ret false else ret true
  | _ => raise TypeError
  end.

Definition ports_in_use (bad : list string) : exn :=
  RuntimeError ("Порты заняты: " ++ join ", " bad).

Definition _assert_ports_free (ssh_port jup_port : value) : M unit :=
  free_ssh <- _port_free ssh_port ;;
  let bad := if free_ssh then [] else [py_str ssh_port] in
  free_jup <- _port_free jup_port ;;
  let bad := if free_jup then bad else (bad ++ [py_str jup_port])%list in
  match bad with
  | [] => ret tt
  | _ :: _ => raise (ports_in_use bad)
  end.

(** The loop of [_assert_port_mapping_free] over [port_mapping.keys()]. *)
Fixpoint probe_ports (host_ports : list string) (bad : list string) : M (list string) :=
  match host_ports with
  | [] => ret bad
  | host_port :: rest =>
      port <- lift (py_int (VStr host_port)) ;;
      free <- _port_free (VInt port) ;;
      probe_ports rest (if free then bad else (bad ++ [host_port])%list)
  end.

Definition _assert_port_mapping_free (port_mapping : dict) : M unit :=
  bad <- probe_ports (map fst port_mapping) [] ;;
  match bad with
  | [] => ret tt
  | _ :: _ => raise (ports_in_use bad)
  end.

Definition image_unavailable (image_to_run : value) : exn :=
  RuntimeError ("Образ '" ++ py_str image_to_run ++ "' недоступен. "
                ++ "Проверьте подключение к интернету и доступность образа в реестре.").

Definition env_args (ssh_password jupyter_token : value) (gpus : option string)
  : list value :=
  [VStr "-e"; VStr ("SSH_PASSWORD=" ++ py_str ssh_password);
   VStr "-e"; VStr ("JUPYTER_TOKEN=" ++ py_str jupyter_token);
   VStr "-e"; VStr ("NVIDIA_DRIVER_CAPABILITIES=" ++ Settings.nvidia_caps);
   VStr "-e"; VStr ("NVIDIA_VISIBLE_DEVICES=" ++
                    match gpus with
                    | Some g => if String.eqb g "" then "all" else g
                    | None => "all"
                    end)].

Definition head_args (name : string) (shm_size_gb : option Z) : list value :=
  [VStr "docker"; VStr "run"; VStr "-d";
   VStr "--name"; VStr name;
   VStr "--runtime"; VStr Settings.runtime;
   VStr "--ulimit"; VStr "memlock=-1";
   VStr "--ulimit"; VStr ("stack=" ++ Settings.ulimit_stack);
   VStr "--shm-size";
   VStr match shm_size_gb with
        | Some g => str_of_int g ++ "g"
        | None => Settings.shm_size
        end].

(** CPU pinning, memory limits and storage size: the same lines in [start]
    and in [start_with_port_mapping]. *)
Definition limit_args (cpuset_cpus : option string)
    (memory_gb memory_swap_gb storage_gb : option Z) : list value :=
  (match cpuset_cpus with
   | Some c => if String.eqb c "" then [] else [VStr "--cpuset-cpus"; VStr c]
   | None => []
   end ++
   match memory_gb with
   | Some m =>
       let swap_gb := match memory_swap_gb with Some s => s | None => m end in
       [VStr "--memory"; VStr (str_of_int m ++ "g");
        VStr "--memory-swap"; VStr (str_of_int swap_gb ++ "g")]
   | None => []
   end ++
   match storage_gb with
   | Some s => if 0 <? s then [VStr "--storage-opt"; VStr ("size=" ++ str_of_int s ++ "G")]
               else []
   | None => []
   end)%list.

(** What [start] and [start_with_port_mapping] both do, line for line, once
    the container is neither running nor present and the ports are free:
    image, volume, [docker run].  [ports] is the run of [-p] arguments, the
    only place where the two differ. *)
Definition launch (name : string) (ports : list value)
    (ssh_password jupyter_token : value) (gpus : option string) (image : value)
    (cpuset_cpus : option string)
    (memory_gb memory_swap_gb shm_size_gb storage_gb : option Z)
  : M (option string) :=
  let image_to_run := py_or image (VStr Settings.image) in
  has <- _docker_images_has image_to_run ;;
  if negb has then raise (image_unavailable image_to_run)
  else
    let work_vol := name ++ "-work" in
    _run [VStr "docker"; VStr "volume"; VStr "create"; VStr work_vol] true false ;;;
    let mount := [VStr "-v"; VStr (work_vol ++ ":/work");
                  VStr "--restart"; VStr "unless-stopped"] in
    let args := (head_args name shm_size_gb ++ ports
                 ++ env_args ssh_password jupyter_token gpus ++ mount
                 ++ limit_args cpuset_cpus memory_gb memory_swap_gb storage_gb
                 ++ [image_to_run])%list in
    result <- _run args true true ;;
    match stdout result with
    | Some out => ret (Some (strip out))
    | None => raise AttributeError
    end.

Definition start (container_name : string) (ssh_port jup_port : value)
    (ssh_password jupyter_token ssh_username : value) (gpus : option string)
    (image : value) (cpuset_cpus : option string)
    (memory_gb memory_swap_gb shm_size_gb storage_gb : option Z)
  : M (option string) :=
  let name := container_name in
  running <- _running name ;;
  if running then ret None
  else
    present <- _exists name ;;
    if present then
      _run [VStr "docker"; VStr "start"; VStr name] true false ;;;
      ret None
    else
      _assert_ports_free ssh_port jup_port ;;;
      launch name
        [VStr "-p"; VStr (py_str ssh_port ++ ":22");
         VStr "-p"; VStr (py_str jup_port ++ ":8888")]
        ssh_password jupyter_token gpus image cpuset_cpus
        memory_gb memory_swap_gb shm_size_gb storage_gb.

Definition port_args (port_mapping : dict) : list value :=
  flat_map (fun '(host_port, container_port) =>
              [VStr "-p"; VStr (host_port ++ ":" ++ py_str container_port)])
           port_mapping.

(** The first loop of the method only picks the SSH and Jupyter ports for
    the lines it prints, and is left out with them. *)
Definition start_with_port_mapping (container_name : string) (port_mapping : dict)
    (ssh_password jupyter_token ssh_username : value) (gpus : option string)
    (image : value) (cpuset_cpus : option string)
    (memory_gb memory_swap_gb shm_size_gb storage_gb : option Z)
  : M (option string) :=
  let name := container_name in
  running <- _running name ;;
  if running then ret None
  else
    present <- _exists name ;;
    if present then
      _run [VStr "docker"; VStr "start"; VStr name] true false ;;;
      ret None
    else
      _assert_port_mapping_free port_mapping ;;;
      launch name (port_args port_mapping)
        ssh_password jupyter_token gpus image cpuset_cpus
        memory_gb memory_swap_gb shm_size_gb storage_gb.

Definition err_out (cp : completed) : string :=
  or_empty (stderr cp) ++ or_empty (stdout cp).

Definition stop_by_id (container_id : value) : M bool :=
  try_except
    (cp <- _run [VStr "docker"; VStr "stop"; container_id] false true ;;
     if returncode cp =? 0 then ret true
     else if contains "No such container" (err_out cp)
             || contains "is not running" (err_out cp)
     then ret true
     else ret false)
    (fun _ => ret false).

Definition remove_by_id (container_id : value) : M bool :=
  try_except
    (cp <- _run [VStr "docker"; VStr "rm"; container_id] false true ;;
     if returncode cp =? 0 then ret true
     else if contains "No such container" (err_out cp)
     then ret true
     else ret false)
    (fun _ => ret false).
End ContainerManager.

(** ** [api_client.py]: log lines and status reports

    The client's credentials are set: [Agent.run] starts the polling thread
    only after [initialize] has stored the agent id, and [poll_for_tasks]
    returns at once without it. *)

Definition is_none (v : value) : bool :=
  match v with
  | VNone => true
  | _ => false
  end.

Definition str_eq (v : value) (s : string) : bool :=
  match v with
  | VStr s' => String.eqb s' s
  | _ => false
  end.

Section APIClient.
Context `{Host}.

(** [send_log]: nothing is raised to the caller, who ignores the result (the
    callers' own [try: ... except Exception: pass] is therefore dropped). *)
Definition send_log (message : string) : M bool :=
  try_except
    (resp <- http_post Logs (VDict [("message", VStr message)]) ;;
     ret (status_code resp =? 200))
    (fun _ => ret false).

Definition status_payload (container_info : dict) : dict :=
  let status := py_or (get container_info "status") (VStr "running") in
  let data := [("status", status);
               ("container_id", get container_info "container_id")] in
  let data :=
    if is_none (get container_info "container_name") then data
    else (data ++ [("container_name", get container_info "container_name")])%list in
  if str_eq status "running" then
    let ssh_host := get container_info "ssh_host" in
    let ssh_port := get container_info "ssh_port" in
    let cname := get container_info "container_name" in
    let data := (data ++ [("progress", VFloat (S754_zero false))])%list in
    if truthy ssh_host && truthy ssh_port && truthy cname then
      (data ++ [("output", VStr ("Container " ++ py_str cname
                                 ++ " started successfully. SSH ready on "
                                 ++ py_str ssh_host ++ ":" ++ py_str ssh_port))])%list
    else data
  else if str_eq status "failed" then
    if truthy (get container_info "error_message")
    then (data ++ [("error_message", get container_info "error_message")])%list
    else data
  else data.

Definition send_task_status (task_id : value) (container_info : dict) : M bool :=
  let data := status_payload container_info in
  try_except
    (response <- http_post (TaskStatus task_id) (VDict data) ;;
     if status_code response =? 200 then
       resp_json <- lift (json response) ;;
       rj <- lift (as_dict resp_json) ;;
       if eq_int (get rj "exception") 0 then ret true
       else
         send_log ("task status exception: id=" ++ py_str task_id ++ " msg="
                   ++ py_str (get_default rj "message" (VStr "Unknown error"))) ;;;
         ret false
     else
       send_log ("task status failed: id=" ++ py_str task_id ++ " status="
                 ++ str_of_int (status_code response)) ;;;
       ret false)
    (fun e =>
       send_log ("task status exception: id=" ++ py_str task_id ++ " error="
                 ++ exn_text e) ;;;
       ret false).
End APIClient.

(** ** [agent.py]: [Agent.process_task] *)

(** [(x or default).strip().lower()]; only a [str] has [strip]. *)
Definition normalized (v : value) (default : string) : result string :=
  match py_or v (VStr default) with
  | VStr s => Ok (lower (strip s))
  | _ => Raise AttributeError
  end.

Definition is_control (operation : string) : bool :=
  String.eqb operation "stop" || String.eqb operation "stop_remove".

(** [ssh_port + 1]. *)
Definition plus_one (v : value) : result value :=
  match v with
  | VInt n => Ok (VInt (n + 1))
  | VBool b => Ok (VInt ((if b then 1 else 0) + 1))
  | VFloat f => Ok (VFloat (SFadd prec emax f (S754_finite false 4503599627370496 (-52))))
  | _ => Raise TypeError
  end.

(** The host port of the first entry whose container port equals 22. *)
Fixpoint ssh_port_of (port_mapping : dict) : value :=
  match port_mapping with
  | [] => VNone
  | (host_port, container_port) :: rest =>
      if eq_int container_port 22 then VStr host_port else ssh_port_of rest
  end.

Definition allocated_resources (task_data : dict) : value :=
  VDict [("cpu_cpuset", of_opt_str (cpuset_cpus task_data));
         ("ram_gb", of_opt_int (memory_gb task_data));
         ("gpu_count", gpu_required task_data);
         ("gpu_devices", of_opt_str (gpus_param task_data));
         ("storage_gb", of_opt_int (storage_gb task_data));
         ("gpu_support", VBool (match gpus_param task_data with
                                | Some g => negb (String.eqb g "")
                                | None => false
                                end))].

Section Agent.
Context `{Host}.

(** Lines 299-352: [stop] and [stop_remove]. *)
Definition control (operation : string) (task_data container_info : dict)
  : M (option dict) :=
  let container_id :=
    py_or (get task_data "container_id") (get container_info "container_id") in
  let container_name :=
    py_or (get task_data "container_name") (get container_info "container_name") in
  if negb (truthy container_id) then
    send_log "control task error: missing container_id" ;;;
    ret (Some [("status", VStr "failed");
               ("container_id", VStr "");
               ("container_name", container_name);
               ("error_message", VStr "Missing container_id in control task")])
  else
    send_log ("control task received: op=" ++ operation ++ " container_id="
              ++ py_str container_id) ;;;
    stop_ok <- stop_by_id container_id ;;
    remove_ok <- (if String.eqb operation "stop_remove"
                  then remove_by_id container_id else ret true) ;;
    if stop_ok && remove_ok then
      send_log ("control task completed: op=" ++ operation ++ " container_id="
                ++ py_str container_id) ;;;
      ret (Some [("status", VStr "completed");
                 ("container_id", container_id);
                 ("container_name", container_name)])
    else
      let err := ((if stop_ok then [] else ["stop failed"]) ++
                  (if String.eqb operation "stop_remove" && negb remove_ok
                   then ["remove failed"] else []))%list in
      send_log ("control task failed: op=" ++ operation ++ " container_id="
                ++ py_str container_id ++ " error="
                ++ (if String.eqb (join ", " err) "" then "unknown" else join ", " err)) ;;;
      ret (Some [("status", VStr "failed");
                 ("container_id", container_id);
                 ("container_name", container_name);
                 ("error_message",
                  VStr (if String.eqb (join ", " err) "" then "unknown error"
                        else join ", " err))]).

(** Lines 421-484: the task carries a [port_mapping]. *)
Definition provision_mapped (task_id : value) (task_data container_info : dict)
    (docker_image : value) (port_mapping : dict) : M (option dict) :=
  let ssh_username := py_or (get container_info "ssh_username") (VStr "root") in
  let ssh_password := get container_info "ssh_password" in
  let ssh_host := get container_info "ssh_host" in
  if negb (truthy ssh_password) then
    send_log "task error: missing ssh password" ;;;
    ret None
  else
    let container_name := "task_" ++ py_str task_id in
    send_log ("task start requested: id=" ++ py_str task_id ++ " image="
              ++ py_str docker_image) ;;;
    container_id <- start_with_port_mapping container_name port_mapping
                      ssh_password ssh_password ssh_username
                      (gpus_param task_data) docker_image (cpuset_cpus task_data)
                      (memory_gb task_data) (memory_gb task_data)
                      (shm_size_gb task_data) (storage_gb task_data) ;;
    let ssh_port_result := ssh_port_of port_mapping in
    ret (Some [("container_id", of_opt_str container_id);
               ("container_name", VStr container_name);
               ("ssh_port", ssh_port_result);
               ("ssh_host", ssh_host);
               ("ssh_command",
                if truthy ssh_port_result then
                  get_default container_info "ssh_command"
                    (VStr ("ssh root@" ++ py_str ssh_host ++ " -p "
                           ++ py_str ssh_port_result))
                else VNone);
               ("ssh_username", ssh_username);
               ("ssh_password", ssh_password);
               ("port_mapping", VDict port_mapping);
               ("status", VStr "running");
               ("allocated_resources", allocated_resources task_data)]).

(** Lines 486-551: the older [(ssh_port, ssh_port + 1)] convention. *)
Definition provision_legacy (task_id : value) (task_data container_info : dict)
    (docker_image : value) : M (option dict) :=
  let ssh_username := py_or (get container_info "ssh_username") (VStr "root") in
  let ssh_password := get container_info "ssh_password" in
  let ssh_port := get container_info "ssh_port" in
  let ssh_host := get container_info "ssh_host" in
  if negb (truthy ssh_password && truthy ssh_port) then
    send_log "task error: missing ssh credentials" ;;;
    ret None
  else
    let gpus_allocated := get_default task_data "gpus_allocated" (VDict []) in
    lift (if truthy gpus_allocated
          then match as_dict gpus_allocated with
               | Ok d => Ok (get d "count")
               | Raise e => Raise e
               end
          else Ok (VInt 0)) ;;;
    let container_name := "task_" ++ py_str task_id in
    jup_port <- lift (plus_one ssh_port) ;;
    send_log ("task start requested: id=" ++ py_str task_id ++ " image="
              ++ py_str docker_image) ;;;
    container_id <- start container_name ssh_port jup_port
                      ssh_password ssh_password ssh_username
                      (gpus_param task_data) docker_image (cpuset_cpus task_data)
                      (memory_gb task_data) (memory_gb task_data)
                      (shm_size_gb task_data) (storage_gb task_data) ;;
    ret (Some [("container_id", of_opt_str container_id);
               ("container_name", VStr container_name);
               ("ssh_port", ssh_port);
               ("ssh_host", ssh_host);
               ("ssh_command",
                get_default container_info "ssh_command"
                  (VStr ("ssh root@" ++ py_str ssh_host ++ " -p " ++ py_str ssh_port)));
               ("ssh_username", ssh_username);
               ("ssh_password", ssh_password);
               ("status", VStr "running");
               ("allocated_resources", allocated_resources task_data)]).

(** Lines 354-565: everything but [stop] and [stop_remove] is a start. *)
Definition provision (task_id : value) (task_data container_info : dict)
  : M (option dict) :=
  let docker_image := get task_data "docker_image" in
  if negb (truthy docker_image) then
    send_log "task error: docker_image not specified" ;;;
    ret None
  else
    result <-
      match get container_info "port_mapping" with
      | VDict (entry :: entries) =>
          provision_mapped task_id task_data container_info docker_image
            (entry :: entries)
      | _ => provision_legacy task_id task_data container_info docker_image
      end ;;
    match result with
    | Some r =>
        send_log ("container started: id=" ++ py_str (get r "container_id")
                  ++ " name=" ++ py_str (get r "container_name")) ;;;
        ret (Some r)
    | None => ret None
    end.

(** The body of the [try] in [process_task]. *)
Definition process_task_try (task_id : value) (task_data container_info : dict)
  : M (option dict) :=
  operation <- lift (normalized (get task_data "operation") "") ;;
  if is_control operation then control operation task_data container_info
  else provision task_id task_data container_info.

(** [task] is the dictionary [poll_for_tasks] builds, given by its three
    entries [id], [task_data] and [container_info]. *)
Definition process_task (task_id : value) (task_data container_info : dict)
  : M (option dict) :=
  try_except
    (process_task_try task_id task_data container_info)
    (fun e =>
       send_log ("task processing exception: " ++ exn_text e) ;;;
       ret None).
End Agent.

(** ** [api_client.py]: [APIClient.poll_for_tasks] *)

Definition max_consecutive_errors : Z := 5.

Section Polling.
Context `{Host}.

Definition callback_type : Type := value -> dict -> dict -> M (option dict).

(** The inner [try] of the loop: the callback, then the status report or
    the log line, with the handler for whatever the callback raises. *)
Definition dispatch (callback : callback_type) (consecutive_errors : Z)
    (task_id : value) (task_data container_info : dict) : M (Z * bool) :=
  try_except
    (result <- callback task_id task_data container_info ;;
     match result with
     | Some (field :: fields) =>
         send_task_status task_id (field :: fields) ;;;
         ret (0, false)
     | _ =>
         send_log ("task process failed: id=" ++ py_str task_id) ;;;
         ret (consecutive_errors + 1, false)
     end)
    (fun e =>
       send_log ("task processing exception: id=" ++ py_str task_id
                 ++ " error=" ++ exn_text e) ;;;
       ret (consecutive_errors + 1, false)).

(** The log line that announces a task; building it may fail, which the
    loop ignores. *)
Definition announce (task_id : value) (task_data : dict) : M bool :=
  match normalized (get task_data "operation") "start" with
  | Ok op => send_log ("task received: id=" ++ py_str task_id ++ " op=" ++ op)
  | Raise _ => ret false
  end.

(** The body of the outer [try] of one turn of the [while True] loop.  It
    gives the new value of [consecutive_errors] and tells whether the turn
    ended in [continue], which skips the wait at the bottom of the loop. *)
Definition poll_try (callback : callback_type) (consecutive_errors : Z)
  : M (Z * bool) :=
  response <- http_post TasksPull VNone ;;
  if status_code response =? 200 then
    resp_json <- lift (json response) ;;
    rj <- lift (as_dict resp_json) ;;
    if negb (eq_int (get rj "exception") 0) then
      send_log ("poll exception: "
                ++ py_str (get_default rj "message" (VStr "Unknown error"))) ;;;
      sleep 10 ;;;
      ret (consecutive_errors + 1, true)
    else
      data <- lift (as_dict (get_default rj "data" (VDict []))) ;;
      let task_id := get data "task_id" in
      let task_data := get data "task_data" in
      let container_info := get data "container_info" in
      if negb (is_none task_id) && negb (is_none task_data)
         && negb (is_none container_info) then
        td <- lift (as_dict task_data) ;;
        ci <- lift (as_dict container_info) ;;
        announce task_id td ;;;
        dispatch callback consecutive_errors task_id td ci
      else if is_none task_id then ret (0, false)
      else
        send_log "invalid task data received" ;;;
        ret (consecutive_errors + 1, false)
  else
    send_log ("poll failed with status " ++ str_of_int (status_code response)) ;;;
    ret (consecutive_errors + 1, false).

Definition poll_failure_line (e : exn) : string :=
  match e with
  | Timeout => "poll timeout"
  | ConnectionError => "poll connection error"
  | _ => "poll exception: " ++ exn_text e
  end.

(** One turn of the loop: the [try] with its three handlers, then the wait. *)
Definition poll_cycle (callback : callback_type) (consecutive_errors : Z) : M Z :=
  outcome <- try_except (poll_try callback consecutive_errors)
               (fun e =>
                  send_log (poll_failure_line e) ;;;
                  ret (consecutive_errors + 1, false)) ;;
  let '(consecutive_errors, continued) := outcome in
  if continued then ret consecutive_errors
  else if max_consecutive_errors <=? consecutive_errors then
    sleep 60 ;;; ret consecutive_errors
  else
    sleep 10 ;;; ret consecutive_errors.

(** The first [turns] turns of the loop, from a given counter. *)
Fixpoint poll_loop (turns : nat) (callback : callback_type) (consecutive_errors : Z)
  : M Z :=
  match turns with
  | O => ret consecutive_errors
  | S n =>
      c <- poll_cycle callback consecutive_errors ;;
      poll_loop n callback c
  end.

Definition poll_for_tasks (turns : nat) (callback : callback_type) : M Z :=
  poll_loop turns callback 0.
End Polling.

(** ** A small host to run the agent on

    One container engine that keeps containers, volumes and local images, a
    set of bound ports, and a control plane that hands out a scripted list of
    replies to [tasks/pull] and answers every status report with one fixed
    status code.  It serves the worked scenarios below. *)
Module Sim.
Record container : Type := { name : string; id : string; up : bool }.

Record state : Type := {
  containers : list container;
  volumes : list string;
  images : list string;
  bound : list Z;
  pulls : list (result response);
  report_code : Z
}.

Definition names (cs : list container) : string :=
  String.concat "" (map (fun c => name c ++ String "010" "") cs).

Definition known (x : string) (s : state) : bool :=
  existsb (fun c => String.eqb (name c) x || String.eqb (id c) x) (containers s).

Definition set_up (x : string) (b : bool) (s : state) : state :=
  {| containers := map (fun c => if String.eqb (name c) x || String.eqb (id c) x
                                 then {| name := name c; id := id c; up := b |}
                                 else c) (containers s);
     volumes := volumes s; images := images s; bound := bound s;
     pulls := pulls s; report_code := report_code s |}.

Definition no_such (x : string) : proc :=
  Exited 1 "" ("Error response from daemon: No such container: " ++ x).

Definition docker (args : list string) (s : state) : proc * state :=
  match args with
  | ["docker"; "ps"; "--format"; _] =>
      (Exited 0 (names (filter up (containers s))) "", s)
  | ["docker"; "ps"; "-a"; "--format"; _] =>
      (Exited 0 (names (containers s)) "", s)
  | ["docker"; "image"; "inspect"; image] =>
      (Exited (if mem image (images s) then 0 else 1) "" "", s)
  | ["docker"; "pull"; _] => (Exited 1 "" "", s)
  | ["docker"; "volume"; "create"; v] =>
      (Exited 0 v "",
       {| containers := containers s; volumes := (volumes s ++ [v])%list;
          images := images s; bound := bound s;
          pulls := pulls s; report_code := report_code s |})
  | "docker" :: "run" :: "-d" :: "--name" :: n :: _ =>
      (Exited 0 ("c0ffee-" ++ n ++ String "010" "") "",
       {| containers := (containers s
                         ++ [{| name := n; id := "c0ffee-" ++ n; up := true |}])%list;
          volumes := volumes s; images := images s; bound := bound s;
          pulls := pulls s; report_code := report_code s |})
  | ["docker"; "start"; x] =>
      if known x s then (Exited 0 x "", set_up x true s) else (no_such x, s)
  | ["docker"; "stop"; x] =>
      if known x s then (Exited 0 x "", set_up x false s) else (no_such x, s)
  | ["docker"; "rm"; x] =>
      if known x s then
        (Exited 0 x "",
         {| containers := filter (fun c => negb (String.eqb (name c) x
                                                 || String.eqb (id c) x))
                                 (containers s);
            volumes := volumes s; images := images s; bound := bound s;
            pulls := pulls s; report_code := report_code s |})
      else (no_such x, s)
  | _ => (Exited 125 "" "unknown command", s)
  end.

Definition accepted : result response :=
  Ok {| status_code := 200; json := Ok (VDict [("exception", VInt 0)]) |}.

Definition post (ep : endpoint) (body : value) (s : state) : result response * state :=
  match ep with
  | TasksPull =>
      match pulls s with
      | [] => (Raise Timeout, s)
      | r :: rest =>
          (r, {| containers := containers s; volumes := volumes s;
                 images := images s; bound := bound s;
                 pulls := rest; report_code := report_code s |})
      end
  | TaskStatus _ =>
      (Ok {| status_code := report_code s;
             json := Ok (VDict [("exception", VInt 0)]) |}, s)
  | Logs => (accepted, s)
  end.

Definition host : Host :=
  Build_Host state docker (fun port s => existsb (Z.eqb port) (bound s)) post
             (fun _ => "<object>").

(** A machine with the image [x] pulled, nothing running and all ports free. *)
Definition fresh : state :=
  {| containers := []; volumes := []; images := ["x"]; bound := [];
     pulls := []; report_code := 200 |}.

Definition boot (s : state) : @world host := @Build_world host s [].
End Sim.

(** ** Notions the statements below use *)

Definition is_ok {A} (r : result A) : bool :=
  match r with
  | Ok _ => true
  | Raise _ => false
  end.

(** The CPU affinity in the specification's words: every pair that parses to
    two integers gives ["start-end"], the valid ranges are joined with
    commas, and there is no affinity when no pair parses.  To be compared
    with [cpuset_cpus]. *)
Definition valid_range (r : value) : option string :=
  match r with
  | VList [a; b] =>
      match py_int a, py_int b with
      | Ok start, Ok stop => Some (str_of_int start ++ "-" ++ str_of_int stop)
      | _, _ => None
      end
  | _ => None
  end.

Fixpoint valid_ranges (rs : list value) : list string :=
  match rs with
  | [] => []
  | r :: rest =>
      match valid_range r with
      | Some x => x :: valid_ranges rest
      | None => valid_ranges rest
      end
  end.

Definition spec_cpuset (task_data : dict) : option string :=
  match as_list (cpu_allocated_ranges task_data) with
  | Some rs =>
      match valid_ranges rs with
      | [] => None
      | x :: xs => Some (join "," (x :: xs))
      end
  | None => None
  end.

(** No two-element entry of the range list has a member [int()] rejects. *)
Definition pair_parses (r : value) : bool :=
  match r with
  | VList [a; b] => is_ok (py_int a) && is_ok (py_int b)
  | _ => true
  end.

Definition pairs_parse (task_data : dict) : bool :=
  match as_list (cpu_allocated_ranges task_data) with
  | Some rs => forallb pair_parses rs
  | None => true
  end.

(** The world a computation leaves behind. *)
Definition after `{Host} {A} (m : M A) (w : world) : world := snd (m w).

(** What the engine answers to [docker stop <id>] or [docker rm <id>] in a
    given world; an identifier that is no string never reaches the engine,
    [subprocess.run] rejects it. *)
Definition engine_answer `{Host} (verb : string) (container_id : value) (w : world)
  : proc :=
  match container_id with
  | VStr s => fst (docker ["docker"; verb; s] (host_state w))
  | _ => NotRun TypeError
  end.

Definition succeeded (p : proc) : bool :=
  match p with
  | Exited rc _ _ => rc =? 0
  | NotRun _ => false
  end.

(** The command failed and its output carries the given engine message. *)
Definition reports (message : string) (p : proc) : bool :=
  match p with
  | Exited rc out err => negb (rc =? 0) && contains message (err ++ out)
  | NotRun _ => false
  end.

(** A key of the port mapping that names a port [bind] accepts. *)
Definition port_of (host_port : string) : option Z :=
  match py_int (VStr host_port) with
  | Ok p => if (0 <=? p) && (p <=? 65535) then Some p else None
  | Raise _ => None
  end.

Definition is_port (host_port : string) : bool :=
  match port_of host_port with
  | Some _ => true
  | None => false
  end.

(** The bind test fails for this key. *)
Definition taken `{Host} (w : world) (host_port : string) : bool :=
  match port_of host_port with
  | Some p => bind_refused p (host_state w)
  | None => false
  end.

Definition in_range (p : Z) : bool := (0 <=? p) && (p <=? 65535).

(** The launch [process_task] asks for when the task carries a port
    mapping, and the world it is asked in (after the log line that announces
    it). *)
Definition start_requested `{Host} (task_id : value) (task_data : dict) : string :=
  "task start requested: id=" ++ py_str task_id ++ " image="
  ++ py_str (get task_data "docker_image").

Definition mapped_launch `{Host} (task_id : value) (task_data container_info : dict)
    (port_mapping : dict) : M (option string) :=
  start_with_port_mapping ("task_" ++ py_str task_id) port_mapping
    (get container_info "ssh_password") (get container_info "ssh_password")
    (py_or (get container_info "ssh_username") (VStr "root"))
    (gpus_param task_data) (get task_data "docker_image") (cpuset_cpus task_data)
    (memory_gb task_data) (memory_gb task_data)
    (shm_size_gb task_data) (storage_gb task_data).

(** No entry of the mapping has container port 22. *)
Definition no_ssh_entry (port_mapping : dict) : bool :=
  forallb (fun entry => negb (eq_int (snd entry) 22)) port_mapping.

(** The one query [_running] sends to the engine. *)
Definition ps_running : event :=
  EvDocker ["docker"; "ps"; "--format"; "{{.Names}}"].

(** Scenario A of the specification: task 1 asks for image [x] with 8 GB of
    RAM, port 5000 mapped to 22, password [p]. *)
Definition task_a_data : dict :=
  [("operation", VStr "start"); ("docker_image", VStr "x");
   ("ram_allocated_gb", VInt 8)].

Definition task_a_info : dict :=
  [("port_mapping", VDict [("5000", VInt 22)]); ("ssh_password", VStr "p")].

(** The wait at the bottom of a turn that leaves the counter at [c]. *)
Definition backoff (c : Z) : Z :=
  if max_consecutive_errors <=? c then 60 else 10.

(** The reply to [tasks/pull] in world [w] is a well-formed 200 whose data is
    [data]; [w1] is the world after the request. *)
Definition pulls_data `{Host} (w : world) (data : dict) (w1 : world) : Prop :=
  exists response rj,
    http_post TasksPull VNone w = (Ok response, w1)
    /\ status_code response = 200
    /\ json response = Ok (VDict rj)
    /\ eq_int (get rj "exception") 0 = true
    /\ get_default rj "data" (VDict []) = VDict data.

(** The pull delivers the task [(task_id, task_data, container_info)]. *)
Definition delivers `{Host} (w : world) (task_id : value)
    (task_data container_info : dict) (w1 : world) : Prop :=
  exists data,
    pulls_data w data w1
    /\ get data "task_id" = task_id
    /\ is_none task_id = false
    /\ get data "task_data" = VDict task_data
    /\ get data "container_info" = VDict container_info.

(** The pull says there is no task. *)
Definition finds_no_task `{Host} (w w1 : world) : Prop :=
  exists data, pulls_data w data w1 /\ get data "task_id" = VNone.

(** The world in which the callback is called for a delivered task. *)
Definition announced `{Host} (task_id : value) (task_data : dict) (w1 : world)
  : world :=
  after (announce task_id task_data) w1.

(** A turn that counts as a failure: the body of the [try] raised, or it
    added one to the counter and went on to the wait. *)
Definition failed_turn `{Host} (callback : callback_type) (c : Z) (w : world)
  : Prop :=
  (exists e w1, poll_try callback c w = (Raise e, w1))
  \/ (exists w1, poll_try callback c w = (Ok (c + 1, false), w1)).

Fixpoint failing_turns `{Host} (n : nat) (callback : callback_type) (c : Z)
    (w : world) : Prop :=
  match n with
  | O => True
  | S k =>
      failed_turn callback c w
      /\ failing_turns k callback (c + 1) (after (poll_cycle callback c) w)
  end.

Definition is_report (ev : event) : bool :=
  match ev with
  | EvPost (TaskStatus _) _ => true
  | _ => false
  end.

Definition sleeps (evs : list event) : list Z :=
  flat_map (fun ev => match ev with EvSleep n => [n] | _ => [] end) evs.

(** The reply to [tasks/pull] that delivers the task of scenario A, and a
    reply that says there is no task. *)
Definition task_a_reply : result response :=
  Ok {| status_code := 200;
        json := Ok (VDict [("exception", VInt 0);
                           ("data", VDict [("task_id", VInt 1);
                                           ("task_data", VDict task_a_data);
                                           ("container_info", VDict task_a_info)])]) |}.

Definition no_task_reply : result response :=
  Ok {| status_code := 200;
        json := Ok (VDict [("exception", VInt 0);
                           ("data", VDict [("message", VStr "no tasks")])]) |}.

(** A host with image [x] whose control plane has the given replies to
    [tasks/pull] in store and answers status reports with [code]. *)
Definition scripted (replies : list (result response)) (code : Z) : Sim.state :=
  {| Sim.containers := []; Sim.volumes := []; Sim.images := ["x"];
     Sim.bound := []; Sim.pulls := replies; Sim.report_code := code |}.

(** World [w'] continues world [w] with events none of which is a status
    report. *)
Definition unreported `{Host} (w w' : world) : Prop :=
  exists evs,
    trace w' = (trace w ++ evs)%list
    /\ forallb (fun ev => negb (is_report ev)) evs = true.

(** A computation that sends no status report, however it ends. *)
Definition reports_nothing `{Host} {A} (m : M A) : Prop :=
  forall w, unreported w (after m w).

(** The credentials a start needs are missing: the password when the task
    carries a port mapping, the password or the SSH port when it does not. *)
Definition missing_credentials (container_info : dict) : bool :=
  match get container_info "port_mapping" with
  | VDict (_ :: _) => negb (truthy (get container_info "ssh_password"))
  | _ => negb (truthy (get container_info "ssh_password")
               && truthy (get container_info "ssh_port"))
  end.

(** A reply to [tasks/pull] that delivers the given task. *)
Definition reply_with (task_id : value) (task_data container_info : dict)
  : result response :=
  Ok {| status_code := 200;
        json := Ok (VDict [("exception", VInt 0);
                           ("data", VDict [("task_id", task_id);
                                           ("task_data", VDict task_data);
                                           ("container_info", VDict container_info)])]) |}.

(** Task 3 asks for an image the host neither has nor can pull; task 4 names
    no image; task 5 comes without a password. *)
Definition task_3_data : dict :=
  [("operation", VStr "start"); ("docker_image", VStr "y")].

Definition task_4_data : dict := [("operation", VStr "start")].

Definition task_5_info : dict := [("port_mapping", VDict [("5000", VInt 22)])].

Definition waiting (task_id : value) (task_data container_info : dict)
  : @world Sim.host :=
  Sim.boot (scripted [reply_with task_id task_data container_info] 200).

(** ** More of [clean_manager.py] *)

Section ContainerManagerMore.
Context `{Host}.

(** [[n for n in names if self._running(n)]]: one listing query per name. *)
Fixpoint running_among (names : list string) : M (list string) :=
  match names with
  | [] => ret []
  | n :: rest =>
      up <- _running n ;;
      others <- running_among rest ;;
      ret (if up then n :: others else others)
  end.

(** [ContainerManager.stop]: stop and remove every container, or the one
    that is named. *)
Definition stop (container_name : option string) : M unit :=
  match container_name with
  | None =>
      cp <- _run [VStr "docker"; VStr "ps"; VStr "-a"; VStr "--format";
                  VStr "{{.Names}}"] true true ;;
      names <- listing cp ;;
      match names with
      | [] => ret tt
      | _ :: _ =>
          running <- running_among names ;;
          match running with
          | [] => ret tt
          | _ :: _ =>
              _run (VStr "docker" :: VStr "stop" :: map VStr running) true false ;;;
              ret tt
          end ;;;
          _run (VStr "docker" :: VStr "rm" :: map VStr names) true false ;;;
          ret tt
      end
  | Some name =>
      up <- _running name ;;
      (if up then _run [VStr "docker"; VStr "stop"; VStr name] true false ;;; ret tt
       else ret tt) ;;;
      present <- _exists name ;;
      if present then _run [VStr "docker"; VStr "rm"; VStr name] true false ;;; ret tt
      else ret tt
  end.

(** [subprocess.run(argv, ...)] without [check]: the exit code, or the
    exception when the command could not be run (or timed out). *)
Definition run_plain (argv : list string) : M Z :=
  p <- exec argv ;;
  match p with
  | Exited rc _ _ => ret rc
  | NotRun e => raise e
  end.

(** [subprocess.run(argv, check=True)] and [subprocess.check_output(argv)]:
    the output of a command that exits with zero. *)
Definition run_checked (argv : list string) : M string :=
  p <- exec argv ;;
  match p with
  | Exited rc out _ => if rc =? 0 then ret out else raise (CalledProcessError rc)
  | NotRun e => raise e
  end.

(** [try: result = subprocess.run(argv, ...); if result.returncode == 0: ...
    except: pass], as a test: did the command run and exit with zero? *)
Definition succeeds (argv : list string) : M bool :=
  try_except
    (rc <- run_plain argv ;;
     if rc =? 0 then ret true else ret false)
    (fun _ => ret false).

Definition fix_docker_permissions : M bool :=
  try_except
    (works <- succeeds ["docker"; "ps"] ;;
     if works then ret true
     else
       try_except
         (current_user <- run_checked ["whoami"] ;;
          run_checked ["sudo"; "usermod"; "-aG"; "docker"; strip current_user] ;;;
          ret tt)
         (fun _ => ret tt) ;;;
       try_except
         (run_checked ["sudo"; "systemctl"; "restart"; "docker"] ;;; ret tt)
         (fun _ => ret tt) ;;;
       sleep 3 ;;;
       works <- succeeds ["docker"; "ps"] ;;
       if works then ret true else ret false)
    (fun _ => ret false).

Definition gpus_flag_probe : list string :=
  ["docker"; "run"; "--rm"; "--gpus"; "all"; "ubuntu:20.04"; "nvidia-smi"].

Definition nvidia_runtime_probe : list string :=
  ["docker"; "run"; "--rm"; "--runtime=nvidia"; "ubuntu:20.04"; "nvidia-smi"].

Definition check_docker_gpu_support : M bool :=
  try_except
    (toolkit <- succeeds ["nvidia-container-cli"; "info"] ;;
     if toolkit then
       with_flag <- succeeds gpus_flag_probe ;;
       if with_flag then ret true
       else
         with_runtime <- succeeds nvidia_runtime_probe ;;
         if with_runtime then ret true else ret false
     else
       with_runtime <- succeeds nvidia_runtime_probe ;;
       if with_runtime then ret true else ret false)
    (fun _ => ret false).

(** [check_and_install_docker].  Its two handlers catch
    [CalledProcessError] and [FileNotFoundError] only; [file_not_found] says
    which of the errors of a command that could not be run is the latter. *)
Definition check_and_install_docker (file_not_found : exn -> bool) : M bool :=
  let caught e :=
    match e with
    | CalledProcessError _ => true
    | _ => file_not_found e
    end in
  try_except
    (run_checked ["docker"; "ps"] ;;; ret true)
    (fun e =>
       if caught e then
         try_except
           (run_checked ["docker"; "--version"] ;;;
            fixed <- fix_docker_permissions ;;
            if fixed then ret true else ret false)
           (fun e' => if caught e' then ret false else raise e')
       else raise e).
End ContainerManagerMore.

(** ** Notions for the further properties *)

(** The listing of all containers, the query [_exists] sends. *)
Definition ps_all : event :=
  EvDocker ["docker"; "ps"; "-a"; "--format"; "{{.Names}}"].

(** The ports the keys of a mapping name, in the order of the keys. *)
Definition ports_of (host_ports : list string) : list Z :=
  flat_map (fun k => match port_of k with Some p => [p] | None => [] end) host_ports.

(** The world after an engine command that moved the engine to [s]. *)
Definition ran `{Host} (argv : list string) (s : engine) (w : world) : world :=
  record (EvDocker argv) {| host_state := s; trace := trace w |}.

Definition is_docker (ev : event) : bool :=
  match ev with
  | EvDocker _ => true
  | _ => false
  end.

(** The error message of a failed control task. *)
Definition control_error (stop_ok remove_ok : bool) : string :=
  match stop_ok, remove_ok with
  | false, false => "stop failed, remove failed"
  | false, true => "stop failed"
  | true, false => "remove failed"
  | true, true => "unknown error"
  end.



(** The argument vector of the [docker run] both launch methods build. *)
Definition run_args `{Host} (name : string) (ports : list value)
    (ssh_password jupyter_token : value) (gpus : option string)
    (image_to_run : value) (cpuset : option string)
    (memory swap shm storage : option Z) : list value :=
  (head_args name shm ++ ports
   ++ env_args ssh_password jupyter_token gpus
   ++ [VStr "-v"; VStr ((name ++ "-work") ++ ":/work");
       VStr "--restart"; VStr "unless-stopped"]
   ++ limit_args cpuset memory swap storage
   ++ [image_to_run])%list.

(** A host with image [x] on which port 5000 is bound. *)
Definition port_5000_bound : Sim.state :=
  {| Sim.containers := []; Sim.volumes := []; Sim.images := ["x"];
     Sim.bound := [5000]; Sim.pulls := []; Sim.report_code := 200 |}.

(** The container identifier of a control task, and the log line that
    announces the operation. *)
Definition control_id (task_data container_info : dict) : value :=
  py_or (get task_data "container_id") (get container_info "container_id").

Definition control_received `{Host} (operation : string)
    (task_data container_info : dict) : string :=
  "control task received: op=" ++ operation ++ " container_id="
  ++ py_str (control_id task_data container_info).

(** The body of the one request [send_log] makes. *)
Definition log_post (message : string) : event :=
  EvPost Logs (VDict [("message", VStr message)]).

(** The task has no port mapping to go by, so the older convention applies. *)
Definition legacy_mode (container_info : dict) : bool :=
  match get container_info "port_mapping" with
  | VDict (_ :: _) => false
  | _ => true
  end.

(** The simulated host after scenario A has run on it. *)
Definition after_scenario_a : @world Sim.host :=
  snd (@process_task Sim.host (VInt 1) task_a_data task_a_info (Sim.boot Sim.fresh)).

(** The status a report is sent with. *)
Definition reported_status (container_info : dict) : value :=
  py_or (get container_info "status") (VStr "running").

(** Whether the control plane accepted a request: a 200 whose body is an
    object with [exception] equal to zero. *)
Definition accepted_by (reply : result response) : bool :=
  match reply with
  | Ok response =>
      (status_code response =? 200)
      && match json response with
         | Ok (VDict rj) => eq_int (get rj "exception") 0
         | _ => false
         end
  | Raise _ => false
  end.

(** A reply to [tasks/pull] in which the control plane signals an error. *)
Definition exception_reply : result response :=
  Ok {| status_code := 200;
        json := Ok (VDict [("exception", VInt 1); ("message", VStr "busy")]) |}.

(** What the body of the [try] of a turn can come to. *)
Definition turn_outcome `{Host} (c : Z) (r : result (Z * bool)) (w1 : world) : Prop :=
  match r with
  | Raise _ => True
  | Ok (c', continued) =>
      (c' = 0 \/ c' = c + 1)
      /\ (continued = true -> exists w2, w1 = record (EvSleep 10) w2)
  end.

(** What [stop()] asks of the engine after its listing of all containers,
    of which [running] are the ones that run. *)
Definition stop_all_events (names running : list string) : list event :=
  match names with
  | [] => []
  | _ :: _ =>
      (repeat ps_running (List.length names)
       ++ match running with
          | [] => []
          | _ :: _ => [EvDocker ("docker" :: "stop" :: running)]
          end
       ++ [EvDocker ("docker" :: "rm" :: names)])%list
  end.

(** The container of scenario A, running. *)
Definition running_task_1 : Sim.state :=
  {| Sim.containers := [{| Sim.name := "task_1"; Sim.id := "c0ffee-task_1";
                           Sim.up := true |}];
     Sim.volumes := ["task_1-work"]; Sim.images := ["x"]; Sim.bound := [];
     Sim.pulls := []; Sim.report_code := 200 |}.

(** Whether a command ran and exited with zero. *)
Definition exit_zero (p : proc) : bool :=
  match p with
  | Exited rc _ _ => rc =? 0
  | NotRun _ => false
  end.

Definition docker_ps : list string := ["docker"; "ps"].

Definition usermod (user : string) : event :=
  EvDocker ["sudo"; "usermod"; "-aG"; "docker"; user].

Definition restart_docker : event :=
  EvDocker ["sudo"; "systemctl"; "restart"; "docker"].

(** What follows an answer of [whoami]: the user it names is added to the
    docker group; without a name nothing is tried. *)
Definition group_change (whoami : proc) : list event :=
  match whoami with
  | Exited rc out _ => if rc =? 0 then [usermod (strip out)] else []
  | NotRun _ => []
  end.

(** The error of a command that could not be run is one the two handlers of
    [check_and_install_docker] let through. *)
Definition passes_through (file_not_found : exn -> bool) (e : exn) : bool :=
  match e with
  | CalledProcessError _ => false
  | _ => negb (file_not_found e)
  end.

(** A host whose commands answer by their argument vector alone: nothing
    changes state, every port is free and the control plane is out of reach. *)
Module Canned.
Definition host (answer : list string -> proc) : Host :=
  Build_Host unit (fun argv s => (answer argv, s)) (fun _ _ => false)
             (fun _ _ s => (Raise ConnectionError, s)) (fun _ => "<object>").

Definition boot (answer : list string -> proc) : @world (host answer) :=
  @Build_world (host answer) tt [].

(** A docker daemon the user may not talk to. *)
Definition denied (argv : list string) : proc :=
  match argv with
  | ["docker"; "ps"] => Exited 1 "" "permission denied"
  | ["whoami"] => Exited 0 ("worker" ++ String "010" "") ""
  | _ => Exited 0 "" ""
  end.

(** A machine on which every command exits with zero. *)
Definition healthy (argv : list string) : proc := Exited 0 "" "".

(** A machine without docker: the binary is not found. *)
Definition missing (argv : list string) : proc := NotRun OSError.

(** An engine that answers every command by reporting that the container
    is not running. *)
Definition idle (argv : list string) : proc :=
  Exited 1 "" "Error response from daemon: container web is not running".

(** A running container [web] that does not stop. *)
Definition stuck (argv : list string) : proc :=
  match argv with
  | ["docker"; "ps"; "--format"; _] => Exited 0 ("web" ++ String "010" "") ""
  | ["docker"; "ps"; "-a"; "--format"; _] => Exited 0 ("web" ++ String "010" "") ""
  | _ => Exited 1 "" "cannot stop container"
  end.
End Canned.

(** The keys a status report can have. *)
Definition reported_keys : list string :=
  ["status"; "container_id"; "container_name"; "progress"; "output";
   "error_message"].

(** The fields of a result that a status report is built from. *)
Definition reported_fields : list string :=
  ["status"; "container_id"; "container_name"; "ssh_host"; "ssh_port";
   "error_message"].

(** Two results of a start that differ in the password alone. *)
Definition started_with (password : string) : dict :=
  [("container_id", VStr "c0ffee-task_1"); ("container_name", VStr "task_1");
   ("ssh_port", VStr "5000"); ("ssh_host", VStr "10.0.0.1");
   ("ssh_username", VStr "root"); ("ssh_password", VStr password);
   ("port_mapping", VDict [("5000", VInt 22)]); ("status", VStr "running")].

(** The engine lets a first launch through.  From the state [s0] it
    answers the two listing queries without naming the container, every host
    port of the mapping is a port number whose bind test passes, the image is
    at hand, the volume is created, and the run command [cmd] exits with zero
    after printing the identifier; [s5] is the state it is left in. *)
Definition first_launch `{Host} (s0 : engine) (name image : string)
    (host_ports : list string) (cmd : list string) (container_id : string)
    (s5 : engine) : Prop :=
  exists out1 err1 s1 out2 err2 s2 out3 err3 s3 out4 err4 s4 out5 err5,
    docker ["docker"; "ps"; "--format"; "{{.Names}}"] s0 = (Exited 0 out1 err1, s1)
    /\ mem name (splitlines out1) = false
    /\ docker ["docker"; "ps"; "-a"; "--format"; "{{.Names}}"] s1
       = (Exited 0 out2 err2, s2)
    /\ mem name (splitlines out2) = false
    /\ forallb (fun host_port =>
                  match port_of host_port with
                  | Some p => negb (bind_refused p s2)
                  | None => false
                  end) host_ports = true
    /\ docker ["docker"; "image"; "inspect"; image] s2 = (Exited 0 out3 err3, s3)
    /\ docker ["docker"; "volume"; "create"; name ++ "-work"] s3
       = (Exited 0 out4 err4, s4)
    /\ docker cmd s4 = (Exited 0 out5 err5, s5)
    /\ container_id = strip out5.

(** What reaches the outside during such a launch, in order. *)
Definition launch_events (name image : string) (host_ports : list string)
    (cmd : list string) : list event :=
  ([ps_running; ps_all] ++ map EvBind (ports_of host_ports)
   ++ [EvDocker ["docker"; "image"; "inspect"; image];
       EvDocker ["docker"; "volume"; "create"; (name ++ "-work")%string];
       EvDocker cmd])%list.

(** The arguments of the [docker run] that [process_task] asks for in the
    port-mapping mode. *)
Definition mapped_run_args `{Host} (task_id : value)
    (task_data container_info port_mapping : dict) : list value :=
  run_args ("task_" ++ py_str task_id) (port_args port_mapping)
    (get container_info "ssh_password") (get container_info "ssh_password")
    (gpus_param task_data) (get task_data "docker_image") (cpuset_cpus task_data)
    (memory_gb task_data) (memory_gb task_data)
    (shm_size_gb task_data) (storage_gb task_data).

(** The SSH command of a result whose SSH port is [ssh_port]. *)
Definition ssh_command_for `{Host} (container_info : dict) (ssh_port : value) : value :=
  get_default container_info "ssh_command"
    (VStr ("ssh root@" ++ py_str (get container_info "ssh_host") ++ " -p "
           ++ py_str ssh_port)).

(** Task 2 maps port 5001 to the Jupyter port only; task 8 maps two ports to
    container port 22. *)
Definition task_2_info : dict :=
  [("port_mapping", VDict [("5001", VInt 8888)]); ("ssh_password", VStr "p")].

Definition task_8_info : dict :=
  [("port_mapping",
    VDict [("5001", VInt 8888); ("5000", VInt 22); ("6000", VInt 22)]);
   ("ssh_password", VStr "p")].

(** The [docker run] of tasks 2 and 8 for image [x] with 8 GB of RAM. *)
Definition task_2_cmd : list string :=
  Eval vm_compute in
    match strs (@mapped_run_args Sim.host (VInt 2) task_a_data task_2_info
                  [("5001", VInt 8888)]) with
    | Some cmd => cmd
    | None => []
    end.

Definition task_8_cmd : list string :=
  Eval vm_compute in
    match strs (@mapped_run_args Sim.host (VInt 8) task_a_data task_8_info
                  [("5001", VInt 8888); ("5000", VInt 22); ("6000", VInt 22)]) with
    | Some cmd => cmd
    | None => []
    end.

(** * Properties *)

(** ** Text as Python reads it *)

(** [strip] removes the whitespace outside ASCII as well, here a no-break
    space ([U+00A0]) after the word and a file separator ([0x1c]) before it,
    and [lower] knows the Kelvin sign. *)
Example normalized_beyond_ascii :
  normalized (VStr ("stop" ++ String "194" (String "160" ""))) "" = Ok "stop"
  /\ normalized (VStr (String "028" " Stop_Remove")) "" = Ok "stop_remove"
  /\ lower (String "226" (String "132" (String "170" ""))) = "k".
Proof. repeat split. Qed.

(** [int] skips the parser's own whitespace and the whitespace outside
    ASCII, but not the separators [0x1c] to [0x1f]; it reads the decimal
    digits of every script, single underscores between digits, and at most
    4300 digits. *)
Example int_of_text :
  py_int (VStr (String "031" "8")) = Raise ValueError
  /\ py_int (VStr (String "194" (String "160" " 8 "))) = Ok 8
  /\ py_int (VStr (String "239" (String "188" (String "152" "")))) = Ok 8
  /\ py_int (VStr "-1_000") = Ok (-1000)
  /\ py_int (VStr "1__0") = Raise ValueError
  /\ py_int (VStr "0x10") = Raise ValueError
  /\ py_int (VStr "") = Raise ValueError.
Proof. repeat split. Qed.

(** Lines end at the boundaries outside ASCII too, here a line separator
    ([U+2028]). *)
Example splitlines_beyond_ascii :
  splitlines ("web" ++ String "226" (String "128" (String "168" "db"))
              ++ String "013" (String "010" "cache"))
  = ["web"; "db"; "cache"].
Proof. reflexivity. Qed.

(** ** Binary64 halving of an integer *)

Lemma digits2_pos_bounds (p : positive) :
  2 ^ (Zpos (digits2_pos p) - 1) <= Zpos p < 2 ^ Zpos (digits2_pos p).
Proof.
  induction p as [p IH | p IH |]; cbn [digits2_pos].
  - rewrite Pos2Z.inj_succ, Z.pow_succ_r by lia.
    replace (Z.succ (Zpos (digits2_pos p)) - 1)
      with (Z.succ (Zpos (digits2_pos p) - 1)) by lia.
    rewrite Z.pow_succ_r by lia. lia.
  - rewrite Pos2Z.inj_succ, Z.pow_succ_r by lia.
    replace (Z.succ (Zpos (digits2_pos p)) - 1)
      with (Z.succ (Zpos (digits2_pos p) - 1)) by lia.
    rewrite Z.pow_succ_r by lia. lia.
  - cbn. lia.
Qed.

Lemma digits2_pos_le (p : positive) (k : Z) :
  0 <= k -> Zpos p < 2 ^ k -> Zpos (digits2_pos p) <= k.
Proof.
  intros Hk Hp.
  destruct (Z_le_gt_dec (Zpos (digits2_pos p)) k) as [|Hgt]; [assumption|].
  pose proof (digits2_pos_bounds p) as [Hlo _].
  assert (2 ^ k <= 2 ^ (Zpos (digits2_pos p) - 1)) by (apply Z.pow_le_mono_r; lia).
  lia.
Qed.

Lemma iter_xO_value (p k : positive) :
  Zpos (Pos.iter xO p k) = Zpos p * 2 ^ Zpos k.
Proof.
  induction k as [|k IH] using Pos.peano_ind.
  - cbn. lia.
  - rewrite Pos.iter_succ, Pos2Z.inj_succ, Z.pow_succ_r by lia.
    rewrite Pos2Z.inj_xO, IH. lia.
Qed.

Lemma iter_xO_digits (p k : positive) :
  digits2_pos (Pos.iter xO p k) = (digits2_pos p + k)%positive.
Proof.
  induction k as [|k IH] using Pos.peano_ind.
  - cbn. lia.
  - rewrite Pos.iter_succ. cbn [digits2_pos]. rewrite IH. lia.
Qed.

(** A 53-bit mantissa in the normal range is already rounded. *)
Lemma round_aux_exact (s : bool) (m : positive) (e : Z) :
  Zpos (digits2_pos m) = 53 -> -1074 <= e <= 971 ->
  binary_round_aux prec emax s (Zpos m) e loc_Exact = S754_finite s m e.
Proof.
  intros Hd He.
  assert (Hshift : fexp prec emax (Zdigits2 (Zpos m) + e) - e = 0).
  { cbn [Zdigits2]. rewrite Hd. unfold fexp, emin, prec, emax. lia. }
  unfold binary_round_aux, shr_fexp.
  rewrite Hshift. cbn [shr shr_record_of_loc shr_m loc_of_shr_record round_nearest_even].
  rewrite Hshift. cbn [shr shr_record_of_loc shr_m].
  replace (e <=? emax - prec) with true; [reflexivity|].
  symmetry. apply Z.leb_le. unfold emax, prec. lia.
Qed.

(** Below [2^53] the float quotient [n / 2] is exact, so [int(n / 2)] is the
    floor of the half. *)
Lemma int_truediv_2_exact (n : Z) :
  0 < n < 2 ^ 53 ->
  exists f, int_truediv_2 n = Ok f /\ float_to_int f = Ok (n / 2).
Proof.
  intros [Hpos Hlt]. destruct n as [|p|p]; try lia.
  pose proof (digits2_pos_le p 53 ltac:(lia) Hlt) as Hd.
  unfold int_truediv_2, binary_normalize, binary_round.
  assert (Hfexp : fexp prec emax (Zpos (digits2_pos p) + -1)
                  = Zpos (digits2_pos p) - 54).
  { unfold fexp, emin, prec, emax. lia. }
  rewrite Hfexp. unfold shl_align.
  destruct (Zpos (digits2_pos p) - 54 - -1) as [|k|k] eqn:Hk; try lia.
  - rewrite round_aux_exact by lia.
    eexists; split; [reflexivity|].
    cbn [float_to_int cond_Zopp]. f_equal.
    change (Z.shiftl (Zpos p) (-1)) with (Z.shiftr (Zpos p) 1).
    rewrite Z.shiftr_div_pow2 by lia. reflexivity.
  - rewrite round_aux_exact.
    + eexists; split; [reflexivity|].
      cbn [float_to_int cond_Zopp]. f_equal.
      rewrite iter_xO_value.
      replace (Zpos (digits2_pos p) - 54) with (- (Zpos k + 1)) by lia.
      rewrite Z.shiftl_opp_r.
      rewrite Z.shiftr_div_pow2 by lia.
      rewrite Z.pow_add_r by lia.
      rewrite Z.pow_1_r, (Z.mul_comm (2 ^ Zpos k) 2).
      rewrite Z.div_mul_cancel_r by (try apply Z.pow_nonzero; lia).
      reflexivity.
    + rewrite iter_xO_digits, Pos2Z.inj_add. lia.
    + lia.
Qed.

Lemma shm_of_memory_exact (n : Z) :
  0 < n <= 2 ^ 53 -> shm_of_memory (Some n) = Some (Z.max 1 (n / 2)).
Proof.
  intros [Hpos Hle]. unfold shm_of_memory.
  replace (0 <? n) with true by (symmetry; apply Z.ltb_lt; lia).
  destruct (Z.eq_dec n (2 ^ 53)) as [-> | Hne]; [vm_compute; reflexivity|].
  destruct (int_truediv_2_exact n ltac:(lia)) as (f & -> & ->). reflexivity.
Qed.

(** ** Shared memory *)

(** C4, as amended.  The shared-memory size is [max(1, floor(ram / 2))]
    whenever [ram_allocated_gb] converts to a positive integer of at most
    [2^53], and it is unset when the field is unset, does not convert, or
    converts to a non-positive integer. *)
Theorem C4_shm_size_gb (task_data : dict) :
  (forall n, py_int (get task_data "ram_allocated_gb") = Ok n ->
             0 < n <= 2 ^ 53 ->
             shm_size_gb task_data = Some (Z.max 1 (n / 2)))
  /\ (get task_data "ram_allocated_gb" = VNone -> shm_size_gb task_data = None)
  /\ (forall e, py_int (get task_data "ram_allocated_gb") = Raise e ->
                shm_size_gb task_data = None)
  /\ (forall n, py_int (get task_data "ram_allocated_gb") = Ok n -> n <= 0 ->
                shm_size_gb task_data = None).
Proof.
  unfold shm_size_gb, memory_gb, int_or_none.
  repeat split.
  - intros n Hn Hrange.
    destruct (get task_data "ram_allocated_gb"); try discriminate Hn;
      rewrite Hn; apply shm_of_memory_exact; assumption.
  - intros ->. reflexivity.
  - intros e He.
    destruct (get task_data "ram_allocated_gb"); try reflexivity;
      rewrite He; reflexivity.
  - intros n Hn Hle.
    destruct (get task_data "ram_allocated_gb"); try discriminate Hn;
      rewrite Hn; unfold shm_of_memory;
      replace (0 <? n) with false by (symmetry; apply Z.ltb_ge; lia);
      reflexivity.
Qed.

(** RAM = 8 gives 4, RAM = 1 gives 1; no RAM, text that is no number, and
    RAM = 0 give no size. *)
Lemma C4_shm_size_gb_witness :
  shm_size_gb [("ram_allocated_gb", VInt 8)] = Some 4
  /\ shm_size_gb [("ram_allocated_gb", VInt 1)] = Some 1
  /\ shm_size_gb [("docker_image", VStr "x")] = None
  /\ shm_size_gb [("ram_allocated_gb", VStr "plenty")] = None
  /\ shm_size_gb [("ram_allocated_gb", VInt 0)] = None.
Proof.
  split; [|split; [|split; [|split]]].
  - apply (proj1 (C4_shm_size_gb [("ram_allocated_gb", VInt 8)]) 8);
      [reflexivity | lia].
  - apply (proj1 (C4_shm_size_gb [("ram_allocated_gb", VInt 1)]) 1);
      [reflexivity | lia].
  - apply (proj1 (proj2 (C4_shm_size_gb [("docker_image", VStr "x")]))).
    reflexivity.
  - apply (proj1 (proj2 (proj2 (C4_shm_size_gb [("ram_allocated_gb", VStr "plenty")])))
             ValueError).
    reflexivity.
  - apply (proj2 (proj2 (proj2 (C4_shm_size_gb [("ram_allocated_gb", VInt 0)]))) 0);
      [reflexivity | lia].
Defined.

(** C4 as stated fails: [2^53 + 3] is a positive integer, and for it
    [int(ram / 2)] is one more than the floor of the half, because the float
    quotient is rounded to even. *)
Lemma C4_counterexample :
  py_int (get [("ram_allocated_gb", VInt 9007199254740995)] "ram_allocated_gb")
    = Ok 9007199254740995
  /\ 0 < 9007199254740995
  /\ shm_size_gb [("ram_allocated_gb", VInt 9007199254740995)]
       = Some 4503599627370498
  /\ Z.max 1 (9007199254740995 / 2) = 4503599627370497
  /\ shm_size_gb [("ram_allocated_gb", VInt 9007199254740995)]
       <> Some (Z.max 1 (9007199254740995 / 2)).
Proof.
  repeat split; try (vm_compute; reflexivity); try lia.
  vm_compute. discriminate.
Qed.

(** ** CPU affinity *)

Lemma collect_ranges_parsed (rs : list value) :
  forall ranges,
    forallb pair_parses rs = true ->
    collect_ranges rs ranges = Ok (ranges ++ valid_ranges rs)%list.
Proof.
  induction rs as [|r rest IH]; intros ranges Hall; cbn [collect_ranges valid_ranges].
  - rewrite app_nil_r. reflexivity.
  - cbn [forallb] in Hall. apply andb_prop in Hall as [Hr Hrest].
    destruct r as [| | | | |l|]; cbn [valid_range]; auto.
    destruct l as [|a [|b [|c l]]]; auto.
    cbn [pair_parses] in Hr.
    destruct (py_int a) as [start|]; [|discriminate Hr].
    destruct (py_int b) as [stop|]; [|discriminate Hr].
    rewrite IH by assumption. rewrite <- app_assoc. reflexivity.
Qed.

Lemma collect_ranges_rejected (rs : list value) :
  forall ranges,
    forallb pair_parses rs = false ->
    exists e, collect_ranges rs ranges = Raise e.
Proof.
  induction rs as [|r rest IH]; intros ranges Hall; [discriminate Hall|].
  cbn [forallb] in Hall. cbn [collect_ranges].
  destruct r as [| | | | |l|]; cbn [pair_parses andb] in Hall; auto.
  destruct l as [|a [|b [|c l]]]; cbn [andb] in Hall; auto.
  destruct (py_int a) as [start|e]; [|exists e; reflexivity].
  destruct (py_int b) as [stop|e]; [|exists e; reflexivity].
  cbn [is_ok andb] in Hall. auto.
Qed.

(** C5, as amended.  When every two-element entry of the range list
    converts, the affinity is the comma-join of the ["start-end"] of these
    entries (entries of another shape are skipped) and is unset when there is
    none, which covers the empty list and a value that is no list; one
    two-element entry with a member that does not convert unsets the
    affinity as a whole. *)
Theorem C5_cpuset_cpus (task_data : dict) :
  (pairs_parse task_data = true -> cpuset_cpus task_data = spec_cpuset task_data)
  /\ (pairs_parse task_data = false -> cpuset_cpus task_data = None).
Proof.
  unfold pairs_parse, cpuset_cpus, spec_cpuset.
  destruct (as_list (cpu_allocated_ranges task_data)) as [[|r rs]|];
    split; intros Hp; try reflexivity; try discriminate Hp.
  - rewrite (collect_ranges_parsed _ _ Hp). reflexivity.
  - destruct (collect_ranges_rejected _ [] Hp) as [e ->]. reflexivity.
Qed.

(** The ranges [(0,3), (8,11)] give ["0-3,8-11"], an entry of another
    shape among them is skipped, and an empty list, text in place of the
    list, and a pair with a member that is no number give no affinity. *)
Lemma C5_cpuset_cpus_witness :
  cpuset_cpus [("cpu_allocated_ranges",
                VList [VList [VInt 0; VInt 3]; VList [VInt 8; VInt 11]])]
    = Some "0-3,8-11"
  /\ cpuset_cpus [("cpu_allocated_ranges",
                   VList [VList [VInt 0; VInt 3]; VInt 5; VList [VInt 8; VInt 11]])]
    = Some "0-3,8-11"
  /\ cpuset_cpus [("cpu_allocated_ranges", VList [])] = None
  /\ cpuset_cpus [("cpu_allocated_ranges", VStr "0-3")] = None
  /\ cpuset_cpus [("cpu_allocated_ranges",
                   VList [VList [VInt 0; VInt 3]; VList [VStr "x"; VInt 1]])]
    = None.
Proof.
  split; [|split; [|split; [|split]]].
  - exact (proj1 (C5_cpuset_cpus
                    [("cpu_allocated_ranges",
                      VList [VList [VInt 0; VInt 3]; VList [VInt 8; VInt 11]])])
                 eq_refl).
  - exact (proj1 (C5_cpuset_cpus
                    [("cpu_allocated_ranges",
                      VList [VList [VInt 0; VInt 3]; VInt 5;
                             VList [VInt 8; VInt 11]])])
                 eq_refl).
  - exact (proj1 (C5_cpuset_cpus [("cpu_allocated_ranges", VList [])]) eq_refl).
  - exact (proj1 (C5_cpuset_cpus [("cpu_allocated_ranges", VStr "0-3")]) eq_refl).
  - exact (proj2 (C5_cpuset_cpus
                    [("cpu_allocated_ranges",
                      VList [VList [VInt 0; VInt 3]; VList [VStr "x"; VInt 1]])])
                 eq_refl).
Defined.

(** C5 as stated fails: of the two pairs [(0,3)] and [("x",1)] the first
    parses, so the comma-join of the valid ranges is ["0-3"]; the code leaves
    the affinity unset. *)
Lemma C5_counterexample :
  valid_ranges [VList [VInt 0; VInt 3]; VList [VStr "x"; VInt 1]] = ["0-3"]
  /\ spec_cpuset [("cpu_allocated_ranges",
                   VList [VList [VInt 0; VInt 3]; VList [VStr "x"; VInt 1]])]
     = Some "0-3"
  /\ cpuset_cpus [("cpu_allocated_ranges",
                   VList [VList [VInt 0; VInt 3]; VList [VStr "x"; VInt 1]])]
     = None
  /\ cpuset_cpus [("cpu_allocated_ranges",
                   VList [VList [VInt 0; VInt 3]; VList [VStr "x"; VInt 1]])]
     <> spec_cpuset [("cpu_allocated_ranges",
                      VList [VList [VInt 0; VInt 3]; VList [VStr "x"; VInt 1]])].
Proof. repeat split. discriminate. Qed.

(** ** GPU device selector *)

(** C6.  [gpu_required] is a count: a non-negative integer, zero when the
    field is absent.  The selector is set exactly when the count is greater
    than zero; then it is the comma-join of the indices when a non-empty list
    of them is supplied, and ["all"] when the list is absent, empty, no list
    at all, or holds an entry that is no integer.  With [gpu_required = 0]
    there is no selector. *)
Theorem C6_gpus_param (task_data : dict) (n : Z) :
  get_default task_data "gpu_required" (VInt 0) = VInt n ->
  0 <= n ->
  (gpus_param task_data <> None <-> 0 < n)
  /\ (forall i l ns,
        0 < n ->
        as_list (gpu_indices task_data) = Some (i :: l) ->
        ints_of (i :: l) = Ok ns ->
        gpus_param task_data = Some (join "," (map str_of_int ns)))
  /\ (0 < n ->
      get task_data "gpu_enabled_indices" = VNone
      \/ as_list (gpu_indices task_data) = Some []
      \/ as_list (gpu_indices task_data) = None
      \/ (exists l e, as_list (gpu_indices task_data) = Some l
                      /\ ints_of l = Raise e) ->
      gpus_param task_data = Some "all")
  /\ (n = 0 -> gpus_param task_data = None).
Proof.
  intros Hfield Hcount.
  assert (Hreq : truthy (gpu_required task_data) = negb (n =? 0)).
  { unfold gpu_required, py_or. rewrite Hfield. cbn [truthy].
    destruct (n =? 0) eqn:Hn; cbn [negb truthy]; [reflexivity|].
    rewrite Hn. reflexivity. }
  assert (Hpos : 0 < n -> truthy (gpu_required task_data) = true).
  { intros Hn. rewrite Hreq.
    replace (n =? 0) with false by (symmetry; apply Z.eqb_neq; lia).
    reflexivity. }
  split; [|split; [|split]].
  - unfold gpus_param. rewrite Hreq.
    destruct (Z.eqb_spec n 0) as [-> | Hn]; cbn [negb];
      destruct (as_list (gpu_indices task_data)) as [[|i l]|];
      try destruct (ints_of (i :: l)); split; intros; try congruence; lia.
  - intros i l ns Hn Hlist Hints. unfold gpus_param.
    rewrite Hlist, (Hpos Hn), Hints. reflexivity.
  - intros Hn Hbad. unfold gpus_param. rewrite (Hpos Hn).
    destruct Hbad as [Habsent | [-> | [-> | (l & e & -> & Hl)]]]; try reflexivity.
    + unfold gpu_indices. rewrite Habsent. reflexivity.
    + destruct l as [|i l]; [reflexivity|]. rewrite Hl. reflexivity.
  - intros ->. unfold gpus_param. rewrite Hreq. cbn [Z.eqb negb].
    destruct (as_list (gpu_indices task_data)) as [[|i l]|]; reflexivity.
Qed.

(** [gpu_required=2, indices=[0,2]] gives ["0,2"]; [gpu_required=1] with an
    empty list gives ["all"]; [gpu_required=0] gives no selector, and so does
    a task that does not name the field. *)
Lemma C6_gpus_param_witness :
  gpus_param [("gpu_required", VInt 2);
              ("gpu_enabled_indices", VList [VInt 0; VInt 2])] = Some "0,2"
  /\ gpus_param [("gpu_required", VInt 1); ("gpu_enabled_indices", VList [])]
     = Some "all"
  /\ gpus_param [("gpu_required", VInt 0);
                 ("gpu_enabled_indices", VList [VInt 0; VInt 2])] = None
  /\ gpus_param [("gpu_enabled_indices", VList [VInt 0; VInt 2])] = None.
Proof.
  split; [|split; [|split]].
  - apply (proj1 (proj2
             (C6_gpus_param [("gpu_required", VInt 2);
                             ("gpu_enabled_indices", VList [VInt 0; VInt 2])]
                2 eq_refl ltac:(lia)))
             (VInt 0) [VInt 2] [0; 2]);
      [lia | reflexivity | reflexivity].
  - apply (proj1 (proj2 (proj2
             (C6_gpus_param [("gpu_required", VInt 1);
                             ("gpu_enabled_indices", VList [])]
                1 eq_refl ltac:(lia)))));
      [lia|].
    right; left; reflexivity.
  - apply (proj2 (proj2 (proj2
             (C6_gpus_param [("gpu_required", VInt 0);
                             ("gpu_enabled_indices", VList [VInt 0; VInt 2])]
                0 eq_refl ltac:(lia))))).
    reflexivity.
  - apply (proj2 (proj2 (proj2
             (C6_gpus_param [("gpu_enabled_indices", VList [VInt 0; VInt 2])]
                0 eq_refl ltac:(lia))))).
    reflexivity.
Defined.

(** ** The monad *)

Section MonadFacts.
Context `{Host}.

Lemma send_log_returns (message : string) (w : world) :
  exists b, send_log message w = (Ok b, after (send_log message) w).
Proof.
  unfold after, send_log, try_except, bind, http_post, ret.
  destruct (post Logs _ (host_state w)) as [[resp|e] s]; cbn; eauto.
Qed.

Lemma seq_send_log {A} (message : string) (m : M A) (w : world) :
  (send_log message ;;; m) w = m (after (send_log message) w).
Proof.
  unfold bind at 1. destruct (send_log_returns message w) as [b ->]. reflexivity.
Qed.

Lemma bind_ok {A B} (m : M A) (k : A -> M B) (w w' : world) (a : A) :
  m w = (Ok a, w') -> bind m k w = k a w'.
Proof. intros Hm. unfold bind. rewrite Hm. reflexivity. Qed.

Lemma bind_raise {A B} (m : M A) (k : A -> M B) (w w' : world) (e : exn) :
  m w = (Raise e, w') -> bind m k w = (Raise e, w').
Proof. intros Hm. unfold bind. rewrite Hm. reflexivity. Qed.

Lemma bind_lift_ok {A B} (a : A) (k : A -> M B) (w : world) :
  bind (lift (Ok a)) k w = k a w.
Proof. reflexivity. Qed.

Lemma try_except_returns {A} (m : M A) (handler : exn -> M A) (w : world) :
  (forall e w', exists a w'', handler e w' = (Ok a, w'')) ->
  exists a w', try_except m handler w = (Ok a, w').
Proof.
  intros Hh. unfold try_except. destruct (m w) as [[a|e] w']; eauto.
Qed.
End MonadFacts.

(** ** Stopping and removing by identifier *)

Section StopRemove.
Context `{Host}.

Lemma by_id_answer (verb : string) (container_id : value) (w : world)
    (judge : completed -> bool) :
  fst (try_except
         (cp <- _run [VStr "docker"; VStr verb; container_id] false true ;;
          if returncode cp =? 0 then ret true
          else if judge cp then ret true else ret false)
         (fun _ => ret false) w)
  = Ok match engine_answer verb container_id w with
       | Exited rc out err =>
           (rc =? 0) || judge {| returncode := rc; stdout := Some out;
                                 stderr := Some err |}
       | NotRun _ => false
       end.
Proof.
  unfold try_except, bind, _run, engine_answer.
  destruct container_id; cbn [strs option_map]; try reflexivity.
  unfold bind, exec.
  destruct (docker _ (host_state w)) as [[rc out err|e] st]; cbn; [|reflexivity].
  destruct (rc =? 0); cbn; [reflexivity|].
  destruct (judge _); reflexivity.
Qed.

(** C8, as amended.  [stop_by_id] and [remove_by_id] always return a boolean, never an
    exception.  [stop_by_id] is true when the engine ran the command with
    success or reported the container as not found or as not running;
    [remove_by_id] is true on success or when the container is reported as
    not found.  Each is false in every other case: the command failed with
    another message, or could not be run at all. *)
Theorem C8_stop_remove_by_id (container_id : value) (w : world) :
  fst (stop_by_id container_id w)
  = Ok (succeeded (engine_answer "stop" container_id w)
        || reports "No such container" (engine_answer "stop" container_id w)
        || reports "is not running" (engine_answer "stop" container_id w))
  /\ fst (remove_by_id container_id w)
     = Ok (succeeded (engine_answer "rm" container_id w)
           || reports "No such container" (engine_answer "rm" container_id w)).
Proof.
  split.
  - unfold stop_by_id.
    rewrite (by_id_answer "stop" container_id w
               (fun cp => contains "No such container" (err_out cp)
                          || contains "is not running" (err_out cp))).
    destruct (engine_answer "stop" container_id w) as [rc out err|e];
      [|reflexivity].
    cbn [succeeded reports err_out stderr stdout or_empty].
    destruct (rc =? 0); reflexivity.
  - unfold remove_by_id.
    rewrite (by_id_answer "rm" container_id w
               (fun cp => contains "No such container" (err_out cp))).
    destruct (engine_answer "rm" container_id w) as [rc out err|e];
      [|reflexivity].
    cbn [succeeded reports err_out stderr stdout or_empty].
    destruct (rc =? 0); reflexivity.
Qed.
End StopRemove.

(** On the simulated host: stopping and removing a container that does not
    exist succeed, an identifier that is no string fails, and neither raises. *)
Example stop_remove_absent :
  fst (@stop_by_id Sim.host (VStr "gone") (Sim.boot Sim.fresh)) = Ok true
  /\ fst (@remove_by_id Sim.host (VStr "gone") (Sim.boot Sim.fresh)) = Ok true
  /\ fst (@stop_by_id Sim.host (VInt 17) (Sim.boot Sim.fresh)) = Ok false.
Proof. repeat split. Qed.

(** The container of scenario A, stopped twice and then removed twice:
    every one of the four calls succeeds, and the container is gone. *)
Example stop_remove_twice :
  let w0 := snd (@process_task Sim.host (VInt 1) task_a_data task_a_info
                   (Sim.boot Sim.fresh)) in
  let s1 := @stop_by_id Sim.host (VStr "c0ffee-task_1") w0 in
  let s2 := @stop_by_id Sim.host (VStr "c0ffee-task_1") (snd s1) in
  let r1 := @remove_by_id Sim.host (VStr "c0ffee-task_1") (snd s2) in
  let r2 := @remove_by_id Sim.host (VStr "c0ffee-task_1") (snd r1) in
  map fst [s1; s2; r1; r2] = [Ok true; Ok true; Ok true; Ok true]
  /\ Sim.containers (host_state (snd r2)) = [].
Proof. vm_compute. split; reflexivity. Qed.

(** C8 as stated fails for [remove_by_id]: when the engine answers that the
    container is not running, [stop_by_id] counts that as success and
    [remove_by_id] does not. *)
Lemma C8_counterexample :
  reports "is not running"
    (@engine_answer (Canned.host Canned.idle) "rm" (VStr "web")
       (Canned.boot Canned.idle)) = true
  /\ fst (@remove_by_id (Canned.host Canned.idle) (VStr "web")
            (Canned.boot Canned.idle)) = Ok false
  /\ fst (@stop_by_id (Canned.host Canned.idle) (VStr "web")
            (Canned.boot Canned.idle)) = Ok true.
Proof. split; [|split]; vm_compute; reflexivity. Qed.

(** ** Port checks *)

Section Ports.
Context `{Host}.

Lemma port_free_in_range (p : Z) (w : world) :
  in_range p = true ->
  _port_free (VInt p) w
  = (Ok (negb (bind_refused p (host_state w))), record (EvBind p) w).
Proof.
  unfold in_range, _port_free. intros ->.
  unfold bind, try_bind. destruct (bind_refused p (host_state w)); reflexivity.
Qed.

Lemma probe_ports_result (host_ports : list string) :
  forall (bad : list string) (w : world),
    forallb is_port host_ports = true ->
    exists w',
      probe_ports host_ports bad w
      = (Ok (bad ++ filter (taken w) host_ports)%list, w')
      /\ host_state w' = host_state w.
Proof.
  induction host_ports as [|k rest IH]; intros bad w Hports.
  - exists w. cbn. rewrite app_nil_r. split; reflexivity.
  - cbn [forallb] in Hports. apply andb_prop in Hports as [Hk Hrest].
    cbn [probe_ports filter]. unfold taken at 1.
    unfold is_port, port_of in *.
    destruct (py_int (VStr k)) as [p|e]; [|discriminate Hk].
    fold (in_range p) in *.
    destruct (in_range p) eqn:Hp; [|discriminate Hk].
    rewrite bind_lift_ok.
    rewrite (bind_ok _ _ _ _ _ (port_free_in_range p w Hp)).
    destruct (IH (if negb (bind_refused p (host_state w)) then bad
                  else (bad ++ [k])%list) (record (EvBind p) w) Hrest)
      as (w' & Hrun & Hstate).
    exists w'. split; [|exact Hstate].
    rewrite Hrun. f_equal. f_equal.
    assert (Hsame : filter (taken (record (EvBind p) w)) rest
                    = filter (taken w) rest) by reflexivity.
    rewrite Hsame.
    destruct (bind_refused p (host_state w)); cbn [negb].
    + rewrite <- app_assoc. reflexivity.
    + reflexivity.
Qed.

(** C7.  When every requested host port is a port number, the check of a
    port mapping succeeds if and only if the bind test passes for every one
    of them; when it fails, the error raised is the ports-in-use error whose
    list is exactly the ports the bind test failed for, each of them and no
    other, in the order of the mapping.  The two-port check of the legacy
    mode does the same for its two ports. *)
Theorem C7_assert_ports_free (port_mapping : dict) (ssh_port jup_port : Z)
    (w : world) :
  forallb is_port (map fst port_mapping) = true ->
  in_range ssh_port = true -> in_range jup_port = true ->
  (fst (_assert_port_mapping_free port_mapping w)
   = match filter (taken w) (map fst port_mapping) with
     | [] => Ok tt
     | bad => Raise (ports_in_use bad)
     end)
  /\ (fst (_assert_port_mapping_free port_mapping w) = Ok tt
      <-> forall k, In k (map fst port_mapping) -> taken w k = false)
  /\ (forall k, In k (filter (taken w) (map fst port_mapping))
                <-> In k (map fst port_mapping) /\ taken w k = true)
  /\ (fst (_assert_ports_free (VInt ssh_port) (VInt jup_port) w)
      = match filter (fun p => bind_refused p (host_state w)) [ssh_port; jup_port] with
        | [] => Ok tt
        | bad => Raise (ports_in_use (map str_of_int bad))
        end).
Proof.
  intros Hports Hssh Hjup.
  assert (Hrun : fst (_assert_port_mapping_free port_mapping w)
                 = match filter (taken w) (map fst port_mapping) with
                   | [] => Ok tt
                   | bad => Raise (ports_in_use bad)
                   end).
  { unfold _assert_port_mapping_free.
    destruct (probe_ports_result (map fst port_mapping) [] w Hports)
      as (w' & Hprobe & _).
    rewrite (bind_ok _ _ _ _ _ Hprobe). cbn [app].
    destruct (filter (taken w) (map fst port_mapping)); reflexivity. }
  split; [exact Hrun|]. split; [|split].
  - rewrite Hrun. split.
    + intros Hok k Hk.
      destruct (taken w k) eqn:Htaken; [|reflexivity].
      assert (Hin : In k (filter (taken w) (map fst port_mapping)))
        by (apply filter_In; auto).
      destruct (filter (taken w) (map fst port_mapping));
        [destruct Hin | discriminate Hok].
    + intros Hfree.
      destruct (filter (taken w) (map fst port_mapping)) as [|k bad] eqn:Hbad;
        [reflexivity|].
      assert (Hin : In k (filter (taken w) (map fst port_mapping)))
        by (rewrite Hbad; left; reflexivity).
      apply filter_In in Hin as [Hk Htaken].
      rewrite (Hfree k Hk) in Htaken. discriminate Htaken.
  - intros k. apply filter_In.
  - unfold _assert_ports_free.
    rewrite (bind_ok _ _ _ _ _ (port_free_in_range ssh_port w Hssh)).
    rewrite (bind_ok _ _ _ _ _
               (port_free_in_range jup_port (record (EvBind ssh_port) w) Hjup)).
    cbn [filter record host_state py_str].
    destruct (bind_refused ssh_port (host_state w));
      destruct (bind_refused jup_port (host_state w)); reflexivity.
Qed.
End Ports.

(** With port 5000 bound and port 5001 free, the check of the mapping
    [{5000: 22, 5001: 8888}] fails and its message names port 5000 only. *)
Lemma C7_assert_ports_free_witness :
  fst (@_assert_port_mapping_free Sim.host
         [("5000", VInt 22); ("5001", VInt 8888)]
         (Sim.boot {| Sim.containers := []; Sim.volumes := []; Sim.images := ["x"];
                      Sim.bound := [5000]; Sim.pulls := []; Sim.report_code := 200 |}))
  = Raise (RuntimeError "Порты заняты: 5000").
Proof.
  rewrite (proj1 (@C7_assert_ports_free Sim.host
                    [("5000", VInt 22); ("5001", VInt 8888)] 5000 5001
                    (Sim.boot {| Sim.containers := []; Sim.volumes := [];
                                 Sim.images := ["x"]; Sim.bound := [5000];
                                 Sim.pulls := []; Sim.report_code := 200 |})
                    eq_refl eq_refl eq_refl)).
  reflexivity.
Defined.

(** ** The control path *)

Section Control.
Context `{Host}.

Lemma py_or_falsy (a b : value) :
  truthy a = false -> truthy b = false -> truthy (py_or a b) = false.
Proof. intros Ha Hb. unfold py_or. rewrite Ha. exact Hb. Qed.

Lemma process_task_returns (task_id : value) (task_data container_info : dict)
    (w w' : world) (r : option dict) :
  process_task_try task_id task_data container_info w = (Ok r, w') ->
  process_task task_id task_data container_info w = (Ok r, w').
Proof. intros Hbody. unfold process_task, try_except. rewrite Hbody. reflexivity. Qed.

(** C9.  A [stop] or [stop_remove] task with no container identifier in
    the task data and none in the connectivity block is answered, without
    an exception, by a result with status [failed] and the error message
    [Missing container_id in control task]. *)
Theorem C9_control_without_container_id (task_id : value)
    (task_data container_info : dict) (operation : string) (w : world) :
  normalized (get task_data "operation") "" = Ok operation ->
  is_control operation = true ->
  truthy (get task_data "container_id") = false ->
  truthy (get container_info "container_id") = false ->
  exists r w',
    process_task task_id task_data container_info w = (Ok (Some r), w')
    /\ get r "status" = VStr "failed"
    /\ get r "error_message" = VStr "Missing container_id in control task".
Proof.
  intros Hop Hcontrol Htask Hinfo.
  eexists. eexists. split.
  - apply process_task_returns.
    unfold process_task_try. rewrite Hop, bind_lift_ok, Hcontrol.
    unfold control. rewrite (py_or_falsy _ _ Htask Hinfo). cbn [negb].
    rewrite seq_send_log. reflexivity.
  - split; reflexivity.
Qed.
End Control.

(** A [stop] task that names no container, on the simulated host. *)
Lemma C9_control_without_container_id_witness :
  exists r w',
    @process_task Sim.host (VInt 7) [("operation", VStr " STOP ")]
      [("ssh_password", VStr "p")] (Sim.boot Sim.fresh)
    = (Ok (Some r), w')
    /\ get r "status" = VStr "failed"
    /\ get r "error_message" = VStr "Missing container_id in control task".
Proof.
  apply (@C9_control_without_container_id Sim.host (VInt 7)
           [("operation", VStr " STOP ")] [("ssh_password", VStr "p")] "stop");
    reflexivity.
Defined.

(** ** Provisioning with a port mapping *)

Section Mapped.
Context `{Host}.

Lemma ssh_port_of_none (port_mapping : dict) :
  no_ssh_entry port_mapping = true -> ssh_port_of port_mapping = VNone.
Proof.
  unfold no_ssh_entry.
  induction port_mapping as [|[host_port container_port] rest IH];
    [reflexivity|].
  cbn [forallb snd ssh_port_of]. intros Hall.
  apply andb_prop in Hall as [Hhead Hrest].
  destruct (eq_int container_port 22); [discriminate Hhead|]. auto.
Qed.

End Mapped.

(** ** Starting a container that is already running *)

Section Restart.
Context `{Host}.

Lemma run_query_trace (args : list value) (cmd : list string) (w w' : world)
    (r : result completed) :
  strs args = Some cmd ->
  _run args true true w = (r, w') ->
  trace w' = (trace w ++ [EvDocker cmd])%list.
Proof.
  intros Hargs. unfold _run. rewrite Hargs. unfold bind, exec.
  destruct (docker cmd (host_state w)) as [[rc out err|e] st]; cbn.
  - destruct (negb (rc =? 0)); intros [= _ <-]; reflexivity.
  - intros [= _ <-]. reflexivity.
Qed.

Lemma running_trace (name : string) (w w' : world) (r : result bool) :
  _running name w = (r, w') -> trace w' = (trace w ++ [ps_running])%list.
Proof.
  unfold _running, bind.
  destruct (_run _ true true w) as [[cp|e] w1] eqn:Hrun.
  - apply run_query_trace with (cmd := ["docker"; "ps"; "--format"; "{{.Names}}"])
      in Hrun; [|reflexivity].
    unfold listing. destruct (stdout cp); cbn; intros [= _ <-]; exact Hrun.
  - apply run_query_trace with (cmd := ["docker"; "ps"; "--format"; "{{.Names}}"])
      in Hrun; [|reflexivity].
    intros [= _ <-]. exact Hrun.
Qed.

(** What both launch methods do for a container that is running: the one
    listing query is all that reaches the engine (no volume is created and
    nothing is run), and the method returns [None], not the identifier the
    engine assigned at the first launch. *)
Lemma start_when_running (name : string) (ssh_port jup_port : value)
    (port_mapping : dict) (ssh_password jupyter_token ssh_username : value)
    (gpus : option string) (image : value) (cpuset : option string)
    (memory swap shm storage : option Z) (w w' : world) :
  _running name w = (Ok true, w') ->
  start name ssh_port jup_port ssh_password jupyter_token ssh_username gpus image
    cpuset memory swap shm storage w = (Ok None, w')
  /\ start_with_port_mapping name port_mapping ssh_password jupyter_token
       ssh_username gpus image cpuset memory swap shm storage w = (Ok None, w')
  /\ trace w' = (trace w ++ [ps_running])%list.
Proof.
  intros Hrunning. split; [|split].
  - unfold start. rewrite (bind_ok _ _ _ _ _ Hrunning). reflexivity.
  - unfold start_with_port_mapping. rewrite (bind_ok _ _ _ _ _ Hrunning).
    reflexivity.
  - exact (running_trace _ _ _ _ Hrunning).
Qed.
End Restart.

(** C1, the replay of scenario A on the simulated host.  The first run
    creates volume [task_1-work] and container [task_1] and reports the
    engine's identifier.  The second run, with the container running, leaves
    containers and volumes as they are and sends the engine the listing query
    only, but the identifier it reports is [None]: the claim's "same
    instance id" does not hold of the code. *)
Theorem C1_replay_reports_no_id :
  let first := @process_task Sim.host (VInt 1) task_a_data task_a_info
                 (Sim.boot Sim.fresh) in
  let second := @process_task Sim.host (VInt 1) task_a_data task_a_info
                  (snd first) in
  (exists r, fst first = Ok (Some r)
             /\ get r "container_id" = VStr "c0ffee-task_1")
  /\ Sim.volumes (host_state (snd first)) = ["task_1-work"]
  /\ (exists r, fst second = Ok (Some r)
                /\ get r "status" = VStr "running"
                /\ get r "container_id" = VNone)
  /\ Sim.containers (host_state (snd second))
     = Sim.containers (host_state (snd first))
  /\ Sim.volumes (host_state (snd second)) = Sim.volumes (host_state (snd first))
  /\ filter (fun ev => match ev with EvDocker _ => true | _ => false end)
       (skipn (List.length (trace (snd first))) (trace (snd second)))
     = [ps_running].
Proof.
  vm_compute. repeat split; eexists; repeat split.
Qed.

(** ** The polling loop *)

Section PollingFacts.
Context `{Host}.

Lemma send_task_status_returns (task_id : value) (r : dict) (w : world) :
  exists b,
    send_task_status task_id r w = (Ok b, after (send_task_status task_id r) w).
Proof.
  unfold after, send_task_status.
  match goal with
  | |- context [try_except ?m ?h w] =>
      destruct (try_except_returns m h w) as (b & w' & Hrun)
  end.
  - intros e w'. rewrite seq_send_log. unfold ret. eauto.
  - exists b. rewrite Hrun. reflexivity.
Qed.

Lemma seq_send_task_status {A} (task_id : value) (r : dict) (m : M A) (w : world) :
  (send_task_status task_id r ;;; m) w = m (after (send_task_status task_id r) w).
Proof.
  unfold bind at 1.
  destruct (send_task_status_returns task_id r w) as [b ->]. reflexivity.
Qed.

Lemma announce_returns (task_id : value) (task_data : dict) (w : world) :
  exists b, announce task_id task_data w = (Ok b, announced task_id task_data w).
Proof.
  unfold announced, after, announce.
  destruct (normalized (get task_data "operation") "start").
  - destruct (send_log_returns
                ("task received: id=" ++ py_str task_id ++ " op=" ++ a) w)
      as [b Hb].
    exists b. rewrite Hb. reflexivity.
  - exists false. reflexivity.
Qed.

(** The wait at the bottom of the loop, from what the [try] gave. *)
Lemma poll_cycle_after_try (callback : callback_type) (c : Z) (w w1 : world)
    (c' : Z) :
  poll_try callback c w = (Ok (c', false), w1) ->
  poll_cycle callback c w = (Ok c', record (EvSleep (backoff c')) w1).
Proof.
  intros Htry. unfold poll_cycle, try_except, bind at 1. rewrite Htry.
  unfold backoff. destruct (max_consecutive_errors <=? c'); reflexivity.
Qed.

Lemma poll_cycle_after_raise (callback : callback_type) (c : Z) (w w1 : world)
    (e : exn) :
  poll_try callback c w = (Raise e, w1) ->
  poll_cycle callback c w
  = (Ok (c + 1),
     record (EvSleep (backoff (c + 1)))
            (after (send_log (poll_failure_line e)) w1)).
Proof.
  intros Htry. unfold poll_cycle, try_except, bind at 1. rewrite Htry.
  rewrite seq_send_log. unfold ret, backoff.
  destruct (max_consecutive_errors <=? c + 1); reflexivity.
Qed.

Lemma poll_cycle_after_continue (callback : callback_type) (c : Z) (w w1 : world)
    (c' : Z) :
  poll_try callback c w = (Ok (c', true), w1) ->
  poll_cycle callback c w = (Ok c', w1).
Proof.
  intros Htry. unfold poll_cycle, try_except, bind at 1. rewrite Htry.
  reflexivity.
Qed.

Lemma failed_turn_waits (callback : callback_type) (c : Z) (w : world) :
  failed_turn callback c w ->
  exists w1,
    poll_cycle callback c w = (Ok (c + 1), record (EvSleep (backoff (c + 1))) w1).
Proof.
  intros [(e & w1 & Htry) | (w1 & Htry)].
  - rewrite (poll_cycle_after_raise _ _ _ _ _ Htry). eauto.
  - rewrite (poll_cycle_after_try _ _ _ _ _ Htry). eauto.
Qed.

Lemma poll_try_transport_error (callback : callback_type) (c : Z) (w w1 : world)
    (e : exn) :
  http_post TasksPull VNone w = (Raise e, w1) ->
  poll_try callback c w = (Raise e, w1).
Proof. intros Hpost. unfold poll_try. apply bind_raise. exact Hpost. Qed.

Lemma poll_try_bad_status (callback : callback_type) (c : Z) (w w1 : world)
    (response : response) :
  http_post TasksPull VNone w = (Ok response, w1) ->
  status_code response <> 200 ->
  exists w2, poll_try callback c w = (Ok (c + 1, false), w2).
Proof.
  intros Hpost Hcode. unfold poll_try. rewrite (bind_ok _ _ _ _ _ Hpost).
  replace (status_code response =? 200) with false
    by (symmetry; apply Z.eqb_neq; exact Hcode).
  rewrite seq_send_log. unfold ret. eauto.
Qed.

Lemma poll_try_data (callback : callback_type) (c : Z) (w w1 : world)
    (data : dict) :
  pulls_data w data w1 ->
  poll_try callback c w
  = (if negb (is_none (get data "task_id")) && negb (is_none (get data "task_data"))
        && negb (is_none (get data "container_info")) then
       td <- lift (as_dict (get data "task_data")) ;;
       ci <- lift (as_dict (get data "container_info")) ;;
       announce (get data "task_id") td ;;;
       dispatch callback c (get data "task_id") td ci
     else if is_none (get data "task_id") then ret (0, false)
     else
       send_log "invalid task data received" ;;;
       ret (c + 1, false)) w1.
Proof.
  intros (response & rj & Hpost & Hcode & Hjson & Hexc & Hdata).
  unfold poll_try. rewrite (bind_ok _ _ _ _ _ Hpost).
  rewrite Hcode, Z.eqb_refl, Hjson, bind_lift_ok.
  cbn [as_dict]. rewrite bind_lift_ok, Hexc. cbn [negb].
  rewrite Hdata. cbn [as_dict]. rewrite bind_lift_ok. reflexivity.
Qed.

Lemma poll_try_no_task (callback : callback_type) (c : Z) (w w1 : world) :
  finds_no_task w w1 -> poll_try callback c w = (Ok (0, false), w1).
Proof.
  intros (data & Hpull & Hid).
  rewrite (poll_try_data _ _ _ _ _ Hpull), Hid. reflexivity.
Qed.

Lemma poll_try_delivers (callback : callback_type) (c : Z) (w w1 : world)
    (task_id : value) (task_data container_info : dict) :
  delivers w task_id task_data container_info w1 ->
  poll_try callback c w
  = dispatch callback c task_id task_data container_info
      (announced task_id task_data w1).
Proof.
  intros (data & Hpull & Hid & Hsome & Htd & Hci).
  rewrite (poll_try_data _ _ _ _ _ Hpull), Hid, Htd, Hci, Hsome.
  cbn [is_none negb andb as_dict]. rewrite !bind_lift_ok.
  unfold bind at 1.
  destruct (announce_returns task_id task_data w1) as [b ->]. reflexivity.
Qed.

Lemma dispatch_result (callback : callback_type) (c : Z) (task_id : value)
    (task_data container_info : dict) (w w2 : world) (field : string * value)
    (fields : dict) :
  callback task_id task_data container_info w = (Ok (Some (field :: fields)), w2) ->
  dispatch callback c task_id task_data container_info w
  = (Ok (0, false), after (send_task_status task_id (field :: fields)) w2).
Proof.
  intros Hcb. unfold dispatch, try_except. rewrite (bind_ok _ _ _ _ _ Hcb).
  rewrite seq_send_task_status. reflexivity.
Qed.

Lemma dispatch_no_result (callback : callback_type) (c : Z) (task_id : value)
    (task_data container_info : dict) (w w2 : world) :
  callback task_id task_data container_info w = (Ok None, w2) ->
  dispatch callback c task_id task_data container_info w
  = (Ok (c + 1, false),
     after (send_log ("task process failed: id=" ++ py_str task_id)) w2).
Proof.
  intros Hcb. unfold dispatch, try_except. rewrite (bind_ok _ _ _ _ _ Hcb).
  rewrite seq_send_log. reflexivity.
Qed.

Lemma dispatch_raise (callback : callback_type) (c : Z) (task_id : value)
    (task_data container_info : dict) (w w2 : world) (e : exn) :
  callback task_id task_data container_info w = (Raise e, w2) ->
  exists w3,
    dispatch callback c task_id task_data container_info w
    = (Ok (c + 1, false), w3).
Proof.
  intros Hcb. unfold dispatch, try_except. rewrite (bind_raise _ _ _ _ _ Hcb).
  rewrite seq_send_log. unfold ret. eauto.
Qed.

Lemma backoff_threshold (c : Z) :
  (backoff c = 60 <-> 5 <= c) /\ (backoff c = 10 <-> c < 5).
Proof.
  unfold backoff, max_consecutive_errors.
  destruct (Z.leb_spec 5 c); split; split; intros; lia || reflexivity.
Qed.

Lemma failing_turns_run (n : nat) (callback : callback_type) :
  forall (c : Z) (w : world),
    failing_turns (S n) callback c w ->
    exists w',
      poll_loop (S n) callback c w
      = (Ok (c + Z.of_nat (S n)),
         record (EvSleep (backoff (c + Z.of_nat (S n)))) w').
Proof.
  induction n as [|n IH]; intros c w [Hfail Hrest].
  - destruct (failed_turn_waits _ _ _ Hfail) as [w1 Hcycle].
    exists w1. cbn [poll_loop]. rewrite (bind_ok _ _ _ _ _ Hcycle). reflexivity.
  - destruct (failed_turn_waits _ _ _ Hfail) as [w1 Hcycle].
    unfold after in Hrest. rewrite Hcycle in Hrest. cbn [snd] in Hrest.
    destruct (IH _ _ Hrest) as [w' Hloop].
    exists w'. change (poll_loop (S (S n)) callback c w)
      with ((c1 <- poll_cycle callback c ;; poll_loop (S n) callback c1) w).
    rewrite (bind_ok _ _ _ _ _ Hcycle), Hloop.
    replace (c + 1 + Z.of_nat (S n)) with (c + Z.of_nat (S (S n))) by lia.
    reflexivity.
Qed.
End PollingFacts.

Section Backoff.
Context `{Host}.

(** X13.  A reply with a non-zero [exception] field counts as a failure, but the
    turn ends in [continue] after its own ten-second wait: the wait at the
    bottom of the loop, and with it the longer interval, is not reached,
    whatever the counter. *)
Lemma poll_cycle_server_exception (callback : callback_type) (c : Z)
    (w w1 : world) (response : response) (rj : dict) :
  http_post TasksPull VNone w = (Ok response, w1) ->
  status_code response = 200 ->
  json response = Ok (VDict rj) ->
  eq_int (get rj "exception") 0 = false ->
  exists w2,
    poll_cycle callback c w = (Ok (c + 1), record (EvSleep 10) w2).
Proof.
  intros Hpost Hcode Hjson Hexc.
  eexists. apply poll_cycle_after_continue.
  unfold poll_try. rewrite (bind_ok _ _ _ _ _ Hpost).
  rewrite Hcode, Z.eqb_refl, Hjson, bind_lift_ok. cbn [as_dict].
  rewrite bind_lift_ok, Hexc. cbn [negb].
  rewrite seq_send_log. reflexivity.
Qed.

(** C3, as amended.  A turn that fails (the pull raises, the reply is not
    a 200, the callback returns no result or raises) adds one to the
    counter, and the wait after it is 60 seconds once the counter has reached
    5 and 10 seconds below; five failed turns in a row therefore end in a
    60-second wait.  A turn that finds no task resets the counter, and so
    does a turn whose task was processed, whatever becomes of the status
    report; the wait after either is 10 seconds. *)
Theorem C3_backoff (callback : callback_type) (c : Z) (w : world) :
  0 <= c ->
  (failed_turn callback c w ->
   exists w1,
     poll_cycle callback c w = (Ok (c + 1), record (EvSleep (backoff (c + 1))) w1))
  /\ (backoff (c + 1) = 60 <-> 5 <= c + 1)
  /\ (backoff (c + 1) = 10 <-> c + 1 < 5)
  /\ (failing_turns 5 callback c w ->
      exists w', poll_loop 5 callback c w = (Ok (c + 5), record (EvSleep 60) w'))
  /\ (forall e w1,
        http_post TasksPull VNone w = (Raise e, w1) -> failed_turn callback c w)
  /\ (forall response w1,
        http_post TasksPull VNone w = (Ok response, w1) ->
        status_code response <> 200 -> failed_turn callback c w)
  /\ (forall task_id task_data container_info w1 w2,
        delivers w task_id task_data container_info w1 ->
        callback task_id task_data container_info (announced task_id task_data w1)
        = (Ok None, w2) ->
        failed_turn callback c w)
  /\ (forall task_id task_data container_info w1 w2 e,
        delivers w task_id task_data container_info w1 ->
        callback task_id task_data container_info (announced task_id task_data w1)
        = (Raise e, w2) ->
        failed_turn callback c w)
  /\ (forall w1,
        finds_no_task w w1 ->
        poll_cycle callback c w = (Ok 0, record (EvSleep 10) w1))
  /\ (forall task_id task_data container_info w1 w2 field fields,
        delivers w task_id task_data container_info w1 ->
        callback task_id task_data container_info (announced task_id task_data w1)
        = (Ok (Some (field :: fields)), w2) ->
        poll_cycle callback c w
        = (Ok 0, record (EvSleep 10)
                   (after (send_task_status task_id (field :: fields)) w2))).
Proof.
  intros Hc.
  split; [apply failed_turn_waits|].
  split; [apply backoff_threshold|].
  split; [apply backoff_threshold|].
  split.
  { intros Hfive. destruct (failing_turns_run 4 _ _ _ Hfive) as [w' Hloop].
    exists w'. rewrite Hloop. change (Z.of_nat 5) with 5.
    replace (backoff (c + 5)) with 60; [reflexivity|].
    symmetry. apply backoff_threshold. lia. }
  split.
  { intros e w1 Hpost. left. exists e, w1.
    apply poll_try_transport_error. exact Hpost. }
  split.
  { intros response w1 Hpost Hcode. right.
    exact (poll_try_bad_status _ _ _ _ _ Hpost Hcode). }
  split.
  { intros task_id td ci w1 w2 Hdel Hcb. right.
    rewrite (poll_try_delivers _ _ _ _ _ _ _ Hdel).
    rewrite (dispatch_no_result _ _ _ _ _ _ _ Hcb). eauto. }
  split.
  { intros task_id td ci w1 w2 e Hdel Hcb. right.
    rewrite (poll_try_delivers _ _ _ _ _ _ _ Hdel).
    exact (dispatch_raise _ c _ _ _ _ _ _ Hcb). }
  split.
  { intros w1 Hnone.
    rewrite (poll_cycle_after_try _ _ _ _ _ (poll_try_no_task _ _ _ _ Hnone)).
    reflexivity. }
  intros task_id td ci w1 w2 field fields Hdel Hcb.
  assert (Htry : poll_try callback c w
                 = (Ok (0, false),
                    after (send_task_status task_id (field :: fields)) w2)).
  { rewrite (poll_try_delivers _ _ _ _ _ _ _ Hdel).
    exact (dispatch_result _ _ _ _ _ _ _ _ _ Hcb). }
  rewrite (poll_cycle_after_try _ _ _ _ _ Htry). reflexivity.
Qed.
End Backoff.

(** Five pulls that time out, from a counter of zero: the counter reaches 5
    and the fifth wait is 60 seconds.  A pull that finds no task, at a
    counter of 7: the counter is reset and the wait is 10 seconds. *)
Lemma C3_backoff_witness :
  (exists w',
     @poll_loop Sim.host 5 process_task 0 (Sim.boot (scripted [] 200))
     = (Ok 5, record (EvSleep 60) w'))
  /\ (exists w1,
        @poll_cycle Sim.host process_task 7 (Sim.boot (scripted [no_task_reply] 200))
        = (Ok 0, record (EvSleep 10) w1)).
Proof.
  split.
  - apply (proj1 (proj2 (proj2 (proj2
             (@C3_backoff Sim.host process_task 0 (Sim.boot (scripted [] 200))
                ltac:(lia)))))).
    repeat (split; [left; eexists; eexists; reflexivity|]). exact I.
  - eexists.
    apply (proj1 (proj2 (proj2 (proj2 (proj2 (proj2 (proj2 (proj2 (proj2
             (@C3_backoff Sim.host process_task 7
                (Sim.boot (scripted [no_task_reply] 200)) ltac:(lia))))))))))).
    eexists; split; [eexists; eexists; repeat split | reflexivity].
Defined.

(** C3 as stated fails on report failures.  Five turns in a row deliver
    the task of scenario A, it is processed, and the control plane answers
    each of the five status reports with a 500, so that [send_task_status]
    fails every time; yet the counter is zero after every turn and all five
    waits are 10 seconds. *)
Lemma C3_counterexample :
  let w0 := Sim.boot (scripted (repeat task_a_reply 5) 500) in
  let run := @poll_for_tasks Sim.host 5 process_task w0 in
  fst run = Ok 0
  /\ sleeps (trace (snd run)) = [10; 10; 10; 10; 10]
  /\ List.length (filter is_report (trace (snd run))) = 5%nat
  /\ Sim.report_code (host_state (snd run)) = 500
  /\ (forall (r : dict) (w : @world Sim.host),
        Sim.report_code (@host_state Sim.host w) = 500 ->
        fst (@send_task_status Sim.host (VInt 1) r w) = Ok false).
Proof.
  split; [vm_compute; reflexivity|].
  split; [vm_compute; reflexivity|].
  split; [vm_compute; reflexivity|].
  split; [vm_compute; reflexivity|].
  intros r w Hcode.
  unfold send_task_status, try_except, bind, http_post. cbn [post Sim.host Sim.post].
  rewrite Hcode. reflexivity.
Qed.

(** ** What reaches the status endpoint *)

Create HintDb quiet.

Section Quiet.
Context `{Host}.

Lemma unreported_refl (w : world) : unreported w w.
Proof. exists []. rewrite app_nil_r. split; reflexivity. Qed.

Lemma unreported_trans (w1 w2 w3 : world) :
  unreported w1 w2 -> unreported w2 w3 -> unreported w1 w3.
Proof.
  intros (evs1 & H1 & Hq1) (evs2 & H2 & Hq2).
  exists (evs1 ++ evs2)%list. split.
  - rewrite H2, H1, app_assoc. reflexivity.
  - rewrite forallb_app, Hq1, Hq2. reflexivity.
Qed.

Lemma unreported_record (ev : event) (s : engine) (w : world) :
  is_report ev = false ->
  unreported w (record ev {| host_state := s; trace := trace w |}).
Proof.
  intros Hev. exists [ev]. split; [reflexivity|].
  cbn [forallb]. rewrite Hev. reflexivity.
Qed.

Lemma reports_nothing_ret {A} (a : A) : reports_nothing (ret a).
Proof. intros w. apply unreported_refl. Qed.

Lemma reports_nothing_raise {A} (e : exn) : reports_nothing (@raise _ A e).
Proof. intros w. apply unreported_refl. Qed.

Lemma reports_nothing_lift {A} (r : result A) : reports_nothing (lift r).
Proof. intros w. apply unreported_refl. Qed.

Lemma reports_nothing_bind {A B} (m : M A) (k : A -> M B) :
  reports_nothing m -> (forall a, reports_nothing (k a)) ->
  reports_nothing (bind m k).
Proof.
  intros Hm Hk w. specialize (Hm w). unfold after, bind in *.
  destruct (m w) as [[a|e] w1]; cbn [snd] in *.
  - eapply unreported_trans; [exact Hm | apply Hk].
  - exact Hm.
Qed.

Lemma reports_nothing_try_except {A} (m : M A) (handler : exn -> M A) :
  reports_nothing m -> (forall e, reports_nothing (handler e)) ->
  reports_nothing (try_except m handler).
Proof.
  intros Hm Hh w. specialize (Hm w). unfold after, try_except in *.
  destruct (m w) as [[a|e] w1]; cbn [snd] in *.
  - exact Hm.
  - eapply unreported_trans; [exact Hm | apply Hh].
Qed.

Lemma reports_nothing_exec (args : list string) : reports_nothing (exec args).
Proof.
  intros w. unfold after, exec.
  destruct (docker args (host_state w)) as [p s]. cbn [snd].
  apply unreported_record. reflexivity.
Qed.

Lemma reports_nothing_try_bind (port : Z) : reports_nothing (try_bind port).
Proof.
  intros w. unfold after, try_bind. cbn [snd].
  destruct w as [s t]. apply (unreported_record _ s). reflexivity.
Qed.

Lemma reports_nothing_sleep (seconds : Z) : reports_nothing (sleep seconds).
Proof.
  intros w. unfold after, sleep. cbn [snd].
  destruct w as [s t]. apply (unreported_record _ s). reflexivity.
Qed.

Lemma reports_nothing_post (ep : endpoint) (body : value) :
  is_report (EvPost ep body) = false -> reports_nothing (http_post ep body).
Proof.
  intros Hep w. unfold after, http_post.
  destruct (post ep body (host_state w)) as [r s]. cbn [snd].
  apply unreported_record. exact Hep.
Qed.
End Quiet.

#[export] Hint Resolve reports_nothing_ret reports_nothing_raise
  reports_nothing_lift reports_nothing_exec reports_nothing_try_bind
  reports_nothing_sleep : quiet.

(** One step of the walk through a computation: a primitive, a sequencing
    or a handler, a branch, or a method already shown to be quiet. *)
Ltac quiet_step :=
  first
    [ solve [auto with quiet]
    | apply reports_nothing_post; reflexivity
    | apply reports_nothing_bind; [|intros ?]
    | apply reports_nothing_try_except; [|intros ?]
    | match goal with
      | |- reports_nothing (if ?b then _ else _) => destruct b
      | |- reports_nothing (match ?x with _ => _ end) => destruct x
      end
    | progress cbv zeta ].

Ltac quiet := repeat quiet_step.

Section QuietMethods.
Context `{Host}.

Lemma reports_nothing_send_log (message : string) :
  reports_nothing (send_log message).
Proof. unfold send_log. quiet. Qed.
#[local] Hint Resolve reports_nothing_send_log : quiet.

Lemma reports_nothing_run (args : list value) (check capture_output : bool) :
  reports_nothing (_run args check capture_output).
Proof. unfold _run. quiet. Qed.
#[local] Hint Resolve reports_nothing_run : quiet.

Lemma reports_nothing_running (name : string) : reports_nothing (_running name).
Proof. unfold _running, listing. quiet. Qed.

Lemma reports_nothing_exists (name : string) : reports_nothing (_exists name).
Proof. unfold _exists, listing. quiet. Qed.

Lemma reports_nothing_images_has (image : value) :
  reports_nothing (_docker_images_has image).
Proof. unfold _docker_images_has. quiet. Qed.

Lemma reports_nothing_port_free (port : value) : reports_nothing (_port_free port).
Proof. unfold _port_free. quiet. Qed.
#[local] Hint Resolve reports_nothing_running reports_nothing_exists
  reports_nothing_images_has reports_nothing_port_free : quiet.

Lemma reports_nothing_probe_ports (host_ports : list string) :
  forall bad, reports_nothing (probe_ports host_ports bad).
Proof.
  induction host_ports as [|k rest IH]; intros bad; cbn [probe_ports]; quiet.
Qed.
#[local] Hint Resolve reports_nothing_probe_ports : quiet.

Lemma reports_nothing_launch (name : string) (ports : list value)
    (ssh_password jupyter_token : value) (gpus : option string) (image : value)
    (cpuset : option string) (memory swap shm storage : option Z) :
  reports_nothing (launch name ports ssh_password jupyter_token gpus image cpuset
                     memory swap shm storage).
Proof. unfold launch. quiet. Qed.
#[local] Hint Resolve reports_nothing_launch : quiet.

Lemma reports_nothing_start (name : string) (ssh_port jup_port : value)
    (ssh_password jupyter_token ssh_username : value) (gpus : option string)
    (image : value) (cpuset : option string)
    (memory swap shm storage : option Z) :
  reports_nothing (start name ssh_port jup_port ssh_password jupyter_token
                     ssh_username gpus image cpuset memory swap shm storage).
Proof. unfold start, _assert_ports_free. quiet. Qed.

Lemma reports_nothing_start_with_port_mapping (name : string) (port_mapping : dict)
    (ssh_password jupyter_token ssh_username : value) (gpus : option string)
    (image : value) (cpuset : option string)
    (memory swap shm storage : option Z) :
  reports_nothing (start_with_port_mapping name port_mapping ssh_password
                     jupyter_token ssh_username gpus image cpuset memory swap shm
                     storage).
Proof. unfold start_with_port_mapping, _assert_port_mapping_free. quiet. Qed.

Lemma reports_nothing_stop_by_id (container_id : value) :
  reports_nothing (stop_by_id container_id).
Proof. unfold stop_by_id. quiet. Qed.

Lemma reports_nothing_remove_by_id (container_id : value) :
  reports_nothing (remove_by_id container_id).
Proof. unfold remove_by_id. quiet. Qed.
#[local] Hint Resolve reports_nothing_start reports_nothing_start_with_port_mapping
  reports_nothing_stop_by_id reports_nothing_remove_by_id : quiet.

(** The task processor never talks to the status endpoint: reporting is
    left to the loop that called it. *)
Lemma reports_nothing_process_task (task_id : value)
    (task_data container_info : dict) :
  reports_nothing (process_task task_id task_data container_info).
Proof.
  unfold process_task, process_task_try, control, provision, provision_mapped,
    provision_legacy.
  quiet.
Qed.

Lemma reports_nothing_announce (task_id : value) (task_data : dict) :
  reports_nothing (announce task_id task_data).
Proof. unfold announce. quiet. Qed.
End QuietMethods.

(** ** A start that fails *)

Section Dropped.
Context `{Host}.

Lemma provision_without_image (task_id : value) (task_data container_info : dict)
    (w : world) :
  truthy (get task_data "docker_image") = false ->
  exists w', provision task_id task_data container_info w = (Ok None, w').
Proof.
  intros Himage. unfold provision. rewrite Himage. cbn [negb].
  rewrite seq_send_log. unfold ret. eauto.
Qed.

Lemma provision_without_credentials (task_id : value)
    (task_data container_info : dict) (w : world) :
  truthy (get task_data "docker_image") = true ->
  missing_credentials container_info = true ->
  exists w', provision task_id task_data container_info w = (Ok None, w').
Proof.
  intros Himage Hmissing. unfold provision. rewrite Himage. cbn [negb].
  unfold missing_credentials in Hmissing. unfold bind at 1.
  destruct (get container_info "port_mapping") as [| | | | | |[|entry entries]];
    unfold provision_mapped, provision_legacy;
    rewrite Hmissing, seq_send_log; unfold ret; eauto.
Qed.

Lemma process_task_drops (task_id : value) (task_data container_info : dict)
    (operation : string) (w : world) :
  normalized (get task_data "operation") "" = Ok operation ->
  is_control operation = false ->
  truthy (get task_data "docker_image") = false
  \/ (truthy (get task_data "docker_image") = true
      /\ missing_credentials container_info = true)
  \/ (exists e w2,
        process_task_try task_id task_data container_info w = (Raise e, w2)) ->
  exists w', process_task task_id task_data container_info w = (Ok None, w').
Proof.
  intros Hop Hstart [Himage | [[Himage Hmissing] | (e & w2 & Hraise)]].
  - destruct (provision_without_image task_id task_data container_info w Himage)
      as [w' Hrun].
    exists w'. apply process_task_returns.
    unfold process_task_try. rewrite Hop, bind_lift_ok, Hstart. exact Hrun.
  - destruct (provision_without_credentials task_id task_data container_info w
                Himage Hmissing) as [w' Hrun].
    exists w'. apply process_task_returns.
    unfold process_task_try. rewrite Hop, bind_lift_ok, Hstart. exact Hrun.
  - unfold process_task, try_except. rewrite Hraise.
    rewrite seq_send_log. unfold ret. eauto.
Qed.

(** C2.  For a start task that the pull has delivered: when the image is
    missing, or the credentials are, or anything raises while the resources
    are translated or the container is launched, the task processor returns
    no result (it does not raise), and the turn of the polling loop ends
    normally with the counter raised by one and without any status report
    having been sent: between the pull and the wait the agent only wrote
    log lines and talked to the engine. *)
Theorem C2_failed_start_is_dropped (task_id : value)
    (task_data container_info : dict) (operation : string) (c : Z)
    (w w1 : world) :
  delivers w task_id task_data container_info w1 ->
  normalized (get task_data "operation") "" = Ok operation ->
  is_control operation = false ->
  truthy (get task_data "docker_image") = false
  \/ (truthy (get task_data "docker_image") = true
      /\ missing_credentials container_info = true)
  \/ (exists e w2,
        process_task_try task_id task_data container_info
          (announced task_id task_data w1) = (Raise e, w2)) ->
  fst (process_task task_id task_data container_info
         (announced task_id task_data w1)) = Ok None
  /\ exists w',
       poll_cycle process_task c w = (Ok (c + 1), w')
       /\ unreported w w'
       /\ filter is_report (trace w') = filter is_report (trace w).
Proof.
  intros Hdel Hop Hstart Hfail.
  destruct (process_task_drops task_id task_data container_info operation
              (announced task_id task_data w1) Hop Hstart Hfail) as [w2 Hrun].
  split; [rewrite Hrun; reflexivity|].
  assert (Htry : poll_try process_task c w
                 = (Ok (c + 1, false),
                    after (send_log ("task process failed: id=" ++ py_str task_id))
                          w2)).
  { rewrite (poll_try_delivers _ _ _ _ _ _ _ Hdel).
    exact (dispatch_no_result _ _ _ _ _ _ _ Hrun). }
  assert (Hquiet :
            unreported w
              (record (EvSleep (backoff (c + 1)))
                 (after (send_log ("task process failed: id=" ++ py_str task_id))
                        w2))).
  { destruct Hdel as (data & (response & rj & Hpost & _) & _).
    eapply unreported_trans.
    { pose proof (reports_nothing_post TasksPull VNone eq_refl w) as Hpull.
      unfold after in Hpull. rewrite Hpost in Hpull. exact Hpull. }
    eapply unreported_trans; [apply reports_nothing_announce|].
    eapply unreported_trans.
    { pose proof (reports_nothing_process_task task_id task_data container_info
                    (announced task_id task_data w1)) as Hproc.
      unfold after in Hproc. fold (announced task_id task_data w1) in Hproc.
      rewrite Hrun in Hproc. exact Hproc. }
    eapply unreported_trans; [apply reports_nothing_send_log|].
    apply (reports_nothing_sleep (backoff (c + 1))). }
  eexists. split; [exact (poll_cycle_after_try _ _ _ _ _ Htry)|].
  split; [exact Hquiet|].
  destruct Hquiet as (evs & -> & Hevs).
  rewrite filter_app.
  replace (filter is_report evs) with (@nil event); [apply app_nil_r|].
  clear -Hevs. induction evs as [|ev evs IH]; [reflexivity|].
  cbn [forallb filter] in *. apply andb_prop in Hevs as [Hev Hrest].
  destruct (is_report ev); [discriminate Hev|]. auto.
Qed.
End Dropped.

Lemma waiting_delivers (task_id : value) (task_data container_info : dict) :
  is_none task_id = false ->
  @delivers Sim.host (waiting task_id task_data container_info) task_id task_data
    container_info
    (@after Sim.host _ (http_post TasksPull VNone)
       (waiting task_id task_data container_info)).
Proof.
  intros Hid. eexists. split; [eexists; eexists; repeat split|].
  repeat split. exact Hid.
Defined.

(** Three starts that fail on the simulated host: the image cannot be had
    (the launch raises), no image is named, the password is missing.  Each
    is dropped: no result, counter at one, nothing sent to the status
    endpoint. *)
Lemma C2_failed_start_is_dropped_witness :
  (fst (@process_task Sim.host (VInt 3) task_3_data task_a_info
          (announced (VInt 3) task_3_data
             (after (http_post TasksPull VNone)
                    (waiting (VInt 3) task_3_data task_a_info)))) = Ok None
   /\ exists w',
        @poll_cycle Sim.host process_task 0
          (waiting (VInt 3) task_3_data task_a_info) = (Ok (0 + 1), w')
        /\ unreported (waiting (VInt 3) task_3_data task_a_info) w'
        /\ filter is_report (trace w')
           = filter is_report (trace (waiting (VInt 3) task_3_data task_a_info)))
  /\ (exists w',
        @poll_cycle Sim.host process_task 0
          (waiting (VInt 4) task_4_data task_a_info) = (Ok (0 + 1), w')
        /\ filter is_report (trace w') = [])
  /\ (exists w',
        @poll_cycle Sim.host process_task 0
          (waiting (VInt 5) task_a_data task_5_info) = (Ok (0 + 1), w')
        /\ filter is_report (trace w') = []).
Proof.
  split; [|split].
  - apply (@C2_failed_start_is_dropped Sim.host (VInt 3) task_3_data task_a_info
             "start" 0 _ _
             (waiting_delivers (VInt 3) task_3_data task_a_info eq_refl)
             eq_refl eq_refl).
    right; right. eexists. eexists. reflexivity.
  - destruct (@C2_failed_start_is_dropped Sim.host (VInt 4) task_4_data task_a_info
                "start" 0 _ _
                (waiting_delivers (VInt 4) task_4_data task_a_info eq_refl)
                eq_refl eq_refl (or_introl eq_refl)) as (_ & w' & Hcycle & _ & Hreports).
    exists w'. split; [exact Hcycle | exact Hreports].
  - destruct (@C2_failed_start_is_dropped Sim.host (VInt 5) task_a_data task_5_info
                "start" 0 _ _
                (waiting_delivers (VInt 5) task_a_data task_5_info eq_refl)
                eq_refl eq_refl (or_intror (or_introl (conj eq_refl eq_refl))))
      as (_ & w' & Hcycle & _ & Hreports).
    exists w'. split; [exact Hcycle | exact Hreports].
Defined.

(** * Further properties *)

(** ** Launching *)

Section Launching.
Context `{Host}.

Lemma exists_trace (name : string) (w w' : world) (r : result bool) :
  _exists name w = (r, w') -> trace w' = (trace w ++ [ps_all])%list.
Proof.
  unfold _exists, bind.
  destruct (_run _ true true w) as [[cp|e] w1] eqn:Hrun.
  - apply run_query_trace
      with (cmd := ["docker"; "ps"; "-a"; "--format"; "{{.Names}}"])
      in Hrun; [|reflexivity].
    unfold listing. destruct (stdout cp); cbn; intros [= _ <-]; exact Hrun.
  - apply run_query_trace
      with (cmd := ["docker"; "ps"; "-a"; "--format"; "{{.Names}}"])
      in Hrun; [|reflexivity].
    intros [= _ <-]. exact Hrun.
Qed.

Lemma run_checked_ok (args : list value) (cmd : list string) (w : world)
    (capture : bool) (out err : string) (s : engine) :
  strs args = Some cmd ->
  docker cmd (host_state w) = (Exited 0 out err, s) ->
  _run args true capture w
  = (Ok {| returncode := 0;
           stdout := if capture then Some out else None;
           stderr := if capture then Some err else None |},
     ran cmd s w).
Proof.
  intros Hargs Hdocker. unfold _run. rewrite Hargs. unfold bind, exec.
  rewrite Hdocker. reflexivity.
Qed.

Lemma run_checked_fails (args : list value) (cmd : list string) (w : world)
    (capture : bool) (rc : Z) (out err : string) (s : engine) :
  strs args = Some cmd ->
  docker cmd (host_state w) = (Exited rc out err, s) ->
  rc <> 0 ->
  _run args true capture w = (Raise (CalledProcessError rc), ran cmd s w).
Proof.
  intros Hargs Hdocker Hrc. unfold _run. rewrite Hargs. unfold bind, exec.
  rewrite Hdocker. cbn.
  replace (rc =? 0) with false by (symmetry; apply Z.eqb_neq; exact Hrc).
  reflexivity.
Qed.

End Launching.


Section LaunchOrder.
Context `{Host}.

Lemma probe_ports_world (host_ports : list string) :
  forall (bad : list string) (w : world),
    forallb is_port host_ports = true ->
    probe_ports host_ports bad w
    = (Ok (bad ++ filter (taken w) host_ports)%list,
       {| host_state := host_state w;
          trace := (trace w ++ map EvBind (ports_of host_ports))%list |}).
Proof.
  induction host_ports as [|k rest IH]; intros bad w Hports.
  - cbn. rewrite !app_nil_r. destruct w; reflexivity.
  - cbn [forallb] in Hports. apply andb_prop in Hports as [Hk Hrest].
    cbn [probe_ports filter]. unfold ports_of. cbn [flat_map].
    fold (ports_of rest). unfold taken at 1.
    unfold is_port in Hk. unfold port_of in *.
    destruct (py_int (VStr k)) as [p|e]; [|discriminate Hk].
    fold (in_range p) in *.
    destruct (in_range p) eqn:Hp; [|discriminate Hk].
    rewrite bind_lift_ok.
    rewrite (bind_ok _ _ _ _ _ (port_free_in_range p w Hp)).
    rewrite (IH _ _ Hrest).
    assert (Hsame : filter (taken (record (EvBind p) w)) rest
                    = filter (taken w) rest) by reflexivity.
    rewrite Hsame. cbn [record host_state trace app].
    rewrite <- app_assoc. cbn [app].
    destruct (bind_refused p (host_state w)); cbn [negb];
      [rewrite <- app_assoc|]; reflexivity.
Qed.

(** X2.  The ports are tested before anything else is asked of the engine: when
    a requested host port is taken, the launch of a new container raises the
    ports-in-use error after its two listing queries and the bind tests; the
    image is not inspected or pulled, no volume is created, nothing is run. *)
Theorem taken_port_stops_launch (name : string) (port_mapping : dict)
    (ssh_password jupyter_token ssh_username : value) (gpus : option string)
    (image : value) (cpuset : option string)
    (memory swap shm storage : option Z) (w w1 w2 : world) :
  _running name w = (Ok false, w1) ->
  _exists name w1 = (Ok false, w2) ->
  forallb is_port (map fst port_mapping) = true ->
  filter (taken w2) (map fst port_mapping) <> [] ->
  exists w3,
    start_with_port_mapping name port_mapping ssh_password jupyter_token
      ssh_username gpus image cpuset memory swap shm storage w
    = (Raise (ports_in_use (filter (taken w2) (map fst port_mapping))), w3)
    /\ host_state w3 = host_state w2
    /\ filter is_docker (trace w3)
       = (filter is_docker (trace w) ++ [ps_running; ps_all])%list.
Proof.
  intros Hrunning Hexists Hports Htaken.
  eexists. split; [|split].
  - unfold start_with_port_mapping. rewrite (bind_ok _ _ _ _ _ Hrunning).
    cbv beta iota. rewrite (bind_ok _ _ _ _ _ Hexists). cbv beta iota.
    apply bind_raise. unfold _assert_port_mapping_free.
    rewrite (bind_ok _ _ _ _ _ (probe_ports_world _ [] w2 Hports)).
    cbn [app].
    destruct (filter (taken w2) (map fst port_mapping)); [congruence|].
    reflexivity.
  - reflexivity.
  - cbn [trace].
    rewrite (exists_trace _ _ _ _ Hexists), (running_trace _ _ _ _ Hrunning).
    rewrite !filter_app. cbn [filter is_docker ps_running ps_all].
    replace (filter is_docker (map EvBind (ports_of (map fst port_mapping))))
      with (@nil event).
    + rewrite app_nil_r, <- app_assoc. reflexivity.
    + induction (ports_of (map fst port_mapping)); [reflexivity|assumption].
Qed.

Lemma images_has_outcome (image : string) (w : world) :
  _docker_images_has (VStr image) w
  = match docker ["docker"; "image"; "inspect"; image] (host_state w) with
    | (NotRun e, s1) =>
        (Raise e, ran ["docker"; "image"; "inspect"; image] s1 w)
    | (Exited rc _ _, s1) =>
        if rc =? 0
        then (Ok true, ran ["docker"; "image"; "inspect"; image] s1 w)
        else
          match docker ["docker"; "pull"; image] s1 with
          | (p, s2) =>
              (Ok (succeeded p),
               ran ["docker"; "pull"; image] s2
                 (ran ["docker"; "image"; "inspect"; image] s1 w))
          end
    end.
Proof.
  unfold _docker_images_has, _run. cbn [strs option_map].
  unfold bind at 1. unfold bind at 1. unfold exec at 1.
  destruct (docker ["docker"; "image"; "inspect"; image] (host_state w))
    as [[rc out err|e] s1]; [|reflexivity].
  cbn [andb]. unfold ret at 1. cbv beta iota. cbn [returncode].
  destruct (rc =? 0); [reflexivity|].
  unfold try_except, bind, exec, ran, record, ret, raise. cbn [host_state trace].
  destruct (docker ["docker"; "pull"; image] s1) as [[rc2 out2 err2|e2] s2];
    cbn [andb returncode succeeded]; [|reflexivity].
  destruct (rc2 =? 0); reflexivity.
Qed.

(** X3.  [_docker_images_has]: an image that is there is not pulled; one that is
    not there is pulled, and the answer is whether the pull exited with zero.
    A pull that cannot be run counts as a failed pull, while an inspection
    that cannot be run raises. *)
Theorem image_is_pulled_only_when_missing (image : string) (w : world)
    (p1 : proc) (s1 : engine) :
  docker ["docker"; "image"; "inspect"; image] (host_state w) = (p1, s1) ->
  (succeeded p1 = true ->
   _docker_images_has (VStr image) w
   = (Ok true, ran ["docker"; "image"; "inspect"; image] s1 w))
  /\ (forall e,
        p1 = NotRun e ->
        _docker_images_has (VStr image) w
        = (Raise e, ran ["docker"; "image"; "inspect"; image] s1 w))
  /\ (forall rc out err p2 s2,
        p1 = Exited rc out err -> rc <> 0 ->
        docker ["docker"; "pull"; image] s1 = (p2, s2) ->
        _docker_images_has (VStr image) w
        = (Ok (succeeded p2),
           ran ["docker"; "pull"; image] s2
             (ran ["docker"; "image"; "inspect"; image] s1 w))).
Proof.
  intros Hinspect. rewrite images_has_outcome, Hinspect.
  split; [|split].
  - destruct p1 as [rc out err|e]; cbn [succeeded]; [|discriminate].
    intros ->. reflexivity.
  - intros e ->. reflexivity.
  - intros rc out err p2 s2 -> Hrc Hpull.
    replace (rc =? 0) with false by (symmetry; apply Z.eqb_neq; exact Hrc).
    rewrite Hpull. reflexivity.
Qed.

(** X4.  The order of a first launch.  With the image at hand, the volume
    [<name>-work] is created first and the container is run after it; the
    method returns what [docker run] printed, stripped.  When the image is
    not to be had, or the volume cannot be created, the launch raises before
    anything is run. *)
Theorem launch_order (name image : string) (ports : list value)
    (ssh_password jupyter_token : value) (gpus : option string)
    (cpuset : option string) (memory swap shm storage : option Z)
    (w : world) (s1 : engine) (out1 err1 : string) :
  image <> "" ->
  (forall rc s2 p,
     docker ["docker"; "image"; "inspect"; image] (host_state w)
     = (Exited rc out1 err1, s1) ->
     rc <> 0 ->
     docker ["docker"; "pull"; image] s1 = (p, s2) ->
     succeeded p = false ->
     launch name ports ssh_password jupyter_token gpus (VStr image) cpuset
       memory swap shm storage w
     = (Raise (image_unavailable (VStr image)),
        ran ["docker"; "pull"; image] s2
          (ran ["docker"; "image"; "inspect"; image] s1 w)))
  /\ (forall rc out2 err2 s2,
        docker ["docker"; "image"; "inspect"; image] (host_state w)
        = (Exited 0 out1 err1, s1) ->
        docker ["docker"; "volume"; "create"; name ++ "-work"] s1
        = (Exited rc out2 err2, s2) ->
        rc <> 0 ->
        launch name ports ssh_password jupyter_token gpus (VStr image) cpuset
          memory swap shm storage w
        = (Raise (CalledProcessError rc),
           ran ["docker"; "volume"; "create"; name ++ "-work"] s2
             (ran ["docker"; "image"; "inspect"; image] s1 w)))
  /\ (forall cmd out2 err2 s2 out3 err3 s3,
        docker ["docker"; "image"; "inspect"; image] (host_state w)
        = (Exited 0 out1 err1, s1) ->
        docker ["docker"; "volume"; "create"; name ++ "-work"] s1
        = (Exited 0 out2 err2, s2) ->
        strs (run_args name ports ssh_password jupyter_token gpus (VStr image)
                cpuset memory swap shm storage) = Some cmd ->
        docker cmd s2 = (Exited 0 out3 err3, s3) ->
        launch name ports ssh_password jupyter_token gpus (VStr image) cpuset
          memory swap shm storage w
        = (Ok (Some (strip out3)),
           ran cmd s3
             (ran ["docker"; "volume"; "create"; name ++ "-work"] s2
                (ran ["docker"; "image"; "inspect"; image] s1 w)))).
Proof.
  intros Himage.
  assert (Hrun : py_or (VStr image) (VStr Settings.image) = VStr image).
  { unfold py_or. cbn [truthy].
    destruct (String.eqb_spec image ""); [congruence|reflexivity]. }
  split; [|split].
  - intros rc s2 p Hinspect Hrc Hpull Hfail.
    unfold launch. rewrite Hrun.
    erewrite bind_ok.
    2:{ rewrite images_has_outcome, Hinspect.
        replace (rc =? 0) with false by (symmetry; apply Z.eqb_neq; exact Hrc).
        rewrite Hpull, Hfail. reflexivity. }
    reflexivity.
  - intros rc out2 err2 s2 Hinspect Hvolume Hrc.
    unfold launch. rewrite Hrun.
    erewrite bind_ok.
    2:{ rewrite images_has_outcome, Hinspect. reflexivity. }
    cbn [negb]. apply bind_raise.
    apply (run_checked_fails _ ["docker"; "volume"; "create"; name ++ "-work"]
             _ false rc out2 err2); [reflexivity | exact Hvolume | exact Hrc].
  - intros cmd out2 err2 s2 out3 err3 s3 Hinspect Hvolume Hcmd Hdocker.
    unfold launch. rewrite Hrun.
    erewrite bind_ok.
    2:{ rewrite images_has_outcome, Hinspect. reflexivity. }
    cbn [negb].
    erewrite bind_ok.
    2:{ apply (run_checked_ok _ ["docker"; "volume"; "create"; name ++ "-work"]
                 _ false out2 err2); [reflexivity | exact Hvolume]. }
    cbv zeta.
    erewrite bind_ok.
    2:{ apply (run_checked_ok _ cmd _ true out3 err3); [exact Hcmd | exact Hdocker]. }
    reflexivity.
Qed.
End LaunchOrder.

(** With port 5000 bound, the launch of scenario A stops at the port test:
    the engine has seen the two listing queries and nothing else. *)
Lemma taken_port_stops_launch_witness :
  exists w3,
    @start_with_port_mapping Sim.host "task_1" [("5000", VInt 22)] (VStr "p")
      (VStr "p") (VStr "root") None (VStr "x") None (Some 8) (Some 8) (Some 4) None
      (Sim.boot port_5000_bound)
    = (Raise (RuntimeError "Порты заняты: 5000"), w3)
    /\ host_state w3 = port_5000_bound
    /\ filter is_docker (trace w3) = [ps_running; ps_all].
Proof.
  apply (@taken_port_stops_launch Sim.host "task_1" [("5000", VInt 22)] (VStr "p")
           (VStr "p") (VStr "root") None (VStr "x") None (Some 8) (Some 8) (Some 4)
           None (Sim.boot port_5000_bound) _ _ eq_refl eq_refl eq_refl).
  discriminate.
Defined.

(** On the simulated host image [x] is found and not pulled, and image [y]
    is pulled in vain. *)
Lemma image_is_pulled_only_when_missing_witness :
  @_docker_images_has Sim.host (VStr "x") (Sim.boot Sim.fresh)
  = (Ok true, @ran Sim.host ["docker"; "image"; "inspect"; "x"] Sim.fresh (Sim.boot Sim.fresh))
  /\ @_docker_images_has Sim.host (VStr "y") (Sim.boot Sim.fresh)
     = (Ok false,
        @ran Sim.host ["docker"; "pull"; "y"] Sim.fresh
          (@ran Sim.host ["docker"; "image"; "inspect"; "y"] Sim.fresh (Sim.boot Sim.fresh))).
Proof.
  split.
  - apply (proj1 (@image_is_pulled_only_when_missing Sim.host "x"
                    (Sim.boot Sim.fresh) (Exited 0 "" "") Sim.fresh eq_refl)).
    reflexivity.
  - apply (proj2 (proj2 (@image_is_pulled_only_when_missing Sim.host "y"
                           (Sim.boot Sim.fresh) (Exited 1 "" "") Sim.fresh eq_refl))
             1 "" "" (Exited 1 "" "") Sim.fresh);
      [reflexivity | discriminate | reflexivity].
Defined.

(** On the simulated host: image [y] cannot be had and the launch gives up
    after the failed pull; image [x] is there, and the launch creates the
    volume, runs the container and returns its identifier. *)
Lemma launch_order_witness :
  (exists w',
     @launch Sim.host "task_9" [] (VStr "p") (VStr "p") None (VStr "y") None None
       None None None (Sim.boot Sim.fresh)
     = (Raise (@image_unavailable Sim.host (VStr "y")), w')
     /\ Sim.volumes (host_state w') = [])
  /\ (exists w',
        @launch Sim.host "task_9" [] (VStr "p") (VStr "p") None (VStr "x") None None
          None None None (Sim.boot Sim.fresh)
        = (Ok (Some "c0ffee-task_9"), w')
        /\ Sim.volumes (host_state w') = ["task_9-work"]).
Proof.
  split.
  - eexists. split.
    + apply (proj1 (@launch_order Sim.host "task_9" "y" [] (VStr "p") (VStr "p")
                      None None None None None None (Sim.boot Sim.fresh)
                      Sim.fresh "" "" ltac:(discriminate))
               1 Sim.fresh (Exited 1 "" ""));
        [reflexivity | discriminate | reflexivity | reflexivity].
    + reflexivity.
  - eexists. split.
    + etransitivity.
      * eapply (proj2 (proj2 (@launch_order Sim.host "task_9" "x" [] (VStr "p")
                                (VStr "p") None None None None None None
                                (Sim.boot Sim.fresh) Sim.fresh "" ""
                                ltac:(discriminate))));
          reflexivity.
      * reflexivity.
    + reflexivity.
Defined.

(** ** The task processor *)

Section TaskProcessor.
Context `{Host}.

Lemma send_log_trace (message : string) (w : world) :
  trace (after (send_log message) w) = (trace w ++ [log_post message])%list.
Proof.
  unfold after, send_log, try_except, bind, http_post, ret.
  destruct (post Logs _ (host_state w)) as [[resp|e] s]; reflexivity.
Qed.

Lemma bind_ret_ok {A B} (a : A) (k : A -> M B) (w : world) :
  bind (ret a) k w = k a w.
Proof. reflexivity. Qed.

Lemma process_task_total (task_id : value) (task_data container_info : dict)
    (w : world) :
  exists r w', process_task task_id task_data container_info w = (Ok r, w').
Proof.
  unfold process_task. apply try_except_returns.
  intros e w'. rewrite seq_send_log. unfold ret. eauto.
Qed.

(** X5.  Whatever the task and whatever the engine and the control plane do,
    the task processor returns a value (a result or [None]), never an
    exception, and sends nothing to the status endpoint itself. *)
Theorem process_task_never_raises (task_id : value)
    (task_data container_info : dict) (w : world) :
  exists r w',
    process_task task_id task_data container_info w = (Ok r, w')
    /\ unreported w w'.
Proof.
  destruct (process_task_total task_id task_data container_info w)
    as (r & w' & Hrun).
  exists r, w'. split; [exact Hrun|].
  pose proof (reports_nothing_process_task task_id task_data container_info w)
    as Hquiet.
  unfold after in Hquiet. rewrite Hrun in Hquiet. exact Hquiet.
Qed.

(** X6.  A control task without a container identifier never reaches the
    engine: the one thing the agent does is to send a log line. *)
Theorem control_without_id_sends_one_log (task_id : value)
    (task_data container_info : dict) (operation : string) (w : world) :
  normalized (get task_data "operation") "" = Ok operation ->
  is_control operation = true ->
  truthy (control_id task_data container_info) = false ->
  exists r w',
    process_task task_id task_data container_info w = (Ok (Some r), w')
    /\ get r "status" = VStr "failed"
    /\ trace w'
       = (trace w ++ [log_post "control task error: missing container_id"])%list.
Proof.
  intros Hop Hcontrol Hid.
  eexists. eexists. split; [|split].
  - apply process_task_returns.
    unfold process_task_try. rewrite Hop, bind_lift_ok, Hcontrol.
    unfold control. fold (control_id task_data container_info).
    rewrite Hid. cbn [negb]. rewrite seq_send_log. reflexivity.
  - reflexivity.
  - apply send_log_trace.
Qed.

(** X7.  A control task with a container identifier.  [stop] asks the engine
    to stop the container and is [completed] when that succeeds.
    [stop_remove] asks for the removal as well, also after a stop that
    failed, and is [completed] when both succeed.  A failed task carries an
    error message that names every step that failed, each result echoes the
    identifier it was given, and after the last step the agent only writes
    one more log line. *)
Theorem control_names_failed_steps (task_id : value)
    (task_data container_info : dict) (operation : string) (w w2 : world)
    (stop_ok : bool) :
  normalized (get task_data "operation") "" = Ok operation ->
  is_control operation = true ->
  truthy (control_id task_data container_info) = true ->
  stop_by_id (control_id task_data container_info)
    (after (send_log (control_received operation task_data container_info)) w)
  = (Ok stop_ok, w2) ->
  (operation = "stop" ->
   exists r w' line,
     process_task task_id task_data container_info w = (Ok (Some r), w')
     /\ get r "status" = VStr (if stop_ok then "completed" else "failed")
     /\ get r "container_id" = control_id task_data container_info
     /\ get r "error_message" = (if stop_ok then VNone else VStr "stop failed")
     /\ trace w' = (trace w2 ++ [log_post line])%list)
  /\ (operation = "stop_remove" ->
      forall remove_ok w3,
        remove_by_id (control_id task_data container_info) w2
        = (Ok remove_ok, w3) ->
        exists r w' line,
          process_task task_id task_data container_info w = (Ok (Some r), w')
          /\ get r "status"
             = VStr (if stop_ok && remove_ok then "completed" else "failed")
          /\ get r "container_id" = control_id task_data container_info
          /\ get r "error_message"
             = (if stop_ok && remove_ok then VNone
                else VStr (control_error stop_ok remove_ok))
          /\ trace w' = (trace w3 ++ [log_post line])%list).
Proof.
  intros Hop Hcontrol Hid Hstop. unfold control_received in Hstop.
  split.
  - intros ->.
    destruct stop_ok; eexists; eexists; eexists; (split; [|split; [|split; [|split]]]).
    all: try (apply process_task_returns;
              unfold process_task_try; rewrite Hop, bind_lift_ok;
              cbn [is_control String.eqb Ascii.eqb Bool.eqb orb];
              unfold control; fold (control_id task_data container_info);
              rewrite Hid; cbn [negb]; rewrite seq_send_log;
              rewrite (bind_ok _ _ _ _ _ Hstop);
              cbn [String.eqb Ascii.eqb Bool.eqb];
              rewrite bind_lift_ok || rewrite bind_ret_ok;
              cbn [andb negb app join String.eqb Ascii.eqb Bool.eqb];
              rewrite seq_send_log; reflexivity).
    all: try reflexivity.
    all: apply send_log_trace.
  - intros -> remove_ok w3 Hremove.
    destruct stop_ok, remove_ok;
      eexists; eexists; eexists; (split; [|split; [|split; [|split]]]).
    all: try (apply process_task_returns;
              unfold process_task_try; rewrite Hop, bind_lift_ok;
              cbn [is_control String.eqb Ascii.eqb Bool.eqb orb];
              unfold control; fold (control_id task_data container_info);
              rewrite Hid; cbn [negb]; rewrite seq_send_log;
              rewrite (bind_ok _ _ _ _ _ Hstop);
              cbn [String.eqb Ascii.eqb Bool.eqb];
              rewrite (bind_ok _ _ _ _ _ Hremove);
              cbn [andb negb app join String.eqb Ascii.eqb Bool.eqb];
              rewrite seq_send_log; reflexivity).
    all: try reflexivity.
    all: apply send_log_trace.
Qed.
End TaskProcessor.

Lemma control_without_id_sends_one_log_witness :
  exists r w',
    @process_task Sim.host (VInt 7) [("operation", VStr "stop_remove")] []
      (Sim.boot Sim.fresh) = (Ok (Some r), w')
    /\ get r "status" = VStr "failed"
    /\ trace w' = [log_post "control task error: missing container_id"].
Proof.
  apply (@control_without_id_sends_one_log Sim.host (VInt 7)
           [("operation", VStr "stop_remove")] [] "stop_remove"
           (Sim.boot Sim.fresh));
    reflexivity.
Defined.

(** Stopping and removing the container of scenario A is [completed]; with
    the number 17 for an identifier, which no command accepts, both steps
    fail and the message names both. *)
Lemma control_names_failed_steps_witness :
  (exists r w' line,
     @process_task Sim.host (VInt 8)
       [("operation", VStr "stop_remove"); ("container_id", VStr "c0ffee-task_1")]
       [] after_scenario_a = (Ok (Some r), w')
     /\ get r "status" = VStr "completed"
     /\ get r "container_id" = VStr "c0ffee-task_1"
     /\ get r "error_message" = VNone
     /\ trace w'
        = (trace (snd (@remove_by_id Sim.host (VStr "c0ffee-task_1")
                         (snd (@stop_by_id Sim.host (VStr "c0ffee-task_1")
                                 (after (send_log
                                           "control task received: op=stop_remove container_id=c0ffee-task_1")
                                        after_scenario_a)))))
           ++ [log_post line])%list)
  /\ (exists r w' line,
        @process_task Sim.host (VInt 8)
          [("operation", VStr "stop_remove"); ("container_id", VInt 17)]
          [] after_scenario_a = (Ok (Some r), w')
        /\ get r "status" = VStr "failed"
        /\ get r "container_id" = VInt 17
        /\ get r "error_message" = VStr "stop failed, remove failed"
        /\ trace w'
           = (trace (snd (@remove_by_id Sim.host (VInt 17)
                            (snd (@stop_by_id Sim.host (VInt 17)
                                    (after (send_log
                                              "control task received: op=stop_remove container_id=17")
                                           after_scenario_a)))))
              ++ [log_post line])%list).
Proof.
  split.
  - apply (proj2 (@control_names_failed_steps Sim.host (VInt 8)
                    [("operation", VStr "stop_remove");
                     ("container_id", VStr "c0ffee-task_1")]
                    [] "stop_remove" after_scenario_a _ true
                    eq_refl eq_refl eq_refl eq_refl)
             eq_refl true _ eq_refl).
  - apply (proj2 (@control_names_failed_steps Sim.host (VInt 8)
                    [("operation", VStr "stop_remove"); ("container_id", VInt 17)]
                    [] "stop_remove" after_scenario_a _ false
                    eq_refl eq_refl eq_refl eq_refl)
             eq_refl false _ eq_refl).
Defined.

Section TaskProcessorEdges.
Context `{Host}.

(** X8.  In the older mode the Jupyter port is [ssh_port + 1], so an SSH port
    that arrives as text cannot be used: the addition fails, the task is
    dropped with one log line, and the engine is not asked anything. *)
Theorem legacy_text_port_is_dropped (task_id : value)
    (task_data container_info : dict) (operation port : string)
    (gpus_allocated : dict) (w : world) :
  normalized (get task_data "operation") "" = Ok operation ->
  is_control operation = false ->
  truthy (get task_data "docker_image") = true ->
  legacy_mode container_info = true ->
  truthy (get container_info "ssh_password") = true ->
  get container_info "ssh_port" = VStr port ->
  port <> "" ->
  get_default task_data "gpus_allocated" (VDict []) = VDict gpus_allocated ->
  exists line,
    process_task task_id task_data container_info w
    = (Ok None, after (send_log line) w)
    /\ trace (after (send_log line) w) = (trace w ++ [log_post line])%list.
Proof.
  intros Hop Hstart Himage Hlegacy Hpassword Hport Hnonempty Hgpus.
  eexists. split; [|apply send_log_trace].
  assert (Hraise : process_task_try task_id task_data container_info w
                   = (Raise TypeError, w)).
  { unfold process_task_try. rewrite Hop, bind_lift_ok, Hstart.
    unfold provision. rewrite Himage. cbn [negb].
    apply bind_raise.
    assert (Hbody : provision_legacy task_id task_data container_info
                      (get task_data "docker_image") w = (Raise TypeError, w)).
    { unfold provision_legacy. rewrite Hpassword, Hport, Hgpus.
      cbn [truthy andb as_dict].
      destruct (String.eqb_spec port ""); [congruence|]. cbn [negb].
      destruct gpus_allocated; reflexivity. }
    unfold legacy_mode in Hlegacy.
    destruct (get container_info "port_mapping") as [| | | | | |[|entry entries]];
      try exact Hbody.
    discriminate Hlegacy. }
  unfold process_task, try_except. rewrite Hraise.
  rewrite seq_send_log. reflexivity.
Qed.

Lemma ssh_port_of_split (port_mapping : dict) :
  match ssh_port_of port_mapping with
  | VNone => no_ssh_entry port_mapping = true
  | VStr k =>
      exists before v rest,
        port_mapping = (before ++ (k, v) :: rest)%list
        /\ eq_int v 22 = true
        /\ no_ssh_entry before = true
  | _ => False
  end.
Proof.
  induction port_mapping as [|[host_port container_port] rest IH].
  - reflexivity.
  - cbn [ssh_port_of]. destruct (eq_int container_port 22) eqn:Hport.
    + exists [], container_port, rest. repeat split. exact Hport.
    + destruct (ssh_port_of rest) as [| | | |k| |]; try contradiction.
      * unfold no_ssh_entry in *. cbn [forallb snd]. rewrite Hport. exact IH.
      * destruct IH as (before & v & rest' & -> & Hv & Hbefore).
        exists ((host_port, container_port) :: before), v, rest'.
        repeat split; [exact Hv|].
        unfold no_ssh_entry in *. cbn [forallb snd]. rewrite Hport. exact Hbefore.
Qed.

End TaskProcessorEdges.

Lemma legacy_text_port_is_dropped_witness :
  exists line,
    @process_task Sim.host (VInt 6) task_a_data
      [("ssh_password", VStr "p"); ("ssh_port", VStr "2222")] (Sim.boot Sim.fresh)
    = (Ok None, after (@send_log Sim.host line) (Sim.boot Sim.fresh))
    /\ trace (after (@send_log Sim.host line) (Sim.boot Sim.fresh))
       = [log_post line].
Proof.
  apply (@legacy_text_port_is_dropped Sim.host (VInt 6) task_a_data
           [("ssh_password", VStr "p"); ("ssh_port", VStr "2222")]
           "start" "2222" [] (Sim.boot Sim.fresh)
           eq_refl eq_refl eq_refl eq_refl eq_refl eq_refl
           ltac:(discriminate) eq_refl).
Defined.

(** ** Status reports *)

Section Reports.
Context `{Host}.

(** X10.  What a status report carries, key by key.  The status is the
    result's own, or [running] when it has none, and the identifier is
    copied.  The name is there unless it is [None].  A progress field goes
    with [running] only, and so does the line that announces SSH, which is
    there only when host, port and name are all known.  An error message
    goes with [failed] only, and only when the result has one.  The report
    has no other key. *)
Theorem status_payload_fields (container_info : dict) :
  lookup (status_payload container_info) "status"
  = Some (reported_status container_info)
  /\ lookup (status_payload container_info) "container_id"
     = Some (get container_info "container_id")
  /\ lookup (status_payload container_info) "container_name"
     = (if is_none (get container_info "container_name") then None
        else Some (get container_info "container_name"))
  /\ lookup (status_payload container_info) "progress"
     = (if str_eq (reported_status container_info) "running"
        then Some (VFloat (S754_zero false)) else None)
  /\ lookup (status_payload container_info) "output"
     = (if str_eq (reported_status container_info) "running"
           && truthy (get container_info "ssh_host")
           && truthy (get container_info "ssh_port")
           && truthy (get container_info "container_name")
        then Some (VStr ("Container " ++ py_str (get container_info "container_name")
                         ++ " started successfully. SSH ready on "
                         ++ py_str (get container_info "ssh_host") ++ ":"
                         ++ py_str (get container_info "ssh_port")))
        else None)
  /\ lookup (status_payload container_info) "error_message"
     = (if str_eq (reported_status container_info) "running" then None
        else if str_eq (reported_status container_info) "failed"
                && truthy (get container_info "error_message")
        then Some (get container_info "error_message")
        else None)
  /\ (forall key,
        lookup (status_payload container_info) key <> None ->
        In key reported_keys).
Proof.
  unfold status_payload. fold (reported_status container_info).
  destruct (is_none (get container_info "container_name"));
    destruct (str_eq (reported_status container_info) "running");
    destruct (truthy (get container_info "ssh_host"));
    destruct (truthy (get container_info "ssh_port"));
    destruct (truthy (get container_info "container_name"));
    destruct (str_eq (reported_status container_info) "failed");
    destruct (truthy (get container_info "error_message"));
    cbn [andb app lookup String.eqb Ascii.eqb Bool.eqb];
    (repeat (split; [reflexivity|]));
    intros key; cbn [lookup reported_keys In];
    repeat match goal with
           | |- context [String.eqb key ?k] =>
               destruct (String.eqb_spec key k); [subst; tauto|]
           end;
    congruence.
Qed.

Ltac close_report :=
  eexists; eexists; split; [reflexivity|]; split; [reflexivity|];
  eexists [_]; rewrite send_log_trace; cbn [record trace map];
  rewrite <- app_assoc; reflexivity.

Lemma send_task_status_world (task_id : value) (r : dict) (w : world) :
  exists b extra,
    send_task_status task_id r w = (Ok b, extra)
    /\ b = accepted_by (fst (post (TaskStatus task_id) (VDict (status_payload r))
                               (host_state w)))
    /\ exists lines,
         trace extra
         = (trace w ++ EvPost (TaskStatus task_id) (VDict (status_payload r))
                    :: map log_post lines)%list.
Proof.
  unfold send_task_status, try_except, accepted_by. cbv zeta.
  unfold bind at 1, http_post at 1.
  destruct (post (TaskStatus task_id) (VDict (status_payload r)) (host_state w))
    as [[response|e] s]; cbn [fst].
  2:{ rewrite seq_send_log. now close_report. }
  destruct (status_code response =? 200); cbn [andb].
  2:{ rewrite seq_send_log. now close_report. }
  destruct (json response) as [resp_json|e].
  2:{ unfold bind at 1, lift at 1. rewrite seq_send_log. now close_report. }
  rewrite bind_lift_ok.
  destruct resp_json as [| | | | | |rj]; cbn [as_dict];
    try (unfold bind at 1, lift at 1; rewrite seq_send_log; now close_report).
  rewrite bind_lift_ok.
  destruct (eq_int (get rj "exception") 0).
  - eexists. eexists. split; [reflexivity|]. split; [reflexivity|].
    exists []. reflexivity.
  - rewrite seq_send_log. now close_report.
Qed.

(** X12.  [send_task_status] never raises.  It sends one request to the status
    endpoint of the task, with the payload above, and answers whether the
    control plane accepted it: a reply other than 200, a body that is no
    JSON object, an [exception] field other than zero and a request that
    fails all give [False], and then the only other thing sent is a log
    line. *)
Theorem send_task_status_verdict (task_id : value) (r : dict) (w : world) :
  exists w' lines,
    send_task_status task_id r w
    = (Ok (accepted_by (fst (post (TaskStatus task_id) (VDict (status_payload r))
                               (host_state w)))), w')
    /\ trace w'
       = (trace w ++ EvPost (TaskStatus task_id) (VDict (status_payload r))
                  :: map log_post lines)%list.
Proof.
  destruct (send_task_status_world task_id r w)
    as (b & w' & Hrun & -> & lines & Htrace).
  exists w', lines. split; [exact Hrun|exact Htrace].
Qed.
End Reports.

(** ** The loop keeps going *)

Section KeepsGoing.
Context `{Host}.

Lemma dispatch_shape (callback : callback_type) (c : Z) (task_id : value)
    (task_data container_info : dict) (w : world) :
  exists c' w1,
    dispatch callback c task_id task_data container_info w = (Ok (c', false), w1)
    /\ (c' = 0 \/ c' = c + 1).
Proof.
  unfold dispatch, try_except. unfold bind at 1.
  destruct (callback task_id task_data container_info w)
    as [[[[|field fields]|]|e] w1]; cbv beta iota;
    rewrite ?seq_send_log, ?seq_send_task_status; unfold ret; eauto.
Qed.

Lemma poll_try_shape (callback : callback_type) (c : Z) (w : world)
    (r : result (Z * bool)) (w' : world) :
  poll_try callback c w = (r, w') -> turn_outcome c r w'.
Proof.
  assert (Hplain : forall c' w1, (c' = 0 \/ c' = c + 1) ->
                     turn_outcome c (Ok (c', false)) w1).
  { intros c' w1 Hc. split; [exact Hc|discriminate]. }
  unfold poll_try. unfold bind at 1.
  destruct (http_post TasksPull VNone w) as [[response|e] w1];
    [|intros [= <- <-]; exact I].
  cbv beta iota.
  destruct (status_code response =? 200).
  2:{ rewrite seq_send_log. intros [= <- <-]. apply Hplain. auto. }
  destruct (json response) as [resp_json|e]; [|intros [= <- <-]; exact I].
  rewrite bind_lift_ok.
  destruct (as_dict resp_json) as [rj|e]; [|intros [= <- <-]; exact I].
  rewrite bind_lift_ok.
  destruct (eq_int (get rj "exception") 0); cbn [negb].
  2:{ rewrite seq_send_log. intros [= <- <-].
      split; [auto|]. intros _. eexists. reflexivity. }
  destruct (as_dict (get_default rj "data" (VDict []))) as [data|e];
    [|intros [= <- <-]; exact I].
  rewrite bind_lift_ok. cbv zeta.
  destruct (negb (is_none (get data "task_id"))
            && negb (is_none (get data "task_data"))
            && negb (is_none (get data "container_info"))).
  - destruct (as_dict (get data "task_data")) as [td|e];
      [|intros [= <- <-]; exact I].
    rewrite bind_lift_ok.
    destruct (as_dict (get data "container_info")) as [ci|e];
      [|intros [= <- <-]; exact I].
    rewrite bind_lift_ok. unfold bind at 1.
    destruct (announce_returns (get data "task_id") td w1) as [b ->].
    destruct (dispatch_shape callback c (get data "task_id") td ci
                (announced (get data "task_id") td w1)) as (c' & w2 & -> & Hc).
    intros [= <- <-]. apply Hplain, Hc.
  - destruct (is_none (get data "task_id")).
    + intros [= <- <-]. apply Hplain. auto.
    + rewrite seq_send_log. intros [= <- <-]. apply Hplain. auto.
Qed.

Lemma poll_cycle_shape (callback : callback_type) (c : Z) (w : world) :
  exists c' w1 d,
    poll_cycle callback c w = (Ok c', record (EvSleep d) w1)
    /\ (c' = 0 \/ c' = c + 1)
    /\ (d = 10 \/ d = 60).
Proof.
  assert (Hwait : forall k, backoff k = 10 \/ backoff k = 60).
  { intros k. unfold backoff. destruct (max_consecutive_errors <=? k); auto. }
  destruct (poll_try callback c w) as [[[c' [|]]|e] w1] eqn:Htry;
    pose proof (poll_try_shape _ _ _ _ _ Htry) as Hshape;
    cbn [turn_outcome] in Hshape.
  - destruct Hshape as [Hc [w2 ->]]; [reflexivity|].
    rewrite (poll_cycle_after_continue _ _ _ _ _ Htry). eauto 8.
  - destruct Hshape as [Hc _].
    rewrite (poll_cycle_after_try _ _ _ _ _ Htry). eauto 8.
  - rewrite (poll_cycle_after_raise _ _ _ _ _ Htry). eauto 8.
Qed.

(** X14.  A turn of the loop cannot fail and cannot be skipped: whatever the
    control plane answers and whatever the callback does, raising included,
    the turn ends normally, its last act is a wait of 10 or of 60 seconds,
    and it leaves the counter at zero or one higher than it was. *)
Theorem poll_cycle_always_waits (callback : callback_type) (c : Z) (w : world) :
  exists c' w',
    poll_cycle callback c w = (Ok c', w')
    /\ (c' = 0 \/ c' = c + 1)
    /\ (exists w1, w' = record (EvSleep 10) w1 \/ w' = record (EvSleep 60) w1).
Proof.
  destruct (poll_cycle_shape callback c w) as (c' & w1 & d & Hrun & Hc & [-> | ->]).
  - exists c', (record (EvSleep 10) w1). eauto.
  - exists c', (record (EvSleep 60) w1). eauto.
Qed.

(** X15.  Any number of turns goes through, and the counter stays between zero
    and the number of turns taken since it was last zero. *)
Theorem poll_loop_never_stops (turns : nat) (callback : callback_type) :
  forall (c : Z) (w : world),
    0 <= c ->
    exists c' w',
      poll_loop turns callback c w = (Ok c', w')
      /\ 0 <= c' <= c + Z.of_nat turns.
Proof.
  induction turns as [|n IH]; intros c w Hc.
  - exists c, w. split; [reflexivity|lia].
  - destruct (poll_cycle_shape callback c w) as (c1 & w1 & d & Hrun & Hc1 & _).
    destruct (IH c1 (record (EvSleep d) w1) ltac:(lia)) as (c' & w' & Hloop & Hbound).
    exists c', w'. split.
    + cbn [poll_loop]. rewrite (bind_ok _ _ _ _ _ Hrun). exact Hloop.
    + lia.
Qed.
End KeepsGoing.

(** Two turns on the simulated host, one that delivers the task of
    scenario A and one that times out: the loop goes on, and the counter is
    within its bounds. *)
Lemma poll_loop_never_stops_witness :
  exists c' w',
    @poll_loop Sim.host 2 process_task 3 (Sim.boot (scripted [task_a_reply] 200))
    = (Ok c', w')
    /\ 0 <= c' <= 3 + Z.of_nat 2.
Proof.
  apply (@poll_loop_never_stops Sim.host 2 process_task 3
           (Sim.boot (scripted [task_a_reply] 200))).
  lia.
Defined.

(** With the counter at 9, far beyond the threshold, a reply that carries
    an error of the control plane is followed by a wait of 10 seconds. *)
Lemma poll_cycle_server_exception_witness :
  exists w2,
    @poll_cycle Sim.host process_task 9 (Sim.boot (scripted [exception_reply] 200))
    = (Ok (9 + 1), record (EvSleep 10) w2).
Proof.
  eapply (@poll_cycle_server_exception Sim.host process_task 9
            (Sim.boot (scripted [exception_reply] 200)));
    reflexivity.
Defined.

(** ** Stopping by name, and the checks at start-up *)

Section Commands.
Context `{Host}.

Lemma strs_map (cmd : list string) : strs (map VStr cmd) = Some cmd.
Proof.
  induction cmd as [|c cmd IH]; [reflexivity|].
  cbn [map strs]. rewrite IH. reflexivity.
Qed.

Lemma run_trace (args : list value) (cmd : list string) (check capture : bool)
    (w w' : world) (r : result completed) :
  strs args = Some cmd ->
  _run args check capture w = (r, w') ->
  trace w' = (trace w ++ [EvDocker cmd])%list.
Proof.
  intros Hargs. unfold _run. rewrite Hargs. unfold bind, exec.
  destruct (docker cmd (host_state w)) as [[rc out err|e] st]; cbn.
  - destruct (check && negb (rc =? 0)); intros [= _ <-]; reflexivity.
  - intros [= _ <-]. reflexivity.
Qed.

Lemma running_answer (name out err : string) (s : engine) (w : world) :
  docker ["docker"; "ps"; "--format"; "{{.Names}}"] (host_state w)
  = (Exited 0 out err, s) ->
  _running name w
  = (Ok (mem name (splitlines out)),
     ran ["docker"; "ps"; "--format"; "{{.Names}}"] s w).
Proof.
  intros Hdocker. unfold _running.
  rewrite (bind_ok _ _ _ _ _
             (run_checked_ok [VStr "docker"; VStr "ps"; VStr "--format"; VStr "{{.Names}}"]
                ["docker"; "ps"; "--format"; "{{.Names}}"]
                w true out err s eq_refl Hdocker)).
  reflexivity.
Qed.

Lemma exists_answer (name out err : string) (s : engine) (w : world) :
  docker ["docker"; "ps"; "-a"; "--format"; "{{.Names}}"] (host_state w)
  = (Exited 0 out err, s) ->
  _exists name w
  = (Ok (mem name (splitlines out)),
     ran ["docker"; "ps"; "-a"; "--format"; "{{.Names}}"] s w).
Proof.
  intros Hdocker. unfold _exists.
  rewrite (bind_ok _ _ _ _ _
             (run_checked_ok [VStr "docker"; VStr "ps"; VStr "-a"; VStr "--format"; VStr "{{.Names}}"]
                ["docker"; "ps"; "-a"; "--format"; "{{.Names}}"]
                w true out err s eq_refl Hdocker)).
  reflexivity.
Qed.

(** X16.  Stopping a container by name when no container has that name: the two
    listing queries are all that reaches the engine, and the method returns
    normally. *)
Theorem stop_of_absent_container (name out err out' err' : string)
    (s1 s2 : engine) (w : world) :
  docker ["docker"; "ps"; "--format"; "{{.Names}}"] (host_state w)
  = (Exited 0 out err, s1) ->
  docker ["docker"; "ps"; "-a"; "--format"; "{{.Names}}"] s1
  = (Exited 0 out' err', s2) ->
  mem name (splitlines out) = false ->
  mem name (splitlines out') = false ->
  exists w',
    stop (Some name) w = (Ok tt, w')
    /\ host_state w' = s2
    /\ trace w' = (trace w ++ [ps_running; ps_all])%list.
Proof.
  intros Hps Hall Hout Hout'. unfold stop.
  rewrite (bind_ok _ _ _ _ _ (running_answer name _ _ _ _ Hps)), Hout.
  unfold bind at 1, ret at 1.
  rewrite (bind_ok _ _ _ _ _ (exists_answer name out' err' s2 (ran _ s1 w) Hall)),
    Hout'.
  eexists. split; [reflexivity|]. split; [reflexivity|].
  cbn [ran record trace]. rewrite <- app_assoc. reflexivity.
Qed.

(** X17.  Unlike [stop_by_id], stopping by name does not absorb a failure: when
    [docker stop] exits with a code other than zero for a running container,
    the error is raised to the caller and the container is not removed, the
    removal is not even attempted. *)
Theorem stop_by_name_raises (name out err out' err' : string) (rc : Z)
    (s1 s2 : engine) (w : world) :
  docker ["docker"; "ps"; "--format"; "{{.Names}}"] (host_state w)
  = (Exited 0 out err, s1) ->
  mem name (splitlines out) = true ->
  docker ["docker"; "stop"; name] s1 = (Exited rc out' err', s2) ->
  rc <> 0 ->
  exists w',
    stop (Some name) w = (Raise (CalledProcessError rc), w')
    /\ trace w' = (trace w ++ [ps_running; EvDocker ["docker"; "stop"; name]])%list.
Proof.
  intros Hps Hup Hstop Hrc. unfold stop.
  rewrite (bind_ok _ _ _ _ _ (running_answer name _ _ _ _ Hps)), Hup.
  unfold bind at 1 2.
  rewrite (run_checked_fails [VStr "docker"; VStr "stop"; VStr name]
             ["docker"; "stop"; name] (ran _ s1 w) false rc out' err' s2
             eq_refl Hstop Hrc).
  eexists. split; [reflexivity|].
  cbn [ran record trace]. rewrite <- app_assoc. reflexivity.
Qed.

Lemma running_among_answer (up err : string) (names : list string) :
  forall w : world,
    docker ["docker"; "ps"; "--format"; "{{.Names}}"] (host_state w)
    = (Exited 0 up err, host_state w) ->
    running_among names w
    = (Ok (filter (fun n => mem n (splitlines up)) names),
       {| host_state := host_state w;
          trace := (trace w ++ repeat ps_running (List.length names))%list |}).
Proof.
  induction names as [|n names IH]; intros w Hps.
  - cbn. rewrite app_nil_r. destruct w; reflexivity.
  - cbn [running_among filter List.length repeat].
    rewrite (bind_ok _ _ _ _ _ (running_answer n up err (host_state w) w Hps)).
    rewrite (bind_ok _ _ _ _ _ (IH (ran _ (host_state w) w) Hps)).
    unfold ret. cbn [ran record host_state trace].
    rewrite <- app_assoc. cbn [app].
    destruct (mem n (splitlines up)); reflexivity.
Qed.

(** X18.  Stopping everything, on an engine whose listing of the running
    containers changes nothing.  With no container listed nothing more is
    done.  Otherwise, when the method returns, it has asked once per listed
    name whether that container runs, has stopped exactly the listed
    containers that run, in one command and only if there are any, and has
    ended with one [docker rm] of every name of the listing, whoever created
    the containers. *)
Theorem stop_all_removes_every_listed_container (out err up err' : string)
    (s1 : engine) (w w' : world) :
  docker ["docker"; "ps"; "-a"; "--format"; "{{.Names}}"] (host_state w)
  = (Exited 0 out err, s1) ->
  docker ["docker"; "ps"; "--format"; "{{.Names}}"] s1 = (Exited 0 up err', s1) ->
  stop None w = (Ok tt, w') ->
  trace w'
  = (trace w
     ++ ps_all
        :: stop_all_events (splitlines out)
             (filter (fun n => mem n (splitlines up)) (splitlines out)))%list.
Proof.
  intros Hall Hps. unfold stop.
  rewrite (bind_ok _ _ _ _ _
             (run_checked_ok [VStr "docker"; VStr "ps"; VStr "-a"; VStr "--format"; VStr "{{.Names}}"]
                ["docker"; "ps"; "-a"; "--format"; "{{.Names}}"]
                w true out err s1 eq_refl Hall)).
  unfold listing at 1. cbn [stdout]. unfold bind at 1, ret at 1.
  destruct (splitlines out) as [|n names] eqn:Hnames.
  { intros [= <-]. reflexivity. }
  rewrite (bind_ok _ _ _ _ _
             (running_among_answer up err' (n :: names) (ran _ s1 w) Hps)).
  unfold stop_all_events.
  destruct (filter (fun n0 => mem n0 (splitlines up)) (n :: names))
    as [|r running].
  - unfold bind at 1, ret at 1. unfold bind at 1.
    destruct (_run _ true false _) as [[cp|e] w2] eqn:Hrm; [|discriminate].
    intros [= <-].
    rewrite (run_trace _ ("docker" :: "rm" :: n :: names) _ _ _ _ _
               ltac:(cbn [strs]; rewrite strs_map; reflexivity) Hrm).
    cbn [ran record trace host_state]. rewrite <- !app_assoc. reflexivity.
  - unfold bind at 1 2.
    destruct (_run _ true false _) as [[cp|e] w2] eqn:Hstop; [|discriminate].
    unfold ret at 1. unfold bind at 1.
    destruct (_run _ true false w2) as [[cp'|e] w3] eqn:Hrm; [|discriminate].
    intros [= <-].
    rewrite (run_trace _ ("docker" :: "rm" :: n :: names) _ _ _ _ _
               ltac:(cbn [strs]; rewrite strs_map; reflexivity) Hrm).
    rewrite (run_trace _ ("docker" :: "stop" :: r :: running) _ _ _ _ _
               ltac:(cbn [strs map]; rewrite strs_map; reflexivity) Hstop).
    cbn [ran record trace host_state]. rewrite <- !app_assoc. reflexivity.
Qed.

Lemma succeeds_outcome (argv : list string) (w : world) :
  succeeds argv w
  = (Ok (exit_zero (fst (docker argv (host_state w)))),
     ran argv (snd (docker argv (host_state w))) w).
Proof.
  unfold succeeds, run_plain, try_except, bind, exec, ran, ret, raise.
  destruct (docker argv (host_state w)) as [[rc out err|e] s];
    cbn [fst snd exit_zero]; [destruct (rc =? 0)|]; reflexivity.
Qed.

Lemma bind_succeeds (argv : list string) (w : world) :
  (works <- succeeds argv ;; if works then ret true else ret false) w
  = succeeds argv w.
Proof.
  unfold bind. rewrite succeeds_outcome. destruct (exit_zero _); reflexivity.
Qed.

Lemma run_checked_outcome (argv : list string) (w : world) :
  run_checked argv w
  = (match fst (docker argv (host_state w)) with
     | Exited rc out _ => if rc =? 0 then Ok out else Raise (CalledProcessError rc)
     | NotRun e => Raise e
     end,
     ran argv (snd (docker argv (host_state w))) w).
Proof.
  unfold run_checked, bind, exec, ran, ret, raise.
  destruct (docker argv (host_state w)) as [[rc out err|e] s];
    cbn [fst snd]; [destruct (rc =? 0)|]; reflexivity.
Qed.

(** X19.  With a docker that answers [docker ps], neither start-up check does
    anything else: the one query is all that is run (no [sudo], no restart
    of the service, no wait), and both answer [True]. *)
Theorem working_docker_is_left_alone (file_not_found : exn -> bool)
    (out err : string) (s : engine) (w : world) :
  docker docker_ps (host_state w) = (Exited 0 out err, s) ->
  fix_docker_permissions w = (Ok true, ran docker_ps s w)
  /\ check_and_install_docker file_not_found w = (Ok true, ran docker_ps s w).
Proof.
  intros Hps. split.
  - unfold fix_docker_permissions, try_except. unfold bind at 1.
    fold docker_ps. rewrite succeeds_outcome, Hps. reflexivity.
  - unfold check_and_install_docker, try_except. unfold bind at 1.
    fold docker_ps. rewrite run_checked_outcome, Hps. reflexivity.
Qed.

Lemma add_user_step (w : world) :
  exists w',
    try_except
      (current_user <- run_checked ["whoami"] ;;
       run_checked ["sudo"; "usermod"; "-aG"; "docker"; strip current_user] ;;;
       ret tt)
      (fun _ => ret tt) w = (Ok tt, w')
    /\ trace w'
       = (trace w ++ EvDocker ["whoami"]
            :: group_change (fst (docker ["whoami"] (host_state w))))%list.
Proof.
  unfold try_except. unfold bind at 1. rewrite run_checked_outcome.
  destruct (fst (docker ["whoami"] (host_state w))) as [rc out err|e];
    cbn [group_change].
  - destruct (rc =? 0).
    + unfold bind at 1. rewrite run_checked_outcome.
      exists (ran ["sudo"; "usermod"; "-aG"; "docker"; strip out]
                (snd (docker ["sudo"; "usermod"; "-aG"; "docker"; strip out]
                        (host_state (ran ["whoami"]
                                       (snd (docker ["whoami"] (host_state w))) w))))
                (ran ["whoami"] (snd (docker ["whoami"] (host_state w))) w)).
      split.
      * destruct (fst (docker _ _)) as [rc' out' err'|e'];
          [destruct (rc' =? 0)|]; reflexivity.
      * cbn [ran record trace]. rewrite <- app_assoc. reflexivity.
    + eexists. split; reflexivity.
  - eexists. split; reflexivity.
Qed.

Lemma restart_step (w : world) :
  exists w',
    try_except
      (run_checked ["sudo"; "systemctl"; "restart"; "docker"] ;;; ret tt)
      (fun _ => ret tt) w = (Ok tt, w')
    /\ trace w' = (trace w ++ [restart_docker])%list.
Proof.
  unfold try_except. unfold bind at 1. rewrite run_checked_outcome.
  eexists. split.
  - destruct (fst (docker _ _)) as [rc out err|e];
      [destruct (rc =? 0)|]; reflexivity.
  - reflexivity.
Qed.

(** X20.  With a docker that does not answer [docker ps], the repair never raises
    and always runs to its end: it asks for the user's name, adds the user
    to the docker group only when it got a name, restarts the service
    whether or not that worked, waits three seconds and asks [docker ps]
    again; its answer is whether this second query exits with zero. *)
Theorem fix_docker_permissions_repair (w : world) :
  exit_zero (fst (docker docker_ps (host_state w))) = false ->
  exists w3,
    fix_docker_permissions w
    = (Ok (exit_zero (fst (docker docker_ps (host_state w3)))),
       ran docker_ps (snd (docker docker_ps (host_state w3))) w3)
    /\ trace w3
       = (trace w ++ EvDocker docker_ps :: EvDocker ["whoami"]
            :: group_change
                 (fst (docker ["whoami"] (snd (docker docker_ps (host_state w)))))
            ++ [restart_docker; EvSleep 3])%list.
Proof.
  intros Hfails. unfold fix_docker_permissions.
  unfold try_except at 1. unfold bind at 1.
  fold docker_ps. rewrite succeeds_outcome, Hfails.
  destruct (add_user_step (ran docker_ps (snd (docker docker_ps (host_state w))) w))
    as (w1 & Huser & Htrace1).
  rewrite (bind_ok _ _ _ _ _ Huser).
  destruct (restart_step w1) as (w2 & Hrestart & Htrace2).
  rewrite (bind_ok _ _ _ _ _ Hrestart).
  unfold bind at 1, sleep at 1. rewrite bind_succeeds, succeeds_outcome.
  exists (record (EvSleep 3) w2). split.
  - reflexivity.
  - cbn [record trace]. rewrite Htrace2, Htrace1. cbn [ran record trace host_state].
    rewrite <- !app_assoc. reflexivity.
Qed.

(** X21.  The GPU check never raises, and its answer is the outcome of the last
    command it runs, which is always one of the two [docker run ...
    nvidia-smi] probes: finding [nvidia-container-cli] decides nothing by
    itself, it only puts the probe with [--gpus all] first, and the probe
    with [--runtime=nvidia] is the last resort either way. *)
Theorem gpu_support_is_the_last_probe (w : world) :
  exists probe w0,
    check_docker_gpu_support w
    = (Ok (exit_zero (fst (docker probe (host_state w0)))),
       ran probe (snd (docker probe (host_state w0))) w0)
    /\ ((probe = gpus_flag_probe
         /\ exit_zero (fst (docker probe (host_state w0))) = true
         /\ exit_zero (fst (docker ["nvidia-container-cli"; "info"] (host_state w)))
            = true
         /\ trace w0 = (trace w ++ [EvDocker ["nvidia-container-cli"; "info"]])%list)
        \/ (probe = nvidia_runtime_probe
            /\ exists before,
                 trace w0
                 = (trace w ++ EvDocker ["nvidia-container-cli"; "info"] :: before)%list
                 /\ (before = []
                     \/ before = [EvDocker gpus_flag_probe]
                        /\ exit_zero (fst (docker ["nvidia-container-cli"; "info"]
                                             (host_state w))) = true))).
Proof.
  unfold check_docker_gpu_support, try_except. unfold bind at 1.
  rewrite succeeds_outcome.
  destruct (exit_zero (fst (docker ["nvidia-container-cli"; "info"] (host_state w))))
    eqn:Htoolkit.
  - unfold bind at 1. rewrite succeeds_outcome.
    destruct (exit_zero (fst (docker gpus_flag_probe _))) eqn:Hflag.
    + exists gpus_flag_probe. eexists. split.
      * rewrite Hflag. reflexivity.
      * left. split; [reflexivity|]. split; [exact Hflag|].
        split; [reflexivity|reflexivity].
    + rewrite bind_succeeds, succeeds_outcome.
      exists nvidia_runtime_probe. eexists. split.
      * reflexivity.
      * right. split; [reflexivity|]. exists [EvDocker gpus_flag_probe].
        split; [|right; split; reflexivity].
        cbn [ran record trace]. rewrite <- app_assoc. reflexivity.
  - rewrite bind_succeeds, succeeds_outcome.
    exists nvidia_runtime_probe. eexists. split.
    + reflexivity.
    + right. split; [reflexivity|]. exists []. split; [reflexivity|left; reflexivity].
Qed.

(** X22.  Without docker the start-up check gives up quietly: when neither
    [docker ps] nor [docker --version] can be run, or exits with zero,
    the answer is [False] after these two commands, and no repair is tried. *)
Theorem check_gives_up_without_docker (file_not_found : exn -> bool) (w : world)
    (p1 p2 : proc) (s1 s2 : engine) :
  docker docker_ps (host_state w) = (p1, s1) ->
  docker ["docker"; "--version"] s1 = (p2, s2) ->
  exit_zero p1 = false ->
  exit_zero p2 = false ->
  (forall e, p1 = NotRun e \/ p2 = NotRun e -> passes_through file_not_found e = false) ->
  check_and_install_docker file_not_found w
  = (Ok false, ran ["docker"; "--version"] s2 (ran docker_ps s1 w)).
Proof.
  intros Hps Hversion Hp1 Hp2 Hcaught.
  unfold check_and_install_docker, try_except. unfold bind at 1.
  fold docker_ps. rewrite run_checked_outcome, Hps. cbn [fst snd].
  assert (Hinner :
    (let (r, w') :=
       (run_checked ["docker"; "--version"];;;
        fixed <- fix_docker_permissions;; (if fixed then ret true else ret false))
         (ran docker_ps s1 w) in
     match r with
     | Ok a => (Ok a, w')
     | Raise e' =>
         (if match e' with
             | CalledProcessError _ => true
             | _ => file_not_found e'
             end
          then ret false
          else raise e') w'
     end) = (Ok false, ran ["docker"; "--version"] s2 (ran docker_ps s1 w))).
  { unfold bind at 1. rewrite run_checked_outcome.
    cbn [ran record host_state]. rewrite Hversion. cbn [fst snd].
    destruct p2 as [rc out err|e].
    - cbn [exit_zero] in Hp2. rewrite Hp2. reflexivity.
    - specialize (Hcaught e (or_intror eq_refl)).
      destruct e; cbn [passes_through] in Hcaught;
        try (apply negb_false_iff in Hcaught; rewrite Hcaught); reflexivity. }
  destruct p1 as [rc out err|e].
  - cbn [exit_zero] in Hp1. rewrite Hp1. exact Hinner.
  - specialize (Hcaught e (or_introl eq_refl)).
    destruct e; cbn [passes_through] in Hcaught;
      try (apply negb_false_iff in Hcaught; rewrite Hcaught); exact Hinner.
Qed.

(** X23.  The start-up check is not total: an error of [docker ps] that is neither
    a failed exit nor a missing file, a binary the user may not execute for
    one, is raised to the caller, after that one command. *)
Theorem check_raises_other_errors (file_not_found : exn -> bool) (w : world)
    (e : exn) (s : engine) :
  docker docker_ps (host_state w) = (NotRun e, s) ->
  passes_through file_not_found e = true ->
  check_and_install_docker file_not_found w = (Raise e, ran docker_ps s w).
Proof.
  intros Hps Hpasses.
  unfold check_and_install_docker, try_except. unfold bind at 1.
  fold docker_ps. rewrite run_checked_outcome, Hps. cbn [fst snd].
  destruct e; cbn [passes_through] in Hpasses; try discriminate;
    apply negb_true_iff in Hpasses; rewrite Hpasses; reflexivity.
Qed.
End Commands.

(** On the fresh simulated host there is no container [ghost]. *)
Lemma stop_of_absent_container_witness :
  exists w',
    @stop Sim.host (Some "ghost") (Sim.boot Sim.fresh) = (Ok tt, w')
    /\ host_state w' = Sim.fresh
    /\ trace w' = [ps_running; ps_all].
Proof.
  apply (@stop_of_absent_container Sim.host "ghost" "" "" "" "" Sim.fresh Sim.fresh
           (Sim.boot Sim.fresh));
    reflexivity.
Defined.

(** A container [web] that runs and cannot be stopped. *)
Lemma stop_by_name_raises_witness :
  exists w',
    @stop (Canned.host Canned.stuck) (Some "web") (Canned.boot Canned.stuck)
    = (Raise (CalledProcessError 1), w')
    /\ trace w' = [ps_running; EvDocker ["docker"; "stop"; "web"]].
Proof.
  apply (@stop_by_name_raises (Canned.host Canned.stuck) "web"
           ("web" ++ String "010" "") "" "" "cannot stop container" 1 tt tt
           (Canned.boot Canned.stuck));
    [reflexivity | vm_compute; reflexivity | reflexivity | discriminate].
Defined.

(** The running container [task_1] is stopped and removed by [stop()]. *)
Lemma stop_all_removes_every_listed_container_witness :
  trace (after (@stop Sim.host None) (Sim.boot running_task_1))
  = ([] ++ ps_all
        :: stop_all_events (splitlines ("task_1" ++ String "010" ""))
             (filter (fun n => mem n (splitlines ("task_1" ++ String "010" "")))
                     (splitlines ("task_1" ++ String "010" ""))))%list.
Proof.
  apply (@stop_all_removes_every_listed_container Sim.host
           ("task_1" ++ String "010" "") "" ("task_1" ++ String "010" "") ""
           running_task_1 (Sim.boot running_task_1));
    vm_compute; reflexivity.
Defined.

(** A machine with a docker that answers. *)
Lemma working_docker_is_left_alone_witness :
  @fix_docker_permissions (Canned.host Canned.healthy) (Canned.boot Canned.healthy)
  = (Ok true, @ran (Canned.host Canned.healthy) docker_ps tt (Canned.boot Canned.healthy))
  /\ @check_and_install_docker (Canned.host Canned.healthy) (fun _ => false)
       (Canned.boot Canned.healthy)
     = (Ok true, @ran (Canned.host Canned.healthy) docker_ps tt (Canned.boot Canned.healthy)).
Proof.
  apply (@working_docker_is_left_alone (Canned.host Canned.healthy)
           (fun _ => false) "" "" tt (Canned.boot Canned.healthy)).
  reflexivity.
Defined.

(** A daemon that keeps refusing the user: the repair runs through and
    answers [False]. *)
Lemma fix_docker_permissions_repair_witness :
  exists w3,
    @fix_docker_permissions (Canned.host Canned.denied) (Canned.boot Canned.denied)
    = (Ok (exit_zero (fst (@docker (Canned.host Canned.denied) docker_ps
                             (host_state w3)))),
       ran docker_ps (snd (@docker (Canned.host Canned.denied) docker_ps
                             (host_state w3))) w3)
    /\ trace w3
       = ([] ++ EvDocker docker_ps :: EvDocker ["whoami"]
             :: group_change
                  (fst (@docker (Canned.host Canned.denied) ["whoami"]
                          (snd (@docker (Canned.host Canned.denied) docker_ps
                                  (host_state (Canned.boot Canned.denied))))))
             ++ [restart_docker; EvSleep 3])%list.
Proof.
  apply (@fix_docker_permissions_repair (Canned.host Canned.denied)
           (Canned.boot Canned.denied)).
  reflexivity.
Defined.

(** A machine on which no command is found. *)
Lemma check_gives_up_without_docker_witness :
  @check_and_install_docker (Canned.host Canned.missing)
     (fun e => match e with OSError => true | _ => false end)
     (Canned.boot Canned.missing)
  = (Ok false,
     @ran (Canned.host Canned.missing) ["docker"; "--version"] tt
       (@ran (Canned.host Canned.missing) docker_ps tt (Canned.boot Canned.missing))).
Proof.
  apply (@check_gives_up_without_docker (Canned.host Canned.missing)
           (fun e => match e with OSError => true | _ => false end)
           (Canned.boot Canned.missing) (NotRun OSError) (NotRun OSError) tt tt);
    try reflexivity.
  intros e [[= <-] | [= <-]]; reflexivity.
Defined.

(** The same machine, when the error is not that of a missing file. *)
Lemma check_raises_other_errors_witness :
  @check_and_install_docker (Canned.host Canned.missing) (fun _ => false)
     (Canned.boot Canned.missing)
  = (Raise OSError,
     @ran (Canned.host Canned.missing) docker_ps tt (Canned.boot Canned.missing)).
Proof.
  apply (@check_raises_other_errors (Canned.host Canned.missing) (fun _ => false)
           (Canned.boot Canned.missing) OSError tt);
    reflexivity.
Defined.

(** ** What a report leaves out *)

Section LeftOut.
Context `{Host}.

(** X11.  A status report is built from six fields of the result and from nothing
    else: two results that agree on status, identifier, name, SSH host, SSH
    port and error message give the same payload, so neither the SSH
    password nor the port mapping nor the allocated resources, which the
    task processor puts into its result, are sent with the report. *)
Theorem status_payload_ignores_the_rest (r r' : dict) :
  (forall field, In field reported_fields -> get r field = get r' field) ->
  status_payload r = status_payload r'.
Proof.
  intros Hsame. unfold status_payload.
  rewrite (Hsame "status"), (Hsame "container_id"), (Hsame "container_name"),
    (Hsame "ssh_host"), (Hsame "ssh_port"), (Hsame "error_message");
    try reflexivity; cbn [reported_fields In]; tauto.
Qed.
End LeftOut.

(** The same container reported with two different passwords. *)
Lemma status_payload_ignores_the_rest_witness :
  @status_payload Sim.host (started_with "p")
  = @status_payload Sim.host (started_with "q").
Proof.
  apply (@status_payload_ignores_the_rest Sim.host (started_with "p")
           (started_with "q")).
  intros field Hin. cbn [reported_fields In] in Hin.
  destruct Hin as [<- | [<- | [<- | [<- | [<- | [<- | []]]]]]]; reflexivity.
Defined.

(** ** A start in the port-mapping mode, from the task to the engine *)

Section MappedStart.
Context `{Host}.

Lemma free_ports (host_ports : list string) (w : world) :
  forallb (fun host_port =>
             match port_of host_port with
             | Some p => negb (bind_refused p (host_state w))
             | None => false
             end) host_ports = true ->
  forallb is_port host_ports = true /\ filter (taken w) host_ports = [].
Proof.
  induction host_ports as [|k rest IH]; intros Hall; [split; reflexivity|].
  cbn [forallb filter] in *. apply andb_prop in Hall as [Hk Hrest].
  destruct (IH Hrest) as [Hports Hfree]. unfold is_port at 1, taken at 1.
  destruct (port_of k) as [p|]; [|discriminate Hk].
  apply negb_true_iff in Hk. rewrite Hk, Hports. split; [reflexivity|exact Hfree].
Qed.

Lemma launch_goes_through (name image : string) (port_mapping : dict)
    (ssh_password jupyter_token ssh_username : value) (gpus cpuset : option string)
    (memory swap shm storage : option Z) (cmd : list string)
    (container_id : string) (s5 : engine) (w : world) :
  image <> "" ->
  strs (run_args name (port_args port_mapping) ssh_password jupyter_token gpus
          (VStr image) cpuset memory swap shm storage) = Some cmd ->
  first_launch (host_state w) name image (map fst port_mapping) cmd container_id s5 ->
  exists w5,
    start_with_port_mapping name port_mapping ssh_password jupyter_token
      ssh_username gpus (VStr image) cpuset memory swap shm storage w
    = (Ok (Some container_id), w5)
    /\ trace w5
       = (trace w ++ launch_events name image (map fst port_mapping) cmd)%list.
Proof.
  intros Himage Hcmd
    (out1 & err1 & s1 & out2 & err2 & s2 & out3 & err3 & s3 & out4 & err4 & s4
     & out5 & err5 & Hps & Hout1 & Hall & Hout2 & Hfree & Hinspect & Hvolume
     & Hrun & ->).
  set (w1 := ran ["docker"; "ps"; "--format"; "{{.Names}}"] s1 w).
  set (w2 := ran ["docker"; "ps"; "-a"; "--format"; "{{.Names}}"] s2 w1).
  destruct (free_ports (map fst port_mapping) w2 Hfree) as [Hports Hnone].
  set (w3 := {| host_state := host_state w2;
                trace := (trace w2
                          ++ map EvBind (ports_of (map fst port_mapping)))%list |}).
  assert (Hrun_image : py_or (VStr image) (VStr Settings.image) = VStr image).
  { unfold py_or. cbn [truthy].
    destruct (String.eqb_spec image ""); [congruence|reflexivity]. }
  eexists. split.
  - unfold start_with_port_mapping.
    rewrite (bind_ok _ _ _ _ _ (running_answer name _ _ _ _ Hps)), Hout1.
    rewrite (bind_ok _ _ _ _ _ (exists_answer name out2 err2 s2 w1 Hall)), Hout2.
    fold w1 w2. unfold _assert_port_mapping_free.
    erewrite bind_ok.
    2:{ rewrite (bind_ok _ _ _ _ _ (probe_ports_world _ [] w2 Hports)).
        cbn [app]. rewrite Hnone. reflexivity. }
    fold w3. unfold launch. rewrite Hrun_image.
    erewrite bind_ok.
    2:{ rewrite images_has_outcome. cbn [w3 host_state w2 ran record].
        rewrite Hinspect. reflexivity. }
    cbn [negb].
    erewrite bind_ok.
    2:{ apply (run_checked_ok
                 [VStr "docker"; VStr "volume"; VStr "create"; VStr (name ++ "-work")]
                 ["docker"; "volume"; "create"; name ++ "-work"]
                 _ false out4 err4 s4 eq_refl).
        exact Hvolume. }
    cbv zeta.
    erewrite bind_ok.
    2:{ apply (run_checked_ok _ cmd _ true out5 err5 s5 Hcmd). exact Hrun. }
    reflexivity.
  - unfold launch_events. cbn [ran record trace w3 w2 w1 host_state].
    rewrite <- !app_assoc. reflexivity.
Qed.

Lemma mapped_start_outcome (task_id : value)
    (task_data container_info port_mapping : dict) (operation image : string)
    (cmd : list string) (container_id : string) (s5 : engine) (w : world) :
  normalized (get task_data "operation") "" = Ok operation ->
  is_control operation = false ->
  get task_data "docker_image" = VStr image ->
  image <> "" ->
  get container_info "port_mapping" = VDict port_mapping ->
  port_mapping <> [] ->
  truthy (get container_info "ssh_password") = true ->
  strs (mapped_run_args task_id task_data container_info port_mapping) = Some cmd ->
  first_launch
    (host_state (after (send_log (start_requested task_id task_data)) w))
    ("task_" ++ py_str task_id) image (map fst port_mapping) cmd container_id s5 ->
  exists r w' line,
    process_task task_id task_data container_info w = (Ok (Some r), w')
    /\ get r "status" = VStr "running"
    /\ get r "container_id" = VStr container_id
    /\ get r "ssh_port" = ssh_port_of port_mapping
    /\ get r "ssh_command"
       = (if truthy (ssh_port_of port_mapping)
          then ssh_command_for container_info (ssh_port_of port_mapping)
          else VNone)
    /\ trace w'
       = (trace w ++ log_post (start_requested task_id task_data)
            :: launch_events ("task_" ++ py_str task_id) image
                 (map fst port_mapping) cmd
            ++ [log_post line])%list.
Proof.
  intros Hop Hstart Hfield Himage Hmapping Hentries Hpassword Hcmd Hlaunch.
  unfold mapped_run_args in Hcmd. rewrite Hfield in Hcmd.
  destruct (launch_goes_through _ image port_mapping
              (get container_info "ssh_password")
              (get container_info "ssh_password")
              (py_or (get container_info "ssh_username") (VStr "root"))
              _ _ _ _ _ _ cmd container_id s5 _ Himage Hcmd Hlaunch)
    as (w5 & Hgo & Htrace).
  destruct port_mapping as [|entry entries]; [congruence|].
  assert (Htruthy : truthy (get task_data "docker_image") = true).
  { rewrite Hfield. cbn [truthy].
    destruct (String.eqb_spec image ""); [congruence|reflexivity]. }
  eexists. eexists. eexists. split; [|split; [|split; [|split; [|split]]]].
  - apply process_task_returns.
    unfold process_task_try. rewrite Hop, bind_lift_ok, Hstart.
    unfold provision. rewrite Htruthy. cbn [negb]. rewrite Hmapping.
    unfold provision_mapped at 1. rewrite Hpassword. cbn [negb].
    erewrite bind_ok.
    2:{ rewrite seq_send_log. erewrite bind_ok; [reflexivity|].
        rewrite <- Hfield in Hgo. exact Hgo. }
    cbv beta iota. rewrite seq_send_log. reflexivity.
  - reflexivity.
  - reflexivity.
  - reflexivity.
  - reflexivity.
  - rewrite send_log_trace, Htrace. unfold start_requested at 2.
    rewrite send_log_trace. rewrite <- !app_assoc. reflexivity.
Qed.

(** C10.  A start task in port-mapping mode whose mapping has no entry for
    container port 22 is launched like any other.  When the engine lets a
    first launch through, the container is run with the ports of the
    mapping, and the task processor returns a result with status [running]
    and the identifier the engine printed, in which [ssh_port] and
    [ssh_command] are both [None]. *)
Theorem C10_mapping_without_ssh_port (task_id : value)
    (task_data container_info port_mapping : dict) (operation image : string)
    (cmd : list string) (container_id : string) (s5 : engine) (w : world) :
  normalized (get task_data "operation") "" = Ok operation ->
  is_control operation = false ->
  get task_data "docker_image" = VStr image ->
  image <> "" ->
  get container_info "port_mapping" = VDict port_mapping ->
  port_mapping <> [] ->
  truthy (get container_info "ssh_password") = true ->
  no_ssh_entry port_mapping = true ->
  strs (mapped_run_args task_id task_data container_info port_mapping) = Some cmd ->
  first_launch
    (host_state (after (send_log (start_requested task_id task_data)) w))
    ("task_" ++ py_str task_id) image (map fst port_mapping) cmd container_id s5 ->
  exists r w' line,
    process_task task_id task_data container_info w = (Ok (Some r), w')
    /\ get r "status" = VStr "running"
    /\ get r "ssh_port" = VNone
    /\ get r "ssh_command" = VNone
    /\ get r "container_id" = VStr container_id
    /\ trace w'
       = (trace w ++ log_post (start_requested task_id task_data)
            :: launch_events ("task_" ++ py_str task_id) image
                 (map fst port_mapping) cmd
            ++ [log_post line])%list.
Proof.
  intros Hop Hstart Hfield Himage Hmapping Hentries Hpassword Hnossh Hcmd Hlaunch.
  destruct (mapped_start_outcome task_id task_data container_info port_mapping
              operation image cmd container_id s5 w Hop Hstart Hfield Himage
              Hmapping Hentries Hpassword Hcmd Hlaunch)
    as (r & w' & line & Hrun & Hstatus & Hid & Hport & Hcommand & Htrace).
  rewrite (ssh_port_of_none _ Hnossh) in Hport, Hcommand.
  exists r, w', line. repeat (split; [assumption|]). assumption.
Qed.

(** X9.  The SSH port in the result of such a start is the host port of the
    first entry of the mapping whose container port equals 22, and the
    result carries the SSH command for that port; when no entry has that
    container port, the SSH port is [None]. *)
Theorem ssh_port_is_first_entry_for_22 (task_id : value)
    (task_data container_info port_mapping : dict) (operation image : string)
    (cmd : list string) (container_id : string) (s5 : engine) (w : world) :
  normalized (get task_data "operation") "" = Ok operation ->
  is_control operation = false ->
  get task_data "docker_image" = VStr image ->
  image <> "" ->
  get container_info "port_mapping" = VDict port_mapping ->
  port_mapping <> [] ->
  truthy (get container_info "ssh_password") = true ->
  strs (mapped_run_args task_id task_data container_info port_mapping) = Some cmd ->
  first_launch
    (host_state (after (send_log (start_requested task_id task_data)) w))
    ("task_" ++ py_str task_id) image (map fst port_mapping) cmd container_id s5 ->
  exists r w',
    process_task task_id task_data container_info w = (Ok (Some r), w')
    /\ ((exists before host_port container_port rest,
           port_mapping = (before ++ (host_port, container_port) :: rest)%list
           /\ no_ssh_entry before = true
           /\ eq_int container_port 22 = true
           /\ get r "ssh_port" = VStr host_port
           /\ (host_port <> "" ->
               get r "ssh_command"
               = ssh_command_for container_info (VStr host_port)))
        \/ (no_ssh_entry port_mapping = true /\ get r "ssh_port" = VNone)).
Proof.
  intros Hop Hstart Hfield Himage Hmapping Hentries Hpassword Hcmd Hlaunch.
  destruct (mapped_start_outcome task_id task_data container_info port_mapping
              operation image cmd container_id s5 w Hop Hstart Hfield Himage
              Hmapping Hentries Hpassword Hcmd Hlaunch)
    as (r & w' & line & Hrun & _ & _ & Hport & Hcommand & _).
  exists r, w'. split; [exact Hrun|].
  pose proof (ssh_port_of_split port_mapping) as Hsplit.
  destruct (ssh_port_of port_mapping) as [| | | |k| |]; try contradiction.
  - right. split; [exact Hsplit|exact Hport].
  - left. destruct Hsplit as (before & v & rest & Heq & Hv & Hbefore).
    exists before, k, v, rest. repeat (split; [assumption|]).
    intros Hk. rewrite Hcommand. cbn [truthy].
    destruct (String.eqb_spec k ""); [congruence|reflexivity].
Qed.
End MappedStart.

Ltac engine_lets_through :=
  unfold first_launch; do 14 eexists;
  repeat (split; [vm_compute; reflexivity|]); vm_compute; reflexivity.

(** A task that maps port 5001 to the Jupyter port only, on the fresh
    simulated host: the container is run with [-p 5001:8888], and the result
    carries no SSH port and no SSH command. *)
Lemma C10_mapping_without_ssh_port_witness :
  exists r w' line,
    @process_task Sim.host (VInt 2) task_a_data task_2_info (Sim.boot Sim.fresh)
    = (Ok (Some r), w')
    /\ get r "status" = VStr "running"
    /\ get r "ssh_port" = VNone
    /\ get r "ssh_command" = VNone
    /\ get r "container_id" = VStr "c0ffee-task_2"
    /\ trace w'
       = ([] ++ log_post (@start_requested Sim.host (VInt 2) task_a_data)
             :: launch_events ("task_" ++ @py_str Sim.host (VInt 2)) "x"
                  (map fst [("5001", VInt 8888)]) task_2_cmd
             ++ [log_post line])%list.
Proof.
  eapply (@C10_mapping_without_ssh_port Sim.host (VInt 2) task_a_data task_2_info
            [("5001", VInt 8888)] "start" "x" task_2_cmd "c0ffee-task_2" _
            (Sim.boot Sim.fresh));
    [reflexivity | reflexivity | reflexivity | discriminate | reflexivity
    | discriminate | reflexivity | reflexivity | reflexivity
    | engine_lets_through].
Defined.

(** Of two entries for container port 22 the first one, port 5000, is the
    SSH port of the result. *)
Lemma ssh_port_is_first_entry_for_22_witness :
  exists r w',
    @process_task Sim.host (VInt 8) task_a_data task_8_info (Sim.boot Sim.fresh)
    = (Ok (Some r), w')
    /\ ((exists before host_port container_port rest,
           [("5001", VInt 8888); ("5000", VInt 22); ("6000", VInt 22)]
           = (before ++ (host_port, container_port) :: rest)%list
           /\ no_ssh_entry before = true
           /\ eq_int container_port 22 = true
           /\ get r "ssh_port" = VStr host_port
           /\ (host_port <> "" ->
               get r "ssh_command"
               = @ssh_command_for Sim.host task_8_info (VStr host_port)))
        \/ (no_ssh_entry [("5001", VInt 8888); ("5000", VInt 22); ("6000", VInt 22)]
            = true
            /\ get r "ssh_port" = VNone)).
Proof.
  eapply (@ssh_port_is_first_entry_for_22 Sim.host (VInt 8) task_a_data task_8_info
            [("5001", VInt 8888); ("5000", VInt 22); ("6000", VInt 22)]
            "start" "x" task_8_cmd "c0ffee-task_8" _ (Sim.boot Sim.fresh));
    [reflexivity | reflexivity | reflexivity | discriminate | reflexivity
    | discriminate | reflexivity | reflexivity
    | engine_lets_through].
Defined.
